(** * Calibration scripts of opencap-core: a shallow embedding

    The development follows the Python sources:
    - [visualizePickle.py]: the intrinsics loader and the parameter
      extraction of the frustum viewer;
    - [main_calcIntrinsicsSony.py]: the multi-trial intrinsics script;
    - [ReproducePaperResults/ProcessExperimentalDataTwoCameras.py] and
      [ReproducePaperResults/labValidationVideosToKinematicsThreeCameras.py]:
      the re-ordering of trial folders and the per-trial dispatch.
    - [utilsTRC.py]: the TRC adapter; [ViewPickleFiles.py]: the script that
      prints the deployed records;
    - [ReproducePaperResults/GetAndPlotMTULengths.py]: the names of the plot
      files; and [extract_subject_id_from_session] of the three-camera
      script.

    Modelling conventions.
    - A Python [str] is a [string]; a character is a code point below 256.
    - Python objects that travel through YAML or pickle files are values of
      [pyval]; array entries are rationals (every finite binary64 is one).
    - A raised exception is the [Raise] outcome; [exn] lists subclasses of
      Python's [Exception] only, so [except Exception] catches all of them.
    - The file system is a flat finite map from path to file content;
      directories are implicit.  [os.path.join] follows the POSIX
      implementation.
    - Console output ([print]) is not recorded; a formatting call that can
      raise is kept as a check.
    - Functions imported from modules outside these sources (PyYAML, pickle,
      [utils], [utilsCheckerSony], [main]) are fields of [Externals]. *)

From Stdlib Require Import ZArith QArith String Ascii List Lia DecimalString.
From stdpp Require Import base option list strings gmap.

Local Open Scope Z_scope.
Set Warnings "-register-all".
Set Default Proof Using "Type".

(** ** Python strings *)

Module PyStr.

(** [str.lower] on one code point below 256: A-Z and the Latin-1 capitals
    (all of 0xC0-0xDE but the multiplication sign 0xD7) move up by 32. *)
Definition lower_char (c : ascii) : ascii :=
  let n := nat_of_ascii c in
  if ((65 <=? n)%nat && (n <=? 90)%nat)
     || ((192 <=? n)%nat && (n <=? 222)%nat && negb (n =? 215)%nat)
  then ascii_of_nat (n + 32) else c.

Fixpoint lower (s : string) : string :=
  match s with
  | EmptyString => EmptyString
  | String c s' => String (lower_char c) (lower s')
  end.

(** [s.startswith(p)] *)
Fixpoint startswith (p s : string) : bool :=
  match p, s with
  | EmptyString, _ => true
  | String _ _, EmptyString => false
  | String a p', String b s' => bool_decide (a = b) && startswith p' s'
  end.

(** [needle in hay] on strings: some position of [hay] starts with
    [needle]. *)
Fixpoint str_in (needle hay : string) : bool :=
  startswith needle hay
  || match hay with
     | EmptyString => false
     | String _ hay' => str_in needle hay'
     end.

(** [s.endswith(p)]: [s] or one of its tails is [p]. *)
Fixpoint endswith (p s : string) : bool :=
  bool_decide (s = p)
  || match s with
     | EmptyString => false
     | String _ s' => endswith p s'
     end.

(** [s[:k]] for [0 <= k]. *)
Fixpoint take (k : nat) (s : string) : string :=
  match k, s with
  | O, _ => EmptyString
  | S _, EmptyString => EmptyString
  | S k', String c s' => String c (take k' s')
  end.

(** [s[-1]], when [s] is not empty. *)
Fixpoint last (s : string) : option ascii :=
  match s with
  | EmptyString => None
  | String c EmptyString => Some c
  | String _ s' => last s'
  end.

(** [s[:-1]] *)
Fixpoint but_last (s : string) : string :=
  match s with
  | EmptyString => EmptyString
  | String _ EmptyString => EmptyString
  | String c s' => String c (but_last s')
  end.

End PyStr.

(** ** [os.path] *)

Module OsPath.
Import PyStr.

Definition sep : string := "/".

(** One round of the loop of [posixpath.join]. *)
Definition join2 (path b : string) : string :=
  if startswith sep b then b
  else if bool_decide (path = "") || endswith sep path then path +:+ b
  else path +:+ sep +:+ b.

(** [os.path.join(a, *p)] *)
Definition join (a : string) (p : list string) : string :=
  foldl join2 a p.

End OsPath.

(** ** Python values and exceptions *)

(** Objects that are read from or written to YAML and pickle files.  A
    dictionary keeps its items in insertion order; an array is a
    two-dimensional numpy array given by its rows. *)
Inductive pyval : Type :=
| PNone
| PBool (b : bool)
| PInt (n : Z)
| PFloat (q : Q)
| PStr (s : string)
| PList (xs : list pyval)
| PTuple (xs : list pyval)
| PDict (items : list (string * pyval))
| PArray (rows : list (list Q)).

(** The subclasses of [Exception] that the modelled code can meet. *)
Inductive exn : Type :=
| FileNotFoundError (filename : string)
| OSError (filename : string)
| KeyError (key : string)
| IndexError
| TypeError
| AttributeError
| ValueError
| NameError (name : string)
| UnpicklingError
| YAMLError
| Exception (msg : string).

Inductive outcome (A : Type) : Type :=
| Ok (a : A)
| Raise (e : exn).
Arguments Ok {A} a.
Arguments Raise {A} e.

Global Instance outcome_ret : MRet outcome := @Ok.
Global Instance outcome_bind : MBind outcome := λ A B f m,
  match m with
  | Ok a => f a
  | Raise e => Raise e
  end.

(** A [for] loop that threads the loop-carried variables and stops at the
    first exception. *)
Fixpoint for_fold {A S : Type} (body : S → A → outcome S) (l : list A) (s : S)
  : outcome S :=
  match l with
  | [] => Ok s
  | x :: l' =>
      match body s x with
      | Ok s' => for_fold body l' s'
      | Raise e => Raise e
      end
  end.

Module Py.

(** [d[key]] with a string key. *)
Definition subscript (d : pyval) (key : string) : outcome pyval :=
  match d with
  | PDict items =>
      match list_find (λ kv, kv.1 = key) items with
      | Some (_, kv) => Ok kv.2
      | None => Raise (KeyError key)
      end
  | PArray _ => Raise IndexError
  | _ => Raise TypeError
  end.

(** [a[i, j]]: an array entry.  A dictionary has no tuple key (its keys
    are strings) and raises [KeyError]; any other object refuses a tuple
    index. *)
Definition subscript2 (a : pyval) (i j : nat) : outcome Q :=
  match a with
  | PArray rows =>
      match rows !! i with
      | Some row =>
          match row !! j with
          | Some x => Ok x
          | None => Raise IndexError
          end
      | None => Raise IndexError
      end
  | PDict _ => Raise (KeyError "tuple")
  | _ => Raise TypeError
  end.

(** [int(x)] on a finite float: truncation towards zero. *)
Definition int (x : Q) : Z := Z.quot (Qnum x) (Zpos (Qden x)).

(** [d.items()] *)
Definition items (d : pyval) : outcome (list (string * pyval)) :=
  match d with
  | PDict kvs => Ok kvs
  | _ => Raise AttributeError
  end.

(** Truth value of an object, as [if not x] takes it; an array of more
    than one entry has none. *)
Definition truth (v : pyval) : outcome bool :=
  match v with
  | PNone => Ok false
  | PBool b => Ok b
  | PInt n => Ok (negb (n =? 0))
  | PFloat q => Ok (negb (Qnum q =? 0))
  | PStr s => Ok (negb (bool_decide (s = "")))
  | PList xs | PTuple xs => Ok (negb (bool_decide (xs = [])))
  | PDict kvs => Ok (negb (bool_decide (kvs = [])))
  | PArray [[x]] => Ok (negb (Qnum x =? 0))
  | PArray _ => Raise ValueError
  end.

(** [l.index(x)]: position of the first element equal to [x]. *)
Fixpoint index_of (x : string) (l : list string) : option nat :=
  match l with
  | [] => None
  | y :: l' => if decide (y = x) then Some O else S <$> index_of x l'
  end.

Definition index (l : list string) (x : string) : outcome nat :=
  match index_of x l with
  | Some i => Ok i
  | None => Raise ValueError
  end.

(** [l[i]] for [0 <= i]. *)
Definition getitem {A} (l : list A) (i : nat) : outcome A :=
  match l !! i with
  | Some x => Ok x
  | None => Raise IndexError
  end.

(** Reading a module-level name that may not have been bound yet. *)
Definition name {A} (ident : string) (v : option A) : outcome A :=
  match v with
  | Some x => Ok x
  | None => Raise (NameError ident)
  end.

End Py.

(** ** The world: files, what a reader could see, calls made *)

Record CheckerBoard : Type := {
  dimensions : pyval * pyval;
  squareSize : pyval }.

(** Keyword arguments of one [process_trial] call. *)
Record process_args : Type := {
  trial_name : string;
  session_name : string;
  cam2Use : list string;
  intrinsicsFinalFolder : string;
  extrinsicsTrial : bool;
  markerDataFolderNameSuffix : string;
  poseDetector : string;
  resolutionPoseDetection : string;
  scaleModel : bool;
  augmenter_model : string;
  dataDir : string }.

Inductive event : Type :=
| EvComputeAverageIntrinsics (sessionDir : string) (trials : pyval)
    (CheckerBoardParams : CheckerBoard) (nImages : Z)
    (cameraModel videoType : string)
| EvSaveCameraParameters (filename : string) (CameraParams : pyval)
| EvProcessTrial (args : process_args)
| EvUpdateProgress (column value sessionName : string).

(** What the disk does when a given path is opened or written. *)
Inductive fault : Type :=
| NoFault
| OpenFails
| WriteFailsAfter (k : nat).

Record world : Type := World {
  fs : gmap string string;
  seen : list (gmap string string);
  trace : list event;
  faults : string → fault }.

(** [seen] lists, newest first, every state the file system went through:
    each is what another process reading the disk could observe. *)

Definition M (A : Type) : Type := world → outcome A * world.

Global Instance M_ret : MRet M := λ A a w, (Ok a, w).
Global Instance M_bind : MBind M := λ A B f m w,
  match m w with
  | (Ok a, w') => f a w'
  | (Raise e, w') => (Raise e, w')
  end.

Definition lift {A} (o : outcome A) : M A := λ w, (o, w).
Definition raise {A} (e : exn) : M A := λ w, (Raise e, w).
Definition emit (e : event) : M unit := λ w,
  (Ok (), World (fs w) (seen w) (trace w ++ [e]) (faults w)).
Definition set_fs (f : gmap string string) : M unit := λ w,
  (Ok (), World f (f :: seen w) (trace w) (faults w)).

(** [try: body except Exception as e: handler(e)] *)
Definition try_except {A} (body : M A) (handler : exn → M A) : M A := λ w,
  match body w with
  | (Ok a, w') => (Ok a, w')
  | (Raise e, w') => handler e w'
  end.

(** A call into a collaborator that only reads files. *)
Definition ask {A} (f : gmap string string → outcome A) : M A := λ w,
  (f (fs w), w).

(** A call into a collaborator that may read and change files. *)
Definition call {A} (f : gmap string string → outcome A * gmap string string)
  : M A := λ w,
  let '(r, f') := f (fs w) in (r, World f' (f' :: seen w) (trace w) (faults w)).

(** A [for] loop over a list, run for its effects. *)
Fixpoint for_each {A} (l : list A) (body : A → M unit) : M unit :=
  match l with
  | [] => mret ()
  | x :: l' => body x ;; for_each l' body
  end.

(** A [for] loop over a list that threads loop-carried variables. *)
Fixpoint for_state {A S} (l : list A) (body : S → A → M S) (s : S) : M S :=
  match l with
  | [] => mret s
  | x :: l' => s' ← body s x; for_state l' body s'
  end.

Module Os.

(** [os.path.exists(path)] *)
Definition path_exists (path : string) : M bool := λ w,
  (Ok (bool_decide (is_Some (fs w !! path))), w).

(** [open(path, 'r')] or [open(path, 'rb')] followed by reading the file. *)
Definition read (path : string) : M string := λ w,
  match fs w !! path with
  | Some data =>
      match faults w path with
      | OpenFails => (Raise (OSError path), w)
      | _ => (Ok data, w)
      end
  | None => (Raise (FileNotFoundError path), w)
  end.

(** [open(path, 'w')] or [open(path, 'wb')]: the file is created or
    truncated in place. *)
Definition open_w (path : string) : M unit := λ w,
  match faults w path with
  | OpenFails => (Raise (OSError path), w)
  | _ => set_fs (<[path := ""]> (fs w)) w
  end.

(** Writing [data] to a file that was just opened for writing. *)
Definition write (path data : string) : M unit := λ w,
  match faults w path with
  | WriteFailsAfter k =>
      if (k <? String.length data)%nat
      then (set_fs (<[path := PyStr.take k data]> (fs w)) ;;
            raise (OSError path)) w
      else set_fs (<[path := data]> (fs w)) w
  | _ => set_fs (<[path := data]> (fs w)) w
  end.

(** [with open(path, 'w') as f: dump(obj, f)] where [data] is what the
    dump produces. *)
Definition dump_to_file (path data : string) : M unit :=
  open_w path ;; write path data.

End Os.

(** ** Collaborators *)

Class Externals : Type := {
  (** [yaml.dump] and [yaml.safe_load] of PyYAML *)
  yaml_dump : pyval → string;
  yaml_safe_load : string → outcome pyval;
  (** [pickle.dump] and [pickle.load] *)
  pickle_dump : pyval → string;
  pickle_load : string → outcome pyval;
  (** [utils.importMetadata(filePath)] *)
  importMetadata : string → gmap string string → outcome pyval;
  (** [utilsCheckerSony.computeAverageIntrinsics(sessionDir, trials,
      CheckerBoardParams, nImages, cameraModel, videoType)], which returns
      [CamParamsAverage, CamParamList, intrinsicComparisons, cameraModel] *)
  computeAverageIntrinsics :
    string → pyval → CheckerBoard → Z → string → string →
    gmap string string →
    outcome (pyval * list pyval * pyval * string) * gmap string string;
  (** [utilsCheckerSony.saveCameraParameters(filename, CameraParams)] *)
  saveCameraParameters :
    string → pyval → gmap string string → outcome unit * gmap string string;
  (** [main.main], as [process_trial] calls it *)
  pipeline_main :
    process_args → gmap string string → outcome unit * gmap string string;
  (** [[t for t in os.listdir(p) if os.path.isdir(os.path.join(p, t))]] *)
  listdir_dirs : string → gmap string string → outcome (list string);
  (** The copy of the [Model] folder between session folders
      ([os.makedirs], [os.listdir], [shutil.copy2] on directories). *)
  copy_model_folder :
    string → string → gmap string string → outcome unit * gmap string string;
  (** The spreadsheet update through openpyxl. *)
  update_progress_excel :
    string → string → string → gmap string string →
    outcome unit * gmap string string }.

(** ** [visualizePickle.py] *)

Module VisualizePickle.
Section with_externals.
Context {ext : Externals}.

(** [np.array2string(value, prefix=...)]: only an array has the attributes
    the call reads. *)
Definition array2string (value : pyval) : outcome unit :=
  match value with
  | PArray _ => Ok ()
  | _ => Raise AttributeError
  end.

(** The [try] block of [load_intrinsics_from_pickle]. *)
Definition load_intrinsics_body (filepath : string) : M pyval :=
  data ← Os.read filepath;
  intrinsics ← lift (pickle_load data);
  kvs ← lift (Py.items intrinsics);
  lift (for_fold (λ _ kv, array2string kv.2) kvs ()) ;;
  mret intrinsics.

(** The two handlers: [except FileNotFoundError] and, for everything
    else, [except Exception as e]. *)
Definition load_intrinsics_handler (e : exn) : M pyval :=
  match e with
  | FileNotFoundError _ => mret PNone
  | _ => mret PNone
  end.

Definition load_intrinsics_from_pickle (filepath : string) : M pyval :=
  try_except (load_intrinsics_body filepath) load_intrinsics_handler.

(** What [visualize_camera_intrinsics] reads from the record before it
    plots. *)
Record frustum : Type := {
  fx : Q; fy : Q; cx : Q; cy : Q;
  W : Z; H : Z;
  image_corners_2d : list (Z * Z) }.

(** The body of the inner [try] of [visualize_camera_intrinsics]. *)
Definition extract_parameters (intrinsics : pyval) : outcome frustum :=
  K ← Py.subscript intrinsics "intrinsicMat";
  fx ← Py.subscript2 K 0 0;
  fy ← Py.subscript2 K 1 1;
  cx ← Py.subscript2 K 0 2;
  cy ← Py.subscript2 K 1 2;
  imageSize ← Py.subscript intrinsics "imageSize";
  h ← Py.subscript2 imageSize 0 0;
  let H := Py.int h in
  imageSize' ← Py.subscript intrinsics "imageSize";
  w ← Py.subscript2 imageSize' 1 0;
  let W := Py.int w in
  Ok {| fx := fx; fy := fy; cx := cx; cy := cy; W := W; H := H;
        image_corners_2d := [(0, 0); (W, 0); (W, H); (0, H)] |}.

(** [visualize_camera_intrinsics] up to the point where plotting starts:
    [None] is the early [return], [Some] carries the values the frustum is
    drawn from.  Only [KeyError] is caught. *)
Definition visualize_camera_intrinsics (intrinsics : pyval)
  : outcome (option frustum) :=
  valid ← Py.truth intrinsics;
  if negb valid then Ok None
  else
    match extract_parameters intrinsics with
    | Ok p => Ok (Some p)
    | Raise (KeyError _) => Ok None
    | Raise e => Raise e
    end.

End with_externals.
End VisualizePickle.

(** ** [main_calcIntrinsicsSony.py] *)

Module CalcIntrinsics.

(** The block of required user inputs, the data folder and the working
    directory of the process ([os.getcwd()]). *)
Record inputs : Type := {
  sessionName : string;
  CheckerBoardParams : CheckerBoard;
  trials : list string;
  loadTrialInfo : bool;
  saveIntrinsicsForDeployment : bool;
  deployedFolderNames : list string;
  cameraModel : string;
  videoType : string;
  dataDir : string;
  getcwd : string }.

Definition sessionDir (i : inputs) : string := OsPath.join (dataDir i) [].

(** [os.path.join(sessionDir, trials[0], 'trialInfo.yaml')] *)
Definition trialFile (i : inputs) : outcome string :=
  t0 ← Py.getitem (trials i) 0;
  Ok (OsPath.join (sessionDir i) [t0; "trialInfo.yaml"]).

Definition intrinsicComparisonFile (i : inputs) : string :=
  OsPath.join (sessionDir i) ["intrinsicComparison.pkl"].

Definition metadataPath (i : inputs) : string :=
  OsPath.join (sessionDir i) ["sessionMetadata.yaml"].

(** The message of the exception of line 62: two adjacent literals,
    which Python concatenates. *)
Definition missing_trialFile_msg : string :=
  "trialFile doesnt exist. Enter trials and CheckerBoardParams manually.".

(** The path one deployed record is saved under. *)
Definition permIntrinsicDir (cwd cameraModel deployedFolderName : string)
  : string :=
  OsPath.join cwd ["CameraIntrinsics"; cameraModel; deployedFolderName].

Definition deployed_file (cwd cameraModel deployedFolderName : string)
  : string :=
  OsPath.join (permIntrinsicDir cwd cameraModel deployedFolderName)
              ["cameraIntrinsics.pickle"].

(** The dictionary written to the trial file. *)
Definition trialInfo_of (trials : pyval) (cbp : CheckerBoard)
                        (cameraModel : string) : pyval :=
  PDict [("trials", trials);
         ("nSquaresWidth", (dimensions cbp).1);
         ("nSquaresHeight", (dimensions cbp).2);
         ("squareSize", squareSize cbp);
         ("cameraModel", PStr cameraModel)].

Section with_externals.
Context {ext : Externals}.

(** Lines 42-50: checkerboard parameters from the session metadata. *)
Definition read_metadata (i : inputs) (cbp : CheckerBoard) : M CheckerBoard :=
  present ← Os.path_exists (metadataPath i);
  if (present : bool) then
    sessionMetadata ← ask (importMetadata (metadataPath i));
    w ← lift (cb ← Py.subscript sessionMetadata "checkerBoard";
              Py.subscript cb "black2BlackCornersWidth_n");
    h ← lift (cb ← Py.subscript sessionMetadata "checkerBoard";
              Py.subscript cb "black2BlackCornersHeight_n");
    s ← lift (cb ← Py.subscript sessionMetadata "checkerBoard";
              Py.subscript cb "squareSideLength_mm");
    mret {| dimensions := (w, h); squareSize := s |}
  else mret cbp.

(** Lines 52-62: trials and checkerboard parameters from the trial file. *)
Definition load_trial_info (i : inputs) (trialFile : string)
    (cur : pyval * CheckerBoard) : M (pyval * CheckerBoard) :=
  if loadTrialInfo i then
    present ← Os.path_exists trialFile;
    if (present : bool) then
      text ← Os.read trialFile;
      trialInfo ← lift (yaml_safe_load text);
      trials ← lift (Py.subscript trialInfo "trials");
      w ← lift (Py.subscript trialInfo "nSquaresWidth");
      h ← lift (Py.subscript trialInfo "nSquaresHeight");
      s ← lift (Py.subscript trialInfo "squareSize");
      mret (trials, {| dimensions := (w, h); squareSize := s |})
    else raise (Exception missing_trialFile_msg)
  else mret cur.

(** Line 66. *)
Definition aggregate (i : inputs) (trials : pyval) (cbp : CheckerBoard)
  : M (pyval * list pyval * pyval * string) :=
  emit (EvComputeAverageIntrinsics (sessionDir i) trials cbp 50
                                   (cameraModel i) (videoType i)) ;;
  call (computeAverageIntrinsics (sessionDir i) trials cbp 50
                                 (cameraModel i) (videoType i)).

(** Lines 70-75. *)
Definition save_for_deployment (i : inputs) (cameraModel : string)
    (CamParamsAverage : pyval) : M unit :=
  if saveIntrinsicsForDeployment i then
    for_each (deployedFolderNames i) (λ deployedFolderName,
      let filename := deployed_file (getcwd i) cameraModel deployedFolderName in
      emit (EvSaveCameraParameters filename CamParamsAverage) ;;
      call (saveCameraParameters filename CamParamsAverage))
  else mret ().

(** Lines 77-84. *)
Definition write_trial_info (trialFile : string) (trials : pyval)
    (cbp : CheckerBoard) (cameraModel : string) : M unit :=
  Os.dump_to_file trialFile (yaml_dump (trialInfo_of trials cbp cameraModel)).

(** Lines 86-87. *)
Definition write_comparison (i : inputs) (intrinsicComparisons : pyval)
  : M unit :=
  Os.dump_to_file (intrinsicComparisonFile i) (pickle_dump intrinsicComparisons).

(** Lines 65-87: aggregation and the three writes. *)
Definition calibrate (i : inputs) (trialFile : string) (trials : pyval)
    (cbp : CheckerBoard) : M unit :=
  '(CamParamsAverage, CamParamList, intrinsicComparisons, cameraModel) ←
      aggregate i trials cbp;
  save_for_deployment i cameraModel CamParamsAverage ;;
  write_trial_info trialFile trials cbp cameraModel ;;
  write_comparison i intrinsicComparisons.

(** The script, top to bottom. *)
Definition script (i : inputs) : M unit :=
  trialFile ← lift (trialFile i);
  cbp ← read_metadata i (CheckerBoardParams i);
  '(trials, cbp) ← load_trial_info i trialFile
                      (PList (PStr <$> trials i), cbp);
  calibrate i trialFile trials cbp.

End with_externals.
End CalcIntrinsics.

(** ** The two re-processing scripts *)

(** Definitions that both scripts contain with the same text. *)
Module Reprocess.

Record inputs : Type := {
  dataDir : string;
  sessionNames : list string;
  poseDetectors : list string;
  cameraSetups : list string;
  resolutionPoseDetection : string;
  augmenter_model : string }.

(** ['extrinsics' in trial.lower()] *)
Definition names_extrinsics (trial : string) : bool :=
  PyStr.str_in "extrinsics" (PyStr.lower trial).

(** ['static' in trial.lower()] *)
Definition names_static (trial : string) : bool :=
  PyStr.str_in "static" (PyStr.lower trial).

(** [cam2sUse[cameraSetup]] for a table of camera lists. *)
Definition lookup_cams (cam2sUse : list (string * list string))
    (cameraSetup : string) : outcome (list string) :=
  match list_find (λ kv, kv.1 = cameraSetup) cam2sUse with
  | Some (_, kv) => Ok kv.2
  | None => Raise (KeyError cameraSetup)
  end.

(** Data re-organisation: where the folder of a session goes, and where
    the camera parameters of one of its cameras are copied to
    ([shutil.copy2] into the folder [pathCamNew] keeps the file name). *)
Definition pathSessionNew (dataDir subject session : string) : string :=
  OsPath.join dataDir ["Data"; subject +:+ "_" +:+ session].

Definition pathCamNew (dataDir subject session cam : string) : string :=
  OsPath.join (pathSessionNew dataDir subject session) ["Videos"; cam].

Definition copied_parameters (dataDir subject session cam : string) : string :=
  OsPath.join (pathCamNew dataDir subject session cam)
              ["cameraIntrinsicsExtrinsics.pickle"].

Section with_externals.
Context {ext : Externals}.

(** [process_trial]: hands its arguments to [main]. *)
Definition process_trial (a : process_args) : M unit :=
  emit (EvProcessTrial a) ;; call (pipeline_main a).

End with_externals.
End Reprocess.

(** *** [ProcessExperimentalDataTwoCameras.py] *)

Module TwoCameras.

Definition cam2sUse : list (string * list string) :=
  [("5-cameras", ["Cam0"; "Cam1"; "Cam2"; "Cam3"; "Cam4"]);
   ("3-cameras", ["Cam1"; "Cam4"; "Cam7"]);
   ("2-cameras", ["Cam4"; "Cam7"])].

(** Lines 144-146: the loop that sets [extrinsics_idx].  The variable is
    at module level, so what an earlier session left in it is still there
    ([None]: not bound yet). *)
Definition find_extrinsics (trials_tmp : list string)
    (extrinsics_idx : option nat) : outcome (option nat) :=
  for_fold (λ idx trial,
              if Reprocess.names_extrinsics trial
              then i ← Py.index trials_tmp trial; Ok (Some i)
              else Ok idx)
           trials_tmp extrinsics_idx.

(** Lines 144-150: the re-ordered trial list and the value
    [extrinsics_idx] is left with. *)
Definition reorder (trials_tmp : list string) (extrinsics_idx : option nat)
  : outcome (list string * option nat) :=
  idx ← find_extrinsics trials_tmp extrinsics_idx;
  i ← Py.name "extrinsics_idx" idx;
  first ← Py.getitem trials_tmp i;
  Ok (first :: List.filter (λ trial, negb (Reprocess.names_extrinsics trial)) trials_tmp,
      idx).

(** Lines 177-186: how one trial is dispatched. *)
Definition dispatch (i : Reprocess.inputs) (sessionName poseDetector cameraSetup : string)
    (cam2Use : list string) (trial : string) : process_args :=
  {| trial_name := trial;
     session_name := sessionName;
     cam2Use := cam2Use;
     intrinsicsFinalFolder := "Deployed_720_60fps";
     extrinsicsTrial := if Reprocess.names_extrinsics trial then true else false;
     markerDataFolderNameSuffix := cameraSetup;
     poseDetector := poseDetector;
     resolutionPoseDetection := Reprocess.resolutionPoseDetection i;
     scaleModel := false;
     augmenter_model := Reprocess.augmenter_model i;
     dataDir := Reprocess.dataDir i |}.

Section with_externals.
Context {ext : Externals}.

(** Lines 152-199 for one session.  The [os.makedirs] of the [Model]
    folder has no effect on files. *)
Definition process_trials (i : Reprocess.inputs) (sessionName : string)
    (trials : list string) : M unit :=
  for_each (Reprocess.poseDetectors i) (λ poseDetector,
    for_each (Reprocess.cameraSetups i) (λ cameraSetup,
      cam2Use ← lift (Reprocess.lookup_cams cam2sUse cameraSetup);
      for_each trials (λ trial,
        Reprocess.process_trial
          (dispatch i sessionName poseDetector cameraSetup cam2Use trial)))).

(** One round of the loop over [sessionNames]. *)
Definition session (i : Reprocess.inputs) (extrinsics_idx : option nat)
    (sessionName : string) : M (option nat) :=
  let pathCam0 :=
    OsPath.join (Reprocess.dataDir i)
                [sessionName; "Videos"; "Cam4"; "InputMedia"] in
  trials_tmp ← ask (listdir_dirs pathCam0);
  '(trials, idx) ← lift (reorder trials_tmp extrinsics_idx);
  process_trials i sessionName trials ;;
  mret idx.

Definition script (i : Reprocess.inputs) : M (option nat) :=
  for_state (Reprocess.sessionNames i) (session i) None.

End with_externals.
End TwoCameras.

(** *** [labValidationVideosToKinematicsThreeCameras.py] *)

Module ThreeCameras.

Definition cam2sUse : list (string * list string) :=
  [("5-cameras", ["Cam0"; "Cam1"; "Cam2"; "Cam3"; "Cam4"]);
   ("3-cameras", ["Cam1"; "Cam4"; "Cam7"]);
   ("2-cameras", ["Cam4"; "Cam5"])].

(** The module-level variables the re-ordering loop assigns; [None] is a
    name that is not bound yet. *)
Record indices : Type := {
  extrinsics_idx : option nat;
  static_idx : option nat }.

(** Lines 256-262: the loop that sets [extrinsics_idx], [static_idx] and
    [session_with_static]. *)
Definition find_indices (trials_tmp : list string) (v : indices)
  : outcome (indices * bool) :=
  for_fold
    (λ (st : indices * bool) trial,
       st1 ← (if Reprocess.names_extrinsics trial
              then i ← Py.index trials_tmp trial;
                   Ok ({| extrinsics_idx := Some i;
                          static_idx := static_idx st.1 |}, st.2)
              else Ok st);
       if Reprocess.names_static trial
       then j ← Py.index trials_tmp trial;
            Ok ({| extrinsics_idx := extrinsics_idx st1.1;
                   static_idx := Some j |}, true)
       else Ok st1)
    trials_tmp (v, true).

(** Lines 256-273. *)
Definition reorder (trials_tmp : list string) (v : indices)
  : outcome (list string * indices) :=
  '(v', session_with_static) ← find_indices trials_tmp v;
  i ← Py.name "extrinsics_idx" (extrinsics_idx v');
  first ← Py.getitem trials_tmp i;
  if (session_with_static : bool) then
    j ← Py.name "static_idx" (static_idx v');
    second ← Py.getitem trials_tmp j;
    Ok (first :: second ::
          List.filter (λ trial, negb (Reprocess.names_static trial)
                                && negb (Reprocess.names_extrinsics trial))
                      trials_tmp,
        v')
  else
    Ok (first ::
          List.filter (λ trial, negb (Reprocess.names_extrinsics trial))
                      trials_tmp,
        v').

(** Lines 304-320: how one trial is dispatched. *)
Definition dispatch (i : Reprocess.inputs)
    (sessionName poseDetector cameraSetup : string)
    (cam2Use : list string) (trial : string) : process_args :=
  {| trial_name := trial;
     session_name := sessionName;
     cam2Use := cam2Use;
     intrinsicsFinalFolder :=
       if PyStr.str_in "subject222" sessionName
          || PyStr.str_in "subject333" sessionName
       then "Deployed_720_240fps" else "Deployed_720_60fps";
     extrinsicsTrial := if Reprocess.names_extrinsics trial then true else false;
     markerDataFolderNameSuffix := cameraSetup;
     poseDetector := poseDetector;
     resolutionPoseDetection := Reprocess.resolutionPoseDetection i;
     scaleModel := if Reprocess.names_static trial then true else false;
     augmenter_model := Reprocess.augmenter_model i;
     dataDir := Reprocess.dataDir i |}.

Section with_externals.
Context {ext : Externals}.

(** Lines 283-298: sessions whose name ends in 1 get the [Model] folder
    copied. *)
Definition copy_model (i : Reprocess.inputs)
    (sessionName poseDetector cameraSetup : string) : M unit :=
  c ← lift (match PyStr.last sessionName with
            | Some c => Ok c
            | None => Raise IndexError
            end);
  if bool_decide (c = "1"%char) then
    let sessionDir := OsPath.join (Reprocess.dataDir i) [sessionName] in
    let sessionDir_0 := PyStr.but_last sessionDir +:+ "1" in
    let sub := poseDetector +:+ "_" +:+ Reprocess.resolutionPoseDetection i in
    let camDir_0 := OsPath.join sessionDir_0 ["OpenSimData"; sub; cameraSetup] in
    let modelDir_0 := OsPath.join camDir_0 ["Model"] in
    let camDir_1 := OsPath.join sessionDir ["OpenSimData"; sub; cameraSetup] in
    let modelDir_1 := OsPath.join camDir_1 ["Model"] in
    call (copy_model_folder modelDir_0 modelDir_1)
  else mret ().

(** Lines 275-358 for one session. *)
Definition process_trials (i : Reprocess.inputs) (sessionName : string)
    (trials : list string) : M unit :=
  for_each (Reprocess.poseDetectors i) (λ poseDetector,
    for_each (Reprocess.cameraSetups i) (λ cameraSetup,
      cam2Use ← lift (Reprocess.lookup_cams cam2sUse cameraSetup);
      copy_model i sessionName poseDetector cameraSetup ;;
      for_each trials (λ trial,
        Reprocess.process_trial
          (dispatch i sessionName poseDetector cameraSetup cam2Use trial) ;;
        emit (EvUpdateProgress "neutral" "✓" sessionName) ;;
        call (update_progress_excel "neutral" "✓" sessionName)))).

(** One round of the loop over [sessionNames]. *)
Definition session (i : Reprocess.inputs) (v : indices)
    (sessionName : string) : M indices :=
  let pathCam0 :=
    OsPath.join (Reprocess.dataDir i)
                [sessionName; "Videos"; "Cam1"; "InputMedia"] in
  trials_tmp ← ask (listdir_dirs pathCam0);
  '(trials, v') ← lift (reorder trials_tmp v);
  process_trials i sessionName trials ;;
  mret v'.

Definition script (i : Reprocess.inputs) : M indices :=
  for_state (Reprocess.sessionNames i) (session i)
            {| extrinsics_idx := None; static_idx := None |}.

End with_externals.
End ThreeCameras.

(** ** A concrete set of collaborators

    Enough to run the scripts on small examples: files hold a flow-style
    subset of YAML (also used in place of the pickle format), a directory is
    a file that lists its entries, and the aggregation returns the
    parameters of one fixed camera. *)

Module Sample.

Definition show_Z (n : Z) : string := NilZero.string_of_int (Z.to_int n).

Definition read_Z (s : string) : option Z :=
  Z.of_int <$> NilZero.int_of_string s.

Definition show_Q (q : Q) : string :=
  show_Z (Qnum q) +:+ "/" +:+ show_Z (Zpos (Qden q)).

Definition join_with (sep : string) (l : list string) : string :=
  match l with
  | [] => ""
  | x :: l' => foldl (λ acc y, acc +:+ sep +:+ y) x l'
  end.

Fixpoint show (v : pyval) : string :=
  match v with
  | PNone => "null"
  | PBool b => if b then "true" else "false"
  | PInt n => show_Z n
  | PFloat q => show_Q q
  | PStr s => s
  | PList xs | PTuple xs => "[" +:+ join_with ", " (map show xs) +:+ "]"
  | PDict kvs =>
      "{" +:+ join_with ", " (map (λ kv, kv.1 +:+ ": " +:+ show kv.2) kvs)
          +:+ "}"
  | PArray rows =>
      "@[" +:+ join_with ", "
                 (map (λ r, "[" +:+ join_with ", " (map show_Q r) +:+ "]") rows)
           +:+ "]"
  end.

Definition delimiter (c : ascii) : bool :=
  bool_decide (c ∈ [","; "]"; "}"; ":"]%char).

Fixpoint token (s : string) : string * string :=
  match s with
  | EmptyString => ("", "")
  | String c s' =>
      if delimiter c then ("", s)
      else let '(t, r) := token s' in (String c t, r)
  end.

Fixpoint skip (s : string) : string :=
  match s with
  | String " " s' => skip s'
  | _ => s
  end.

Fixpoint split_slash (s : string) : option (string * string) :=
  match s with
  | EmptyString => None
  | String "/" r => Some ("", r)
  | String c r => '(a, b) ← split_slash r; Some (String c a, b)
  end.

Definition atom (t : string) : pyval :=
  if bool_decide (t = "null") then PNone
  else if bool_decide (t = "true") then PBool true
  else if bool_decide (t = "false") then PBool false
  else match read_Z t with
       | Some n => PInt n
       | None =>
           match split_slash t with
           | Some (a, b) =>
               match read_Z a, read_Z b with
               | Some n, Some (Zpos d) => PFloat (n # d)
               | _, _ => PStr t
               end
           | None => PStr t
           end
       end.

Definition to_array (v : pyval) : option (list (list Q)) :=
  match v with
  | PList rows =>
      mapM (λ r, match r with
                 | PList xs =>
                     mapM (λ x, match x with
                                | PFloat q => Some q
                                | _ => None
                                end) xs
                 | _ => None
                 end) rows
  | _ => None
  end.

Fixpoint parse (fuel : nat) (s : string) : option (pyval * string) :=
  match fuel with
  | O => None
  | S fuel' =>
      match skip s with
      | String "[" r => '(xs, r') ← parse_items fuel' r; Some (PList xs, r')
      | String "{" r => '(kvs, r') ← parse_pairs fuel' r; Some (PDict kvs, r')
      | String "@" r =>
          '(v, r') ← parse fuel' r; rows ← to_array v; Some (PArray rows, r')
      | s' => let '(t, r) := token s' in Some (atom t, r)
      end
  end
with parse_items (fuel : nat) (s : string) : option (list pyval * string) :=
  match fuel with
  | O => None
  | S fuel' =>
      match skip s with
      | String "]" r => Some ([], r)
      | s' =>
          '(v, r) ← parse fuel' s';
          match skip r with
          | String "," r' =>
              '(vs, r'') ← parse_items fuel' r'; Some (v :: vs, r'')
          | String "]" r' => Some ([v], r')
          | _ => None
          end
      end
  end
with parse_pairs (fuel : nat) (s : string)
  : option (list (string * pyval) * string) :=
  match fuel with
  | O => None
  | S fuel' =>
      match skip s with
      | String "}" r => Some ([], r)
      | s' =>
          match token s' with
          | (k, String ":" r) =>
              '(v, r') ← parse fuel' r;
              match skip r' with
              | String "," r'' =>
                  '(kvs, r3) ← parse_pairs fuel' r''; Some ((k, v) :: kvs, r3)
              | String "}" r'' => Some ([(k, v)], r'')
              | _ => None
              end
          | _ => None
          end
      end
  end.

Definition load (s : string) : outcome pyval :=
  match parse (2 * String.length s + 2) s with
  | Some (v, r) =>
      if bool_decide (skip r = "") then Ok v else Raise YAMLError
  | None => Raise YAMLError
  end.

(** The parameters the sample aggregation returns for every camera. *)
Definition CamParams : pyval :=
  PDict [("distortion", PArray [[0 # 1; 0 # 1; 0 # 1; 0 # 1; 0 # 1]]);
         ("intrinsicMat", PArray [[1000 # 1; 0 # 1; 640 # 1];
                                  [0 # 1; 1000 # 1; 360 # 1];
                                  [0 # 1; 0 # 1; 1 # 1]]);
         ("imageSize", PArray [[720 # 1]; [1280 # 1]])].

Definition externals : Externals := {|
  yaml_dump := show;
  yaml_safe_load := load;
  pickle_dump := show;
  pickle_load := λ data,
    match load data with
    | Ok v => Ok v
    | Raise _ => Raise UnpicklingError
    end;
  importMetadata := λ filePath files,
    match files !! filePath with
    | Some data => load data
    | None => Raise (FileNotFoundError filePath)
    end;
  computeAverageIntrinsics := λ sessionDir trials cbp nImages cameraModel
                                videoType files,
    match trials with
    | PList (_ :: _) =>
        (Ok (CamParams, [CamParams], PDict [], cameraModel), files)
    | _ => (Raise ValueError, files)
    end;
  saveCameraParameters := λ filename CameraParams files,
    (Ok (), <[filename := show CameraParams]> files);
  pipeline_main := λ _ files, (Ok (), files);
  listdir_dirs := λ path files,
    match files !! path with
    | Some data => Ok (String.words data)
    | None => Raise (FileNotFoundError path)
    end;
  copy_model_folder := λ _ _ files, (Ok (), files);
  update_progress_excel := λ _ _ _ files, (Ok (), files) |}.

Definition no_faults : string → fault := λ _, NoFault.

(** The inputs as the script has them, with local folders. *)
Definition user_inputs (load : bool) : CalcIntrinsics.inputs := {|
  CalcIntrinsics.sessionName := "SonyIntrinsics";
  CalcIntrinsics.CheckerBoardParams :=
    {| dimensions := (PInt 8, PInt 11); squareSize := PInt 60 |};
  CalcIntrinsics.trials := ["Cam4b"];
  CalcIntrinsics.loadTrialInfo := load;
  CalcIntrinsics.saveIntrinsicsForDeployment := true;
  CalcIntrinsics.deployedFolderNames := ["Deployed_720_60fps"; "Deployed"];
  CalcIntrinsics.cameraModel := "SONYRX0-II-Cam4b";
  CalcIntrinsics.videoType := ".MP4";
  CalcIntrinsics.dataDir := "/data/IntrinsicCaptures";
  CalcIntrinsics.getcwd := "/home/opencap-core" |}.

Definition metadata_text : string :=
  "{checkerBoard: {black2BlackCornersWidth_n: 4, black2BlackCornersHeight_n: 5, squareSideLength_mm: 35}}".

Definition start (files : gmap string string) : world :=
  World files [files] [] no_faults.

End Sample.

(** ** The trial-role tag of the design notes

    The design notes ask for a typed role attached to each trial when the
    manifest is created.  The scripts have no such field; the definitions
    below state what a dispatch by tag would be, so that it can be compared
    with the dispatch the scripts make. *)

Module RoleTag.

Inductive trial_role : Type :=
| ExtrinsicsCalibration
| StaticPose
| Dynamic.

Record tagged_trial : Type := {
  folder : string;
  role : trial_role }.

(** The flags [extrinsicsTrial] and [scaleModel] that go with a role. *)
Definition flags_of_role (r : trial_role) : bool * bool :=
  match r with
  | ExtrinsicsCalibration => (true, false)
  | StaticPose => (false, true)
  | Dynamic => (false, false)
  end.

End RoleTag.

(** ** Reading the trace *)

(** The [process_trial] calls among a list of events, in order. *)
Definition process_events (evs : list event) : list process_args :=
  omap (λ e, match e with EvProcessTrial a => Some a | _ => None end) evs.

(** The [saveCameraParameters] calls among a list of events, in order. *)
Definition save_events (evs : list event) : list (string * pyval) :=
  omap (λ e, match e with
             | EvSaveCameraParameters filename params => Some (filename, params)
             | _ => None
             end) evs.

(** Every run of [m] extends the trace by events that satisfy [P]. *)
Definition emits {A} (P : list event → Prop) (m : M A) : Prop :=
  ∀ w r w', m w = (r, w') → ∃ evs, trace w' = trace w ++ evs ∧ P evs.

(** The first [process_trial] call of a list of events, if there is one, is
    for a trial that is named and flagged as the extrinsics trial. *)
Definition extrinsics_first (evs : list event) : Prop :=
  match process_events evs with
  | [] => True
  | a :: _ =>
      extrinsicsTrial a = true
      ∧ Reprocess.names_extrinsics (trial_name a) = true
  end.

(** An index variable is bound to the position of a folder whose name
    satisfies [P]. *)
Definition bound_to (P : string → bool) (all : list string)
    (idx : option nat) : Prop :=
  ∃ i x, idx = Some i ∧ all !! i = Some x ∧ P x = true.

(** Properties of event lists that hold of the empty list and are kept by
    concatenation pass through sequencing and loops. *)
Definition closed (P : list event → Prop) : Prop :=
  P [] ∧ ∀ e1 e2, P e1 → P e2 → P (e1 ++ e2).

(** A record [data] was written to the slot [path] in place: what the run
    [w], [r], [w'] of such a write looks like.  The slot is emptied when it
    is opened, then filled; both states are visible.  A write that fails
    leaves the part already written in the slot. *)
Definition written_in_place (path data : string) (w : world)
    (r : outcome unit) (w' : world) : Prop :=
  trace w' = trace w
  ∧ faults w' = faults w
  ∧ match r with
    | Ok _ =>
        fs w' = <[path := data]> (fs w)
        ∧ seen w' = <[path := data]> (fs w) :: <[path := ""]> (fs w) :: seen w
    | Raise e =>
        e = OSError path
        ∧ ((faults w path = OpenFails ∧ w' = w)
           ∨ ∃ k, faults w path = WriteFailsAfter k
                  ∧ (k < String.length data)%nat
                  ∧ fs w' = <[path := PyStr.take k data]> (fs w)
                  ∧ seen w' = <[path := PyStr.take k data]> (fs w)
                              :: <[path := ""]> (fs w) :: seen w)
    end.

(** A plain folder or model name: not empty and without a separator. *)
Definition plain (name : string) : Prop :=
  name ≠ "" ∧ PyStr.str_in OsPath.sep name = false.

(** ** The calls a session is due *)

Module Schedule.

(** The [process_trial] calls of the three nested loops over pose
    detectors, camera setups and trials, in order; a camera setup that is
    not in the table contributes none. *)
Definition calls (cam2sUse : list (string * list string))
    (mk : string → string → list string → string → process_args)
    (poseDetectors cameraSetups trials : list string) : list process_args :=
  flat_map (λ poseDetector,
    flat_map (λ cameraSetup,
      match Reprocess.lookup_cams cam2sUse cameraSetup with
      | Ok cam2Use => map (mk poseDetector cameraSetup cam2Use) trials
      | Raise _ => []
      end) cameraSetups) poseDetectors.

Definition two_cameras (i : Reprocess.inputs) (sessionName : string)
    (trials : list string) : list process_args :=
  calls TwoCameras.cam2sUse (TwoCameras.dispatch i sessionName)
        (Reprocess.poseDetectors i) (Reprocess.cameraSetups i) trials.

Definition three_cameras (i : Reprocess.inputs) (sessionName : string)
    (trials : list string) : list process_args :=
  calls ThreeCameras.cam2sUse (ThreeCameras.dispatch i sessionName)
        (Reprocess.poseDetectors i) (Reprocess.cameraSetups i) trials.

End Schedule.

(** Every run of [m] makes a prefix of the [process_trial] calls [sched],
    and all of them when it returns. *)
Definition follows {A} (sched : list process_args) (m : M A) : Prop :=
  ∀ w r w', m w = (r, w') →
    ∃ evs, trace w' = trace w ++ evs
           ∧ process_events evs `prefix_of` sched
           ∧ (∀ a, r = Ok a → process_events evs = sched).

(** ** [visualizePickle.py]: the main block *)

Module VisualizeMain.
Section with_externals.
Context {ext : Externals}.

(** Lines 107-117: load the record, and draw it when it is not empty.  The
    result is what the viewer got to draw, if anything. *)
Definition main (YOUR_PICKLE_FILE : string)
  : M (option VisualizePickle.frustum) :=
  intrinsics_data ← VisualizePickle.load_intrinsics_from_pickle YOUR_PICKLE_FILE;
  shown ← lift (Py.truth intrinsics_data);
  if (shown : bool)
  then lift (VisualizePickle.visualize_camera_intrinsics intrinsics_data)
  else mret None.

End with_externals.
End VisualizeMain.

(** A value is a numpy array. *)
Definition is_array (v : pyval) : Prop := ∃ rows, v = PArray rows.

(** ** Dictionaries that are built item by item *)

Module PyDict.

(** [d[key] = value] on the items of a dictionary: the value of an
    existing key is replaced where it stands, a new key goes to the end. *)
Fixpoint setitem (items : list (string * pyval)) (key : string) (value : pyval)
  : list (string * pyval) :=
  match items with
  | [] => [(key, value)]
  | (k, v) :: rest =>
      if decide (k = key) then (k, value) :: rest
      else (k, v) :: setitem rest key value
  end.

End PyDict.

(** ** [utilsTRC.py] *)

Module UtilsTRC.

(** What [trc_2_dict] reads of a [TRCFile] object: the attributes [time]
    and [marker_names] and the method [marker]. *)
Record trc_file : Type := {
  time : pyval;
  marker_names : list string;
  marker : string → outcome pyval }.

(** [utilsDataman.TRCFile(path)] *)
Class Dataman : Type := {
  TRCFile : string → gmap string string → outcome trc_file }.

Section with_dataman.
Context {dataman : Dataman}.

(** The loop that fills [markers]. *)
Definition read_markers (trc : trc_file) : outcome (list (string * pyval)) :=
  for_fold (λ markers name,
              data ← marker trc name;
              Ok (PyDict.setitem markers name data))
           (marker_names trc) [].

Definition trc_2_dict (trc_path : string) : M pyval :=
  present ← Os.path_exists trc_path;
  if negb present
  then raise (FileNotFoundError ("TRC file not found: " +:+ trc_path))
  else
    trc ← ask (TRCFile trc_path);
    let out := PyDict.setitem [] "time" (time trc) in
    markers ← lift (read_markers trc);
    let out := PyDict.setitem out "markers" (PDict markers) in
    mret (PDict out).

End with_dataman.
End UtilsTRC.

(** ** [ViewPickleFiles.py] *)

Module ViewPickleFiles.

Definition pickle_dir : string :=
  "C:/Users/steudelkri/Documents/opencap-core/CameraIntrinsics".

Definition cameras : list string :=
  ["SONYRX0-II-Cam1"; "SONYRX0-II-Cam2"; "SONYRX0-II-Cam3"; "SONYRX0-II-Cam4";
   "SONYRX0-II-Cam5"; "SONYRX0-II-Cam6"; "SONYRX0-II-Cam7"; "SONYRX0-II-Cam8"].

(** The path of the record of one camera. *)
Definition intrinsics_path (camera : string) : string :=
  OsPath.join pickle_dir [camera; "Deployed_720_60fps/cameraIntrinsics.pickle"].

Definition extrinsics_pickle_path_Cam4 : string :=
  "G:\Shared drives\Stanford Football Prototyping\December_10\subject2\Videos\Cam4\cameraIntrinsicsExtrinsics.pickle".

Definition extrinsics_pickle_path_Cam5 : string :=
  "G:\Shared drives\Stanford Football Prototyping\December_10\subject2\Videos\Cam5\cameraIntrinsicsExtrinsics.pickle".

Section with_externals.
Context {ext : Externals}.

(** [pickle.load(open(path, 'rb'))], with no handler around it. *)
Definition load (path : string) : M pyval :=
  data ← Os.read path;
  lift (pickle_load data).

(** Lines 10-15, over a list of cameras. *)
Definition view_intrinsics (cams : list string) : M unit :=
  for_each cams (λ camera, load (intrinsics_path camera) ;; mret ()).

(** The script, top to bottom. *)
Definition script : M unit :=
  view_intrinsics cameras ;;
  load extrinsics_pickle_path_Cam4 ;;
  load extrinsics_pickle_path_Cam5 ;;
  mret ().

End with_externals.
End ViewPickleFiles.

(** ** More of Python's [str] *)

Module PyText.

(** [c.isalnum()] on a code point below 256: the ASCII digits and letters,
    the Latin-1 letters (0xAA, 0xB5, 0xBA, 0xC0-0xFF but the signs 0xD7 and
    0xF7), the superscript digits (0xB2, 0xB3, 0xB9) and the fractions
    (0xBC-0xBE). *)
Definition isalnum (c : ascii) : bool :=
  let n := nat_of_ascii c in
  ((48 <=? n) && (n <=? 57) || (65 <=? n) && (n <=? 90)
   || (97 <=? n) && (n <=? 122)
   || (n =? 170) || (n =? 178) || (n =? 179) || (n =? 181) || (n =? 185)
   || (n =? 186) || (188 <=? n) && (n <=? 190)
   || (192 <=? n) && (n <=? 214) || (216 <=? n) && (n <=? 246)
   || (248 <=? n))%nat.

(** [c.isspace()] on a code point below 256. *)
Definition isspace (c : ascii) : bool :=
  let n := nat_of_ascii c in
  ((9 <=? n) && (n <=? 13) || (28 <=? n) && (n <=? 32)
   || (n =? 133) || (n =? 160))%nat.

(** [s.lstrip()] *)
Fixpoint lstrip (s : string) : string :=
  match s with
  | EmptyString => EmptyString
  | String c s' => if isspace c then lstrip s' else s
  end.

(** [s.rstrip()] *)
Fixpoint rstrip (s : string) : string :=
  match s with
  | EmptyString => EmptyString
  | String c s' =>
      match rstrip s' with
      | EmptyString => if isspace c then EmptyString else String c EmptyString
      | r => String c r
      end
  end.

(** [s.strip()] *)
Definition strip (s : string) : string := rstrip (lstrip s).

(** [s.replace(old, new)] for a non-empty [old]: occurrences are taken from
    the left and do not overlap; [skip] counts the characters of an
    occurrence that are still to be passed over. *)
Fixpoint replace_from (old new : string) (skip : nat) (s : string) : string :=
  match s with
  | EmptyString => EmptyString
  | String c s' =>
      match skip with
      | S k => replace_from old new k s'
      | O =>
          if PyStr.startswith old s
          then new +:+ replace_from old new (String.length old - 1) s'
          else String c (replace_from old new 0 s')
      end
  end.

Definition replace (old new s : string) : string := replace_from old new 0 s.

End PyText.

(** ** [ReproducePaperResults/GetAndPlotMTULengths.py] *)

Module MTULengths.
Import PyText.

(** The test of line 96: [c.isalnum() or c in (' ', '-', '_')]. *)
Definition kept (c : ascii) : bool :=
  isalnum c
  || bool_decide (c = " "%char) || bool_decide (c = "-"%char)
  || bool_decide (c = "_"%char).

(** The generator of line 96, joined. *)
Fixpoint sanitize (s : string) : string :=
  match s with
  | EmptyString => EmptyString
  | String c s' => String (if kept c then c else "_"%char) (sanitize s')
  end.

Definition safe_name (trial_name : string) : string :=
  strip (sanitize trial_name).

Definition plots_dir (script_dir : string) : string :=
  OsPath.join script_dir ["plots"].

Definition png_path (script_dir trial_name : string) : string :=
  OsPath.join (plots_dir script_dir) [safe_name trial_name +:+ "_bflh_mtu.png"].

Definition pdf_path (script_dir trial_name : string) : string :=
  OsPath.join (plots_dir script_dir) [safe_name trial_name +:+ "_bflh_mtu.pdf"].

End MTULengths.

(** ** [extract_subject_id_from_session] of the three-camera script *)

Module SubjectId.

(** Python's [int] on a [str]. *)
Class Builtins : Type := {
  int : string → outcome Z }.

Section with_builtins.
Context {builtins : Builtins}.

(** The body of the [try].  The module never imports [re], so the lookup
    of that name in the [else] branch raises before [findall] is reached. *)
Definition extract_body (session_name : string) : outcome pyval :=
  if PyStr.str_in "subject" (PyStr.lower session_name) then
    let subject_id_str :=
      PyText.replace "subject" "" (PyStr.lower session_name) in
    n ← int subject_id_str;
    Ok (PInt n)
  else
    Raise (NameError "re").

(** [except (ValueError, AttributeError): pass], then [return None]. *)
Definition extract_subject_id_from_session (session_name : string)
  : outcome pyval :=
  match extract_body session_name with
  | Raise ValueError | Raise AttributeError => Ok PNone
  | r => r
  end.

End with_builtins.
End SubjectId.

(** An [int] that reads plain decimal numerals, for use in examples. *)
Module SampleInt.

Fixpoint digits (s : string) (acc : Z) : outcome Z :=
  match s with
  | EmptyString => Ok acc
  | String c s' =>
      let n := nat_of_ascii c in
      if ((48 <=? n) && (n <=? 57))%nat
      then digits s' (10 * acc + Z.of_nat (n - 48))
      else Raise ValueError
  end.

Definition builtins : SubjectId.Builtins :=
  {| SubjectId.int := λ s,
       match s with
       | EmptyString => Raise ValueError
       | _ => digits s 0
       end |}.

End SampleInt.

(** Sample sessions and a sample TRC reader, for use in examples. *)
Module SampleSession.

Definition inputs (cameraSetup : string) : Reprocess.inputs := {|
  Reprocess.dataDir := "/data";
  Reprocess.sessionNames := ["subject2"];
  Reprocess.poseDetectors := ["OpenPose"];
  Reprocess.cameraSetups := [cameraSetup];
  Reprocess.resolutionPoseDetection := "default";
  Reprocess.augmenter_model := "v0.2" |}.

(** The inputs of the intrinsics script with an empty list of trials. *)
Definition no_trials : CalcIntrinsics.inputs := {|
  CalcIntrinsics.sessionName := "SonyIntrinsics";
  CalcIntrinsics.CheckerBoardParams :=
    {| dimensions := (PInt 8, PInt 11); squareSize := PInt 60 |};
  CalcIntrinsics.trials := [];
  CalcIntrinsics.loadTrialInfo := false;
  CalcIntrinsics.saveIntrinsicsForDeployment := true;
  CalcIntrinsics.deployedFolderNames := ["Deployed_720_60fps"; "Deployed"];
  CalcIntrinsics.cameraModel := "SONYRX0-II-Cam4b";
  CalcIntrinsics.videoType := ".MP4";
  CalcIntrinsics.dataDir := "/data/IntrinsicCaptures";
  CalcIntrinsics.getcwd := "/home/opencap-core" |}.

Definition trial_file : string :=
  "/data/IntrinsicCaptures/Cam4b/trialInfo.yaml".

(** A reader that takes the words of the file for the marker names and
    gives every marker one frame at the origin. *)
Definition trc_of (data : string) : UtilsTRC.trc_file := {|
  UtilsTRC.time := PArray [[0 # 1]];
  UtilsTRC.marker_names := String.words data;
  UtilsTRC.marker := λ name,
    if bool_decide (name ∈ String.words data)
    then Ok (PArray [[0 # 1; 0 # 1; 0 # 1]])
    else Raise (KeyError name) |}.

Definition dataman : UtilsTRC.Dataman := {|
  UtilsTRC.TRCFile := λ path files,
    match files !! path with
    | Some data => Ok (trc_of data)
    | None => Raise (FileNotFoundError path)
    end |}.

End SampleSession.

(** A PyYAML whose [dump] sorts the keys of every mapping, as the library
    does by default; the rest is as in [Sample]. *)
Module SampleSorted.

Fixpoint insert_item (kv : string * pyval) (l : list (string * pyval))
  : list (string * pyval) :=
  match l with
  | [] => [kv]
  | kv' :: l' =>
      if String.leb kv.1 kv'.1 then kv :: l else kv' :: insert_item kv l'
  end.

Definition sort_items (l : list (string * pyval)) : list (string * pyval) :=
  foldr insert_item [] l.

Fixpoint sort_keys (v : pyval) : pyval :=
  match v with
  | PList xs => PList (map sort_keys xs)
  | PTuple xs => PTuple (map sort_keys xs)
  | PDict kvs => PDict (sort_items (map (λ kv, (kv.1, sort_keys kv.2)) kvs))
  | _ => v
  end.

Definition externals : Externals := {|
  yaml_dump := λ v, Sample.show (sort_keys v);
  yaml_safe_load := Sample.load;
  pickle_dump := pickle_dump (Externals := Sample.externals);
  pickle_load := pickle_load (Externals := Sample.externals);
  importMetadata := importMetadata (Externals := Sample.externals);
  computeAverageIntrinsics :=
    computeAverageIntrinsics (Externals := Sample.externals);
  saveCameraParameters := saveCameraParameters (Externals := Sample.externals);
  pipeline_main := pipeline_main (Externals := Sample.externals);
  listdir_dirs := listdir_dirs (Externals := Sample.externals);
  copy_model_folder := copy_model_folder (Externals := Sample.externals);
  update_progress_excel :=
    update_progress_excel (Externals := Sample.externals) |}.

End SampleSorted.

(** * Properties *)

(** ** Strings and paths on examples *)

Example lower_example : PyStr.lower "Extrinsics_Trial1" = "extrinsics_trial1".
Proof. reflexivity. Qed.

Example str_in_example :
  PyStr.str_in "static" (PyStr.lower "S01_STATIC_1") = true
  ∧ PyStr.str_in "static" "statistics" = false.
Proof. split; reflexivity. Qed.

Example join_example :
  OsPath.join "/data" ["Cam4b"; "trialInfo.yaml"] = "/data/Cam4b/trialInfo.yaml"
  ∧ OsPath.join "/data/" ["/abs"; "x"] = "/abs/x".
Proof. split; reflexivity. Qed.

(** ** Running a sequence of statements *)

Section monad_facts.
Context {A B : Type}.
Implicit Types (m : M A) (f : A → M B) (w : world).

Lemma bind_Ok m f w a w1 :
  m w = (Ok a, w1) → (m ≫= f) w = f a w1.
Proof. intros Hm. unfold mbind, M_bind. by rewrite Hm. Qed.

Lemma bind_Raise m f w e w1 :
  m w = (Raise e, w1) → (m ≫= f) w = (Raise e, w1).
Proof. intros Hm. unfold mbind, M_bind. by rewrite Hm. Qed.

Lemma bind_Ok_inv m f w b w' :
  (m ≫= f) w = (Ok b, w') →
  ∃ a w1, m w = (Ok a, w1) ∧ f a w1 = (Ok b, w').
Proof.
  unfold mbind, M_bind. destruct (m w) as [[a|e] w1]; [eauto | discriminate].
Qed.

Lemma bind_cases m f w :
  (∃ a w1, m w = (Ok a, w1) ∧ (m ≫= f) w = f a w1)
  ∨ (∃ e w1, m w = (Raise e, w1) ∧ (m ≫= f) w = (Raise e, w1)).
Proof.
  unfold mbind, M_bind. destruct (m w) as [[a|e] w1]; [left | right]; eauto.
Qed.

Lemma lift_bind (o : outcome A) f w :
  (lift o ≫= f) w = match o with Ok a => f a w | Raise e => (Raise e, w) end.
Proof. unfold mbind, M_bind, lift. by destruct o. Qed.

End monad_facts.

(** ** The intrinsics loader *)

Section loader.
Context {ext : Externals}.
Import VisualizePickle.

Lemma handler_returns_None e w :
  load_intrinsics_handler e w = (Ok PNone, w).
Proof. by destruct e. Qed.

Lemma body_keeps_world filepath w r w' :
  load_intrinsics_body filepath w = (r, w') → w' = w.
Proof.
  unfold load_intrinsics_body, Os.read, mbind at 1, M_bind.
  destruct (fs w !! filepath) as [data|]; [|by intros [= _ <-]].
  destruct (faults w filepath); try by intros [= _ <-].
  all: rewrite lift_bind; destruct (pickle_load data) as [v|e];
    [|by intros [= _ <-]].
  all: rewrite lift_bind; destruct (Py.items v) as [kvs|e];
    [|by intros [= _ <-]].
  all: rewrite lift_bind; destruct (for_fold _ kvs ()) as [[]|e];
    by intros [= _ <-].
Qed.

Lemma body_result filepath w v :
  load_intrinsics_body filepath w = (Ok v, w) →
  ∃ data kvs, fs w !! filepath = Some data
              ∧ pickle_load data = Ok (PDict kvs) ∧ v = PDict kvs.
Proof.
  unfold load_intrinsics_body, Os.read, mbind at 1, M_bind.
  destruct (fs w !! filepath) as [data|]; [|discriminate].
  destruct (faults w filepath); try discriminate.
  all: rewrite lift_bind; destruct (pickle_load data) as [v'|e] eqn:Hload;
    [|discriminate].
  all: rewrite lift_bind; destruct (Py.items v') as [kvs|e] eqn:Hitems;
    [|discriminate].
  all: rewrite lift_bind; destruct (for_fold _ kvs ()) as [[]|e];
    [|discriminate].
  all: intros [= <-]; destruct v'; try discriminate;
    injection Hitems as ->; eauto.
Qed.

(** C1.  A path that holds no file: opening it raises
    [FileNotFoundError], the first handler runs, and the loader returns
    [None], not a record. *)
Theorem load_unwritten_path_returns_None (filepath : string) (w : world) :
  fs w !! filepath = None →
  load_intrinsics_body filepath w = (Raise (FileNotFoundError filepath), w)
  ∧ load_intrinsics_from_pickle filepath w = (Ok PNone, w).
Proof.
  intros Hnone.
  assert (load_intrinsics_body filepath w
          = (Raise (FileNotFoundError filepath), w)) as Hbody.
  { unfold load_intrinsics_body, Os.read, mbind, M_bind. by rewrite Hnone. }
  split; [done|].
  unfold load_intrinsics_from_pickle, try_except. by rewrite Hbody.
Qed.

(** C10.  The loader returns for every path: its result is [None] or the
    dictionary that was unpickled from the file, and whatever exception
    the [try] block raises ends as [None]. *)
Theorem load_intrinsics_never_raises (filepath : string) (w : world) :
  (load_intrinsics_from_pickle filepath w = (Ok PNone, w)
   ∨ ∃ data kvs, fs w !! filepath = Some data
                 ∧ pickle_load data = Ok (PDict kvs)
                 ∧ load_intrinsics_from_pickle filepath w = (Ok (PDict kvs), w))
  ∧ (∀ e w', load_intrinsics_body filepath w = (Raise e, w') →
             load_intrinsics_from_pickle filepath w = (Ok PNone, w)).
Proof.
  split.
  - unfold load_intrinsics_from_pickle, try_except.
    destruct (load_intrinsics_body filepath w) as [[v|e] w'] eqn:Hbody.
    + pose proof (body_keeps_world _ _ _ _ Hbody) as ->.
      destruct (body_result _ _ _ Hbody) as (data & kvs & ? & ? & ->).
      right. eauto.
    + pose proof (body_keeps_world _ _ _ _ Hbody) as ->.
      left. apply handler_returns_None.
  - intros e w' Hbody.
    pose proof (body_keeps_world _ _ _ _ Hbody) as ->.
    unfold load_intrinsics_from_pickle, try_except. rewrite Hbody.
    apply handler_returns_None.
Qed.

End loader.

(** Witness of C1: a store that holds one deployed record is asked for
    another camera. *)
Lemma load_unwritten_path_returns_None_witness :
  let w := Sample.start
             {["CameraIntrinsics/SONYRX0-II-Cam1/Deployed/cameraIntrinsics.pickle"
               := Sample.show Sample.CamParams]} in
  let filepath :=
    "CameraIntrinsics/SONYRX0-II-Cam2/Deployed/cameraIntrinsics.pickle" in
  fs w !! filepath = None
  ∧ VisualizePickle.load_intrinsics_body (ext := Sample.externals) filepath w
    = (Raise (FileNotFoundError filepath), w)
  ∧ VisualizePickle.load_intrinsics_from_pickle (ext := Sample.externals)
      filepath w = (Ok PNone, w).
Proof.
  intros w filepath.
  assert (fs w !! filepath = None) as Hnone by (vm_compute; reflexivity).
  split; [exact Hnone|].
  exact (load_unwritten_path_returns_None (ext := Sample.externals)
           filepath w Hnone).
Defined.

Example load_written_path :
  let filepath :=
    "CameraIntrinsics/SONYRX0-II-Cam1/Deployed/cameraIntrinsics.pickle" in
  let w := Sample.start {[filepath := Sample.show Sample.CamParams]} in
  VisualizePickle.load_intrinsics_from_pickle (ext := Sample.externals)
    filepath w = (Ok Sample.CamParams, w).
Proof. vm_compute. reflexivity. Qed.

(** ** The image size as the viewer reads it *)

Section viewer.
Import VisualizePickle.

Lemma extract_parameters_imageSize intrinsics p :
  extract_parameters intrinsics = Ok p →
  ∃ imageSize h w,
    Py.subscript intrinsics "imageSize" = Ok imageSize
    ∧ Py.subscript2 imageSize 0 0 = Ok h
    ∧ Py.subscript2 imageSize 1 0 = Ok w
    ∧ H p = Py.int h ∧ W p = Py.int w
    ∧ image_corners_2d p = [(0, 0); (W p, 0); (W p, H p); (0, H p)].
Proof.
  unfold extract_parameters, mbind, outcome_bind.
  destruct (Py.subscript intrinsics "intrinsicMat") as [K|]; [|discriminate].
  destruct (Py.subscript2 K 0 0); [|discriminate].
  destruct (Py.subscript2 K 1 1); [|discriminate].
  destruct (Py.subscript2 K 0 2); [|discriminate].
  destruct (Py.subscript2 K 1 2); [|discriminate].
  destruct (Py.subscript intrinsics "imageSize") as [imageSize|];
    [|discriminate].
  destruct (Py.subscript2 imageSize 0 0) as [h|] eqn:Hh; [|discriminate].
  destruct (Py.subscript2 imageSize 1 0) as [w|] eqn:Hw; [|discriminate].
  intros [= <-]. by exists imageSize, h, w.
Qed.

Lemma subscript2_array a i j x :
  Py.subscript2 a i j = Ok x →
  ∃ rows row, a = PArray rows ∧ rows !! i = Some row ∧ row !! j = Some x.
Proof.
  destruct a; try discriminate. simpl.
  destruct (rows !! i) as [row|] eqn:Hrow; [|discriminate].
  destruct (row !! j) as [y|] eqn:Hy; [|discriminate].
  intros [= <-]. eauto.
Qed.

(** C8, as the code has it.  Whenever the viewer gets to plot a record,
    the ['imageSize'] field of the record is an array whose entry [0, 0],
    the first component, is taken as the image height and whose entry
    [1, 0], the second component, as the image width; the width is the
    horizontal extent of the image corners and the height the vertical
    one. *)
Theorem imageSize_is_height_then_width (intrinsics : pyval) (p : frustum) :
  visualize_camera_intrinsics intrinsics = Ok (Some p) →
  ∃ rows r0 r1 first second,
    Py.subscript intrinsics "imageSize" = Ok (PArray rows)
    ∧ rows !! 0%nat = Some r0 ∧ r0 !! 0%nat = Some first
    ∧ rows !! 1%nat = Some r1 ∧ r1 !! 0%nat = Some second
    ∧ H p = Py.int first
    ∧ W p = Py.int second
    ∧ image_corners_2d p = [(0, 0); (W p, 0); (W p, H p); (0, H p)].
Proof.
  unfold visualize_camera_intrinsics, mbind, outcome_bind.
  destruct (Py.truth intrinsics) as [[]|]; simpl; try discriminate.
  destruct (extract_parameters intrinsics) as [q|e] eqn:Hex;
    [|destruct e; discriminate].
  intros [= <-].
  destruct (extract_parameters_imageSize _ _ Hex)
    as (imageSize & h & w & Hsub & Hh & Hw & HH & HW & Hcorners).
  destruct (subscript2_array _ _ _ _ Hh) as (rows & r0 & -> & Hr0 & Hfirst).
  destruct (subscript2_array _ _ _ _ Hw) as (rows' & r1 & [= <-] & Hr1 & Hsecond).
  exists rows, r0, r1, h, w. by repeat split.
Qed.

End viewer.

(** Witness of C8: the record of a 1280 by 720 camera. *)
Lemma imageSize_is_height_then_width_witness :
  ∃ p, VisualizePickle.visualize_camera_intrinsics Sample.CamParams = Ok (Some p)
       ∧ VisualizePickle.H p = 720 ∧ VisualizePickle.W p = 1280.
Proof.
  eexists. split; [vm_compute; reflexivity|].
  destruct (imageSize_is_height_then_width Sample.CamParams _ eq_refl)
    as (rows & r0 & r1 & first & second & Hsub & Hr0 & Hf & Hr1 & Hs & HH & HW & _).
  injection Hsub as <-. injection Hr0 as <-. injection Hf as <-.
  injection Hr1 as <-. injection Hs as <-.
  split; [exact HH | exact HW].
Defined.

(** C8 as stated fails: in the record of a 1280 by 720 camera the first
    component of ['imageSize'] is 720, and the viewer draws an image that is
    1280 wide and 720 high; the width is not the first component. *)
Lemma imageSize_first_component_is_not_width :
  Py.subscript Sample.CamParams "imageSize" = Ok (PArray [[720 # 1]; [1280 # 1]])
  ∧ (∃ p, VisualizePickle.visualize_camera_intrinsics Sample.CamParams
          = Ok (Some p)
          ∧ VisualizePickle.W p = 1280
          ∧ VisualizePickle.H p = 720
          ∧ VisualizePickle.W p ≠ Py.int (720 # 1)).
Proof.
  split; [reflexivity|].
  eexists. split; [vm_compute; reflexivity|].
  repeat split; vm_compute; discriminate.
Qed.

(** ** Strings *)

Section string_facts.
Import PyStr.

Lemma startswith_spec p s :
  startswith p s = true ↔ ∃ post, s = p +:+ post.
Proof.
  revert s. induction p as [|a p IH]; intros s; simpl.
  - split; [intros _; by exists s | done].
  - destruct s as [|b s]; simpl.
    + split; [done | intros [post Hpost]; discriminate].
    + rewrite andb_true_iff, bool_decide_eq_true, IH. split.
      * intros [-> [post ->]]. by exists post.
      * intros [post [= -> ->]]. split; [done | by exists post].
Qed.

Lemma str_in_spec needle hay :
  str_in needle hay = true ↔ ∃ pre post, hay = pre +:+ needle +:+ post.
Proof.
  induction hay as [|c hay IH]; simpl; rewrite orb_true_iff, startswith_spec.
  - split.
    + intros [[post Hpost] | ?]; [|done]. by exists "", post.
    + intros (pre & post & Heq). left. destruct pre; [|discriminate].
      by exists post.
  - rewrite IH. split.
    + intros [[post Hpost] | (pre & post & ->)].
      * by exists "", post.
      * by exists (String c pre), post.
    + intros (pre & post & Heq). destruct pre as [|c' pre].
      * left. by exists post.
      * right. injection Heq as -> ->. by exists pre, post.
Qed.

Lemma app_cons (c : ascii) (a b : string) :
  String c a +:+ b = String c (a +:+ b).
Proof. reflexivity. Qed.

Lemma str_app_assoc (a b c : string) : (a +:+ b) +:+ c = a +:+ b +:+ c.
Proof.
  induction a as [|x a IH]; [done|]. by rewrite !app_cons, IH.
Qed.

Lemma str_app_nil_r (a : string) : a +:+ "" = a.
Proof. induction a as [|x a IH]; [done|]. by rewrite app_cons, IH. Qed.

Lemma str_length_app (a b : string) :
  String.length (a +:+ b) = (String.length a + String.length b)%nat.
Proof.
  induction a as [|x a IH]; [done|]. rewrite app_cons. simpl. by rewrite IH.
Qed.

(** Two ways to cut one string into a head and a tail of the same
    length give the same tail. *)
Lemma same_tail (a b u v : string) :
  a +:+ u = b +:+ v → String.length u = String.length v → u = v.
Proof.
  revert b. induction a as [|x a IH]; intros [|y b] Heq Hlen.
  - done.
  - exfalso. apply (f_equal String.length) in Heq.
    rewrite !str_length_app in Heq. simpl in Heq. lia.
  - exfalso. apply (f_equal String.length) in Heq.
    rewrite !str_length_app in Heq. simpl in Heq. lia.
  - rewrite !app_cons in Heq. injection Heq as -> Heq. by eapply IH.
Qed.

End string_facts.

(** ** The role of a trial *)

(** C7, as the code has it.  Both scripts read the role of a trial off its
    folder name: [extrinsicsTrial] is set exactly when the lower-cased name
    contains [extrinsics]; the three-camera script sets [scaleModel] exactly
    when the lower-cased name contains [static], the two-camera script
    never sets it. *)
Theorem role_is_read_from_folder_name
    (i : Reprocess.inputs) (sessionName poseDetector cameraSetup : string)
    (cams : list string) (trial : string) :
  let two := TwoCameras.dispatch i sessionName poseDetector cameraSetup cams trial in
  let three := ThreeCameras.dispatch i sessionName poseDetector cameraSetup cams trial in
  trial_name two = trial ∧ trial_name three = trial
  ∧ (extrinsicsTrial two = true
     ↔ ∃ pre post, PyStr.lower trial = pre +:+ "extrinsics" +:+ post)
  ∧ (extrinsicsTrial three = true
     ↔ ∃ pre post, PyStr.lower trial = pre +:+ "extrinsics" +:+ post)
  ∧ (scaleModel three = true
     ↔ ∃ pre post, PyStr.lower trial = pre +:+ "static" +:+ post)
  ∧ scaleModel two = false.
Proof.
  simpl. repeat split; try done.
  all: try (intros Hflag; apply str_in_spec;
            unfold Reprocess.names_extrinsics, Reprocess.names_static in Hflag;
            by destruct (PyStr.str_in _ _)).
  all: intros Hsub%str_in_spec;
    unfold Reprocess.names_extrinsics, Reprocess.names_static; by rewrite Hsub.
Qed.

(** C7 as stated fails: a trial tagged as a regular dynamic trial, in a
    folder whose name happens to contain [static], is dispatched by the
    three-camera script as the static trial; the tag plays no part. *)
Lemma role_tag_is_not_what_dispatches :
  let i := {| Reprocess.dataDir := "/data";
              Reprocess.sessionNames := ["subject11"];
              Reprocess.poseDetectors := ["OpenPose"];
              Reprocess.cameraSetups := ["3-cameras"];
              Reprocess.resolutionPoseDetection := "default";
              Reprocess.augmenter_model := "v0.2" |} in
  let t := {| RoleTag.folder := "Walking_Static_Start_1";
              RoleTag.role := RoleTag.Dynamic |} in
  let a := ThreeCameras.dispatch i "subject11" "OpenPose" "3-cameras"
             ["Cam1"; "Cam4"; "Cam7"] (RoleTag.folder t) in
  RoleTag.flags_of_role (RoleTag.role t) = (false, false)
  ∧ (extrinsicsTrial a, scaleModel a) = (false, true)
  ∧ (extrinsicsTrial a, scaleModel a) ≠ RoleTag.flags_of_role (RoleTag.role t).
Proof. repeat split. vm_compute. discriminate. Qed.

(** ** The order of the trials *)

Section reordering.
Import Reprocess.

Lemma index_of_elem x l :
  x ∈ l → ∃ i, Py.index_of x l = Some i ∧ l !! i = Some x.
Proof.
  induction l as [|y l IH]; intros Hin.
  - by apply elem_of_nil in Hin.
  - simpl. destruct (decide (y = x)) as [->|Hne].
    + by exists 0%nat.
    + apply elem_of_cons in Hin as [->|Hin]; [done|].
      destruct (IH Hin) as (i & -> & Hi). by exists (S i).
Qed.

Lemma index_elem l x :
  x ∈ l → ∃ i, Py.index l x = Ok i ∧ l !! i = Some x.
Proof.
  intros (i & Hi & Hl)%index_of_elem. exists i. unfold Py.index.
  by rewrite Hi.
Qed.

Lemma find_extrinsics_loop all l idx0 :
  (∀ t, t ∈ l → t ∈ all) →
  ∃ idx,
    for_fold (λ idx trial,
                if names_extrinsics trial
                then i ← Py.index all trial; Ok (Some i)
                else Ok idx) l idx0 = Ok idx
    ∧ (bound_to names_extrinsics all idx0
       ∨ (∃ t, t ∈ l ∧ names_extrinsics t = true) →
       bound_to names_extrinsics all idx).
Proof.
  revert idx0. induction l as [|x l IH]; intros idx0 Hsub.
  - exists idx0. split; [done|]. intros [?|(t & Ht & _)]; [done|].
    by apply elem_of_nil in Ht.
  - assert (∀ t, t ∈ l → t ∈ all) as Hsub'
      by (intros t Ht; apply Hsub; by apply elem_of_cons; right).
    simpl. destruct (names_extrinsics x) eqn:Hx.
    + destruct (index_elem all x) as (i & -> & Hi);
        [apply Hsub; by apply elem_of_cons; left|].
      simpl. destruct (IH (Some i) Hsub') as (idx & -> & Hidx).
      exists idx. split; [done|]. intros _. apply Hidx. left.
      by exists i, x.
    + destruct (IH idx0 Hsub') as (idx & -> & Hidx).
      exists idx. split; [done|]. intros [Hb|(t & Ht & Hnt)].
      * apply Hidx. by left.
      * apply Hidx. right. exists t. split; [|done].
        apply elem_of_cons in Ht as [->|Ht]; [congruence | done].
Qed.

Lemma two_cameras_reorder trials_tmp extrinsics_idx :
  (∃ t, t ∈ trials_tmp ∧ names_extrinsics t = true) →
  ∃ x idx,
    TwoCameras.reorder trials_tmp extrinsics_idx
    = Ok (x :: List.filter (λ trial, negb (names_extrinsics trial)) trials_tmp,
          idx)
    ∧ names_extrinsics x = true ∧ x ∈ trials_tmp.
Proof.
  intros Hex. unfold TwoCameras.reorder, TwoCameras.find_extrinsics.
  destruct (find_extrinsics_loop trials_tmp trials_tmp extrinsics_idx)
    as (idx & -> & Hidx); [done|].
  destruct Hidx as (i & x & -> & Hi & Hx); [by right|].
  exists x, (Some i). simpl. unfold Py.getitem. rewrite Hi. simpl.
  repeat split; [done|]. by eapply list_elem_of_lookup_2.
Qed.

Lemma find_indices_loop all l (v : ThreeCameras.indices) :
  (∀ t, t ∈ l → t ∈ all) →
  ∃ v',
    for_fold
      (λ (st : ThreeCameras.indices * bool) trial,
         st1 ← (if names_extrinsics trial
                then i ← Py.index all trial;
                     Ok ({| ThreeCameras.extrinsics_idx := Some i;
                            ThreeCameras.static_idx :=
                              ThreeCameras.static_idx st.1 |}, st.2)
                else Ok st);
         if names_static trial
         then j ← Py.index all trial;
              Ok ({| ThreeCameras.extrinsics_idx :=
                       ThreeCameras.extrinsics_idx st1.1;
                     ThreeCameras.static_idx := Some j |}, true)
         else Ok st1)
      l (v, true) = Ok (v', true)
    ∧ (bound_to names_extrinsics all (ThreeCameras.extrinsics_idx v)
       ∨ (∃ t, t ∈ l ∧ names_extrinsics t = true) →
       bound_to names_extrinsics all (ThreeCameras.extrinsics_idx v'))
    ∧ (bound_to names_static all (ThreeCameras.static_idx v)
       ∨ (∃ t, t ∈ l ∧ names_static t = true) →
       bound_to names_static all (ThreeCameras.static_idx v')).
Proof.
  revert v. induction l as [|x l IH]; intros v Hsub.
  - exists v. split; [done|].
    split; (intros [?|(t & Ht & _)]; [done | by apply elem_of_nil in Ht]).
  - assert (∀ t, t ∈ l → t ∈ all) as Hsub'
      by (intros t Ht; apply Hsub; by apply elem_of_cons; right).
    destruct (index_elem all x) as (i & Hindex & Hi);
      [apply Hsub; by apply elem_of_cons; left|].
    simpl. destruct (names_extrinsics x) eqn:Hxe;
      destruct (names_static x) eqn:Hxs; rewrite ?Hindex; simpl.
    all: match goal with
         | |- context [for_fold _ _ (?v1, true)] =>
             destruct (IH v1 Hsub') as (v' & -> & He & Hs)
         end; exists v'; (split; [done|]); simpl in He, Hs.
    all: split;
      [ intros [Hb|(t & Ht & Hnt)]; apply He;
        first [ by (left; exists i, x)
              | by left
              | right; exists t; split; [|done];
                apply elem_of_cons in Ht as [->|Ht]; [congruence | done] ]
      | intros [Hb|(t & Ht & Hnt)]; apply Hs;
        first [ by (left; exists i, x)
              | by left
              | right; exists t; split; [|done];
                apply elem_of_cons in Ht as [->|Ht]; [congruence | done] ] ].
Qed.

End reordering.

Section reordering_three.
Import Reprocess.

Lemma getitem_lookup {A} (l : list A) i x :
  l !! i = Some x → Py.getitem l i = Ok x.
Proof. intros Hl. unfold Py.getitem. by rewrite Hl. Qed.

Lemma three_cameras_reorder_head trials_tmp v trials v' :
  (∃ t, t ∈ trials_tmp ∧ names_extrinsics t = true) →
  ThreeCameras.reorder trials_tmp v = Ok (trials, v') →
  ∃ x second,
    trials = x :: second ::
               List.filter (λ trial, negb (names_static trial)
                                     && negb (names_extrinsics trial))
                           trials_tmp
    ∧ names_extrinsics x = true ∧ x ∈ trials_tmp.
Proof.
  intros Hex. unfold ThreeCameras.reorder, ThreeCameras.find_indices.
  destruct (find_indices_loop trials_tmp trials_tmp v)
    as (v1 & -> & He & _); [done|].
  destruct He as (i & x & Hi & Hx & Hnx); [by right|].
  simpl. rewrite Hi. simpl. rewrite (getitem_lookup _ _ _ Hx). simpl.
  destruct (ThreeCameras.static_idx v1) as [j|]; [|discriminate]. simpl.
  destruct (Py.getitem trials_tmp j) as [second|]; [|discriminate]. simpl.
  intros [= <- <-]. exists x, second. repeat split; [done|].
  by eapply list_elem_of_lookup_2.
Qed.

Lemma three_cameras_reorder_static trials_tmp v :
  (∃ t, t ∈ trials_tmp ∧ names_extrinsics t = true) →
  (∃ t, t ∈ trials_tmp ∧ names_static t = true) →
  ∃ x s v',
    ThreeCameras.reorder trials_tmp v
    = Ok (x :: s ::
            List.filter (λ trial, negb (names_static trial)
                                  && negb (names_extrinsics trial))
                        trials_tmp,
          v')
    ∧ names_extrinsics x = true ∧ x ∈ trials_tmp
    ∧ names_static s = true ∧ s ∈ trials_tmp.
Proof.
  intros Hex Hst. unfold ThreeCameras.reorder, ThreeCameras.find_indices.
  destruct (find_indices_loop trials_tmp trials_tmp v)
    as (v1 & -> & He & Hs); [done|].
  destruct He as (i & x & Hi & Hx & Hnx); [by right|].
  destruct Hs as (j & s & Hj & Hs & Hns); [by right|].
  simpl. rewrite Hi, Hj. simpl. unfold Py.getitem. rewrite Hx, Hs. simpl.
  exists x, s, v1. repeat split; try done; by eapply list_elem_of_lookup_2.
Qed.

End reordering_three.

(** ** What a run adds to the trace *)

Section trace_facts.
Context {ext : Externals}.

Lemma emits_weaken {A} (P Q : list event → Prop) (m : M A) :
  (∀ evs, P evs → Q evs) → emits P m → emits Q m.
Proof.
  intros HPQ Hm w r w' Hrun. destruct (Hm w r w' Hrun) as (evs & ? & ?).
  exists evs. auto.
Qed.

Lemma emits_ret {A} (a : A) : emits (λ evs, evs = []) (mret a).
Proof. intros w r w' [= <- <-]. exists []. by rewrite app_nil_r. Qed.

Lemma emits_lift {A} (o : outcome A) : emits (λ evs, evs = []) (lift o).
Proof. intros w r w' [= <- <-]. exists []. by rewrite app_nil_r. Qed.

Lemma emits_ask {A} (f : gmap string string → outcome A) :
  emits (λ evs, evs = []) (ask f).
Proof. intros w r w' [= <- <-]. exists []. by rewrite app_nil_r. Qed.

Lemma emits_call {A}
    (f : gmap string string → outcome A * gmap string string) :
  emits (λ evs, evs = []) (call f).
Proof.
  intros w r w'. unfold call. destruct (f (fs w)) as [r0 f'].
  intros [= <- <-]. exists []. by rewrite app_nil_r.
Qed.

Lemma emits_emit (e : event) : emits (λ evs, evs = [e]) (emit e).
Proof. intros w r w' [= <- <-]. by exists [e]. Qed.

Lemma emits_bind {A B} (P Q : list event → Prop) (m : M A) (f : A → M B) :
  emits P m → (∀ a, emits Q (f a)) →
  emits (λ evs, ∃ e1 e2, evs = e1 ++ e2 ∧ P e1 ∧ (e2 = [] ∨ Q e2)) (m ≫= f).
Proof.
  intros Hm Hf w r w' Hrun.
  destruct (bind_cases m f w) as [(a & w1 & Hmw & Heq)|(e & w1 & Hmw & Heq)];
    rewrite Heq in Hrun.
  - destruct (Hm _ _ _ Hmw) as (e1 & Ht1 & HP).
    destruct (Hf a _ _ _ Hrun) as (e2 & Ht2 & HQ).
    exists (e1 ++ e2). split; [by rewrite Ht2, Ht1, app_assoc|].
    exists e1, e2. auto.
  - injection Hrun as <- <-. destruct (Hm _ _ _ Hmw) as (e1 & Ht1 & HP).
    exists e1. split; [done|]. exists e1, []. rewrite app_nil_r. auto.
Qed.

Lemma emits_bind_closed {A B} (P : list event → Prop) (m : M A) (f : A → M B) :
  closed P → emits P m → (∀ a, emits P (f a)) → emits P (m ≫= f).
Proof.
  intros [Hnil Happ] Hm Hf. eapply emits_weaken; [|by apply emits_bind].
  intros evs (e1 & e2 & -> & HP & [->|HQ]); [by rewrite app_nil_r | auto].
Qed.

Lemma emits_for_each {A} (P : list event → Prop) (l : list A)
    (body : A → M unit) :
  closed P → (∀ x, emits P (body x)) → emits P (for_each l body).
Proof.
  intros HP Hbody. induction l as [|x l IH]; simpl.
  - eapply emits_weaken; [|apply emits_ret]. intros evs ->. apply HP.
  - apply emits_bind_closed; auto.
Qed.

Lemma emits_silent {A} (P : list event → Prop) (m : M A) :
  closed P → emits (λ evs, evs = []) m → emits P m.
Proof. intros [Hnil _]. apply emits_weaken. by intros evs ->. Qed.

Lemma closed_True : closed (λ _, True).
Proof. by split. Qed.

Lemma process_events_app e1 e2 :
  process_events (e1 ++ e2) = process_events e1 ++ process_events e2.
Proof. unfold process_events. apply omap_app. Qed.

Lemma closed_extrinsics_first : closed extrinsics_first.
Proof.
  split; [done|]. intros e1 e2 H1 H2. unfold extrinsics_first in *.
  rewrite process_events_app. by destruct (process_events e1).
Qed.

Lemma emits_process_trial a :
  emits (λ evs, evs = [EvProcessTrial a]) (Reprocess.process_trial a).
Proof.
  unfold Reprocess.process_trial. eapply emits_weaken;
    [|apply emits_bind; [apply emits_emit | intros _; apply emits_call]].
  intros evs (e1 & e2 & -> & -> & [->| ->]); by rewrite ?app_nil_r.
Qed.

(** A loop over trials whose first trial is the extrinsics trial and
    whose body starts by processing its trial. *)
Lemma emits_trial_loop (mk : string → process_args) (body : string → M unit)
    (x : string) (rest : list string) :
  (∀ t, trial_name (mk t) = t) →
  (∀ t, extrinsicsTrial (mk t) = Reprocess.names_extrinsics t) →
  (∀ t, emits (λ evs, ∃ more, evs = EvProcessTrial (mk t) :: more) (body t)) →
  Reprocess.names_extrinsics x = true →
  emits extrinsics_first (for_each (x :: rest) body).
Proof.
  intros Hname Hflag Hbody Hx. simpl.
  eapply emits_weaken; cycle 1.
  - apply emits_bind with (Q := λ _, True); [apply Hbody|].
    intros _. apply emits_for_each; [apply closed_True|]. intros t.
    eapply emits_weaken; [|apply Hbody]. done.
  - intros evs (e1 & e2 & -> & (more & ->) & _).
    unfold extrinsics_first. simpl. by rewrite Hflag, Hname.
Qed.

Lemma two_cameras_process_trials i sessionName x rest :
  Reprocess.names_extrinsics x = true →
  emits extrinsics_first (TwoCameras.process_trials i sessionName (x :: rest)).
Proof.
  intros Hx. unfold TwoCameras.process_trials.
  apply emits_for_each; [apply closed_extrinsics_first|]. intros poseDetector.
  apply emits_for_each; [apply closed_extrinsics_first|]. intros cameraSetup.
  apply emits_bind_closed; [apply closed_extrinsics_first | |].
  { apply emits_silent; [apply closed_extrinsics_first | apply emits_lift]. }
  intros cam2Use.
  apply (emits_trial_loop
           (TwoCameras.dispatch i sessionName poseDetector cameraSetup cam2Use));
    [done | | | done].
  - intros t. simpl. by destruct (Reprocess.names_extrinsics t).
  - intros t. eapply emits_weaken; [|apply emits_process_trial].
    intros evs ->. by exists [].
Qed.

Lemma emits_copy_model i sessionName poseDetector cameraSetup :
  emits (λ evs, evs = [])
    (ThreeCameras.copy_model i sessionName poseDetector cameraSetup).
Proof.
  unfold ThreeCameras.copy_model. eapply emits_weaken; cycle 1.
  - apply emits_bind with (Q := λ evs, evs = []); [apply emits_lift|].
    intros c. destruct (bool_decide _); [apply emits_call | apply emits_ret].
  - intros evs (e1 & e2 & -> & -> & [->| ->]); done.
Qed.

Lemma three_cameras_process_trials i sessionName x rest :
  Reprocess.names_extrinsics x = true →
  emits extrinsics_first (ThreeCameras.process_trials i sessionName (x :: rest)).
Proof.
  intros Hx. unfold ThreeCameras.process_trials.
  apply emits_for_each; [apply closed_extrinsics_first|]. intros poseDetector.
  apply emits_for_each; [apply closed_extrinsics_first|]. intros cameraSetup.
  apply emits_bind_closed; [apply closed_extrinsics_first | |].
  { apply emits_silent; [apply closed_extrinsics_first | apply emits_lift]. }
  intros cam2Use.
  apply emits_bind_closed; [apply closed_extrinsics_first | |].
  { apply emits_silent; [apply closed_extrinsics_first | apply emits_copy_model]. }
  intros _.
  apply (emits_trial_loop
           (ThreeCameras.dispatch i sessionName poseDetector cameraSetup cam2Use));
    [done | | | done].
  - intros t. simpl. by destruct (Reprocess.names_extrinsics t).
  - intros t. eapply emits_weaken; cycle 1.
    + apply emits_bind with (Q := λ _, True); [apply emits_process_trial|].
      intros _. apply emits_bind_closed; [apply closed_True | |].
      * eapply emits_weaken; [|apply emits_emit]. done.
      * intros _. eapply emits_weaken; [|apply emits_call]. done.
    + intros evs (e1 & e2 & -> & -> & _). by exists e2.
Qed.

Lemma ask_bind {A B} (f : gmap string string → outcome A) (k : A → M B) w :
  (ask f ≫= k) w
  = match f (fs w) with Ok a => k a w | Raise e => (Raise e, w) end.
Proof. unfold mbind, M_bind, ask. by destruct (f (fs w)). Qed.

(** C9.  When the folder list of a session has a name that contains
    [extrinsics] (in any case), both scripts put such a trial at the head
    of the order they process the session in; the three-camera script
    also puts a trial named [static] second when the list has one; and
    the first [process_trial] call a session makes, if it makes any, is
    for the extrinsics trial, so no other trial is processed before it. *)
Theorem extrinsics_trial_is_processed_first
    (i : Reprocess.inputs) (sessionName : string) (trials_tmp : list string) :
  (∃ t, t ∈ trials_tmp ∧ Reprocess.names_extrinsics t = true) →
  (∀ idx, ∃ x idx',
      TwoCameras.reorder trials_tmp idx
      = Ok (x :: List.filter (λ trial, negb (Reprocess.names_extrinsics trial))
                             trials_tmp, idx')
      ∧ Reprocess.names_extrinsics x = true ∧ x ∈ trials_tmp)
  ∧ (∀ v trials v',
      ThreeCameras.reorder trials_tmp v = Ok (trials, v') →
      ∃ x second,
        trials = x :: second ::
                   List.filter (λ trial, negb (Reprocess.names_static trial)
                                         && negb (Reprocess.names_extrinsics trial))
                               trials_tmp
        ∧ Reprocess.names_extrinsics x = true ∧ x ∈ trials_tmp)
  ∧ (∀ v, (∃ t, t ∈ trials_tmp ∧ Reprocess.names_static t = true) →
      ∃ x s v',
        ThreeCameras.reorder trials_tmp v
        = Ok (x :: s ::
                List.filter (λ trial, negb (Reprocess.names_static trial)
                                      && negb (Reprocess.names_extrinsics trial))
                            trials_tmp, v')
        ∧ Reprocess.names_extrinsics x = true ∧ x ∈ trials_tmp
        ∧ Reprocess.names_static s = true ∧ s ∈ trials_tmp)
  ∧ (∀ idx w r w',
      listdir_dirs (OsPath.join (Reprocess.dataDir i)
                      [sessionName; "Videos"; "Cam4"; "InputMedia"]) (fs w)
      = Ok trials_tmp →
      TwoCameras.session i idx sessionName w = (r, w') →
      ∃ evs, trace w' = trace w ++ evs ∧ extrinsics_first evs)
  ∧ (∀ v w r w',
      listdir_dirs (OsPath.join (Reprocess.dataDir i)
                      [sessionName; "Videos"; "Cam1"; "InputMedia"]) (fs w)
      = Ok trials_tmp →
      ThreeCameras.session i v sessionName w = (r, w') →
      ∃ evs, trace w' = trace w ++ evs ∧ extrinsics_first evs).
Proof.
  intros Hex. split; [|split; [|split; [|split]]].
  - intros idx. by apply two_cameras_reorder.
  - intros v trials v'. by apply three_cameras_reorder_head.
  - intros v Hst. by apply three_cameras_reorder_static.
  - intros idx w r w' Hls. unfold TwoCameras.session.
    rewrite ask_bind, Hls, lift_bind.
    destruct (two_cameras_reorder trials_tmp idx Hex) as (x & idx' & -> & Hx & _).
    apply emits_bind_closed; [apply closed_extrinsics_first | |].
    + by apply two_cameras_process_trials.
    + intros _. apply emits_silent;
        [apply closed_extrinsics_first | apply emits_ret].
  - intros v w r w' Hls. unfold ThreeCameras.session.
    rewrite ask_bind, Hls, lift_bind.
    destruct (ThreeCameras.reorder trials_tmp v) as [[trials v']|e] eqn:Hre.
    + destruct (three_cameras_reorder_head _ _ _ _ Hex Hre)
        as (x & second & -> & Hx & _).
      apply emits_bind_closed; [apply closed_extrinsics_first | |].
      * by apply three_cameras_process_trials.
      * intros _. apply emits_silent;
          [apply closed_extrinsics_first | apply emits_ret].
    + intros [= <- <-]. exists []. by rewrite app_nil_r.
Qed.

End trace_facts.

(** Witness of C9: a session with four trial folders. *)
Lemma extrinsics_trial_is_processed_first_witness :
  let trials_tmp := ["walking1"; "Extrinsics"; "Static1"; "squats"] in
  (∃ t, t ∈ trials_tmp ∧ Reprocess.names_extrinsics t = true)
  ∧ (∃ x idx',
        TwoCameras.reorder trials_tmp None
        = Ok (x :: List.filter (λ trial, negb (Reprocess.names_extrinsics trial))
                               trials_tmp, idx')
        ∧ Reprocess.names_extrinsics x = true ∧ x ∈ trials_tmp).
Proof.
  intros trials_tmp.
  assert (∃ t, t ∈ trials_tmp ∧ Reprocess.names_extrinsics t = true) as Hex.
  { exists "Extrinsics". split; [|reflexivity].
    apply elem_of_cons; right. apply elem_of_cons; by left. }
  split; [exact Hex|].
  exact (proj1 (extrinsics_trial_is_processed_first (ext := Sample.externals)
                  {| Reprocess.dataDir := "/data";
                     Reprocess.sessionNames := ["subject9"];
                     Reprocess.poseDetectors := ["OpenPose"];
                     Reprocess.cameraSetups := ["2-cameras"];
                     Reprocess.resolutionPoseDetection := "default";
                     Reprocess.augmenter_model := "v0.2" |}
                  "subject9" trials_tmp Hex) None).
Defined.

Example two_cameras_order :
  TwoCameras.reorder ["walking1"; "Extrinsics"; "Static1"; "squats"] None
  = Ok (["Extrinsics"; "walking1"; "Static1"; "squats"], Some 1%nat).
Proof. reflexivity. Qed.

Example two_cameras_without_extrinsics :
  TwoCameras.reorder ["walking1"; "squats"] None
  = Raise (NameError "extrinsics_idx").
Proof. reflexivity. Qed.

Example three_cameras_order :
  ThreeCameras.reorder ["walking1"; "Extrinsics"; "Static1"; "squats"]
    {| ThreeCameras.extrinsics_idx := None; ThreeCameras.static_idx := None |}
  = Ok (["Extrinsics"; "Static1"; "walking1"; "squats"],
        {| ThreeCameras.extrinsics_idx := Some 1%nat;
           ThreeCameras.static_idx := Some 2%nat |}).
Proof. reflexivity. Qed.

(** Without a static trial the three-camera script has no index to read
    in its first session, and reads the one of an earlier session later. *)
Example three_cameras_without_static_first_session :
  ThreeCameras.reorder ["Extrinsics"; "walking1"]
    {| ThreeCameras.extrinsics_idx := None; ThreeCameras.static_idx := None |}
  = Raise (NameError "static_idx").
Proof. reflexivity. Qed.

Example three_cameras_without_static_later_session :
  ThreeCameras.reorder ["Extrinsics"; "walking1"; "squats"]
    {| ThreeCameras.extrinsics_idx := Some 1%nat;
       ThreeCameras.static_idx := Some 2%nat |}
  = Ok (["Extrinsics"; "squats"; "walking1"; "squats"],
        {| ThreeCameras.extrinsics_idx := Some 0%nat;
           ThreeCameras.static_idx := Some 2%nat |}).
Proof. reflexivity. Qed.

Example two_cameras_run :
  let i := {| Reprocess.dataDir := "/data";
              Reprocess.sessionNames := ["subject9"];
              Reprocess.poseDetectors := ["OpenPose"];
              Reprocess.cameraSetups := ["2-cameras"];
              Reprocess.resolutionPoseDetection := "default";
              Reprocess.augmenter_model := "v0.2" |} in
  let w := Sample.start {["/data/subject9/Videos/Cam4/InputMedia"
                          := "walking1 Extrinsics Static1"]} in
  let r := TwoCameras.script (ext := Sample.externals) i w in
  r.1 = Ok (Some 1%nat)
  ∧ map (λ a, (trial_name a, extrinsicsTrial a, scaleModel a))
        (process_events (trace r.2))
    = [("Extrinsics", true, false); ("walking1", false, false);
       ("Static1", false, false)].
Proof. split; vm_compute; reflexivity. Qed.

Example three_cameras_run :
  let i := {| Reprocess.dataDir := "/data";
              Reprocess.sessionNames := ["subject11"; "subject13"];
              Reprocess.poseDetectors := ["OpenPose"];
              Reprocess.cameraSetups := ["3-cameras"];
              Reprocess.resolutionPoseDetection := "default";
              Reprocess.augmenter_model := "v0.2" |} in
  let w := Sample.start
             {["/data/subject11/Videos/Cam1/InputMedia"
               := "walking1 Extrinsics Static1";
               "/data/subject13/Videos/Cam1/InputMedia"
               := "Extrinsics squats jump"]} in
  let r := ThreeCameras.script (ext := Sample.externals) i w in
  r.1 = Ok {| ThreeCameras.extrinsics_idx := Some 0%nat;
              ThreeCameras.static_idx := Some 2%nat |}
  ∧ map (λ a, (session_name a, trial_name a, extrinsicsTrial a, scaleModel a))
        (process_events (trace r.2))
    = [("subject11", "Extrinsics", true, false);
       ("subject11", "Static1", false, true);
       ("subject11", "walking1", false, false);
       ("subject13", "Extrinsics", true, false);
       ("subject13", "jump", false, false);
       ("subject13", "squats", false, false);
       ("subject13", "jump", false, false)].
Proof. split; vm_compute; reflexivity. Qed.

(** ** The intrinsics script: metadata and trial file *)

Section calc_intrinsics_reads.
Context {ext : Externals}.
Import CalcIntrinsics.

Lemma path_exists_bind {B} path (k : bool → M B) w :
  (Os.path_exists path ≫= k) w
  = k (bool_decide (is_Some (fs w !! path))) w.
Proof. reflexivity. Qed.

Lemma read_metadata_absent i cbp w :
  fs w !! metadataPath i = None → read_metadata i cbp w = (Ok cbp, w).
Proof.
  intros Hnone. unfold read_metadata. rewrite path_exists_bind, Hnone.
  reflexivity.
Qed.

Lemma read_metadata_present i cbp w data doc cb wd ht sq :
  fs w !! metadataPath i = Some data →
  importMetadata (metadataPath i) (fs w) = Ok doc →
  Py.subscript doc "checkerBoard" = Ok cb →
  Py.subscript cb "black2BlackCornersWidth_n" = Ok wd →
  Py.subscript cb "black2BlackCornersHeight_n" = Ok ht →
  Py.subscript cb "squareSideLength_mm" = Ok sq →
  read_metadata i cbp w
  = (Ok {| dimensions := (wd, ht); squareSize := sq |}, w).
Proof.
  intros Hsome Himport Hcb Hwd Hht Hsq. unfold read_metadata.
  rewrite path_exists_bind, Hsome.
  change (bool_decide (is_Some (Some data))) with true. cbv iota.
  rewrite ask_bind, Himport, Hcb.
  change (Ok cb ≫= ?f) with (f cb). cbv beta.
  rewrite Hwd, Hht, Hsq. reflexivity.
Qed.

Lemma read_metadata_keeps_world i cbp w r w' :
  read_metadata i cbp w = (r, w') → w' = w.
Proof.
  unfold read_metadata. rewrite path_exists_bind.
  destruct (bool_decide _); [|by intros [= _ <-]].
  rewrite ask_bind. destruct (importMetadata _ _) as [doc|e];
    [|by intros [= _ <-]].
  rewrite lift_bind. destruct (_ ≫= _) as [wd|e]; [|by intros [= _ <-]].
  rewrite lift_bind. destruct (_ ≫= _) as [ht|e]; [|by intros [= _ <-]].
  rewrite lift_bind. destruct (_ ≫= _) as [sq|e]; by intros [= _ <-].
Qed.

Lemma load_trial_info_off i p cur w :
  loadTrialInfo i = false → load_trial_info i p cur w = (Ok cur, w).
Proof. intros Hoff. unfold load_trial_info. by rewrite Hoff. Qed.

Lemma load_trial_info_missing i p cur w :
  loadTrialInfo i = true → fs w !! p = None →
  load_trial_info i p cur w = (Raise (Exception missing_trialFile_msg), w).
Proof.
  intros Hon Hnone. unfold load_trial_info.
  rewrite Hon, path_exists_bind, Hnone. reflexivity.
Qed.

Lemma script_after_reads i p cbp trials cbp' w :
  trialFile i = Ok p →
  read_metadata i (CheckerBoardParams i) w = (Ok cbp, w) →
  load_trial_info i p (PList (PStr <$> CalcIntrinsics.trials i), cbp) w
  = (Ok (trials, cbp'), w) →
  script i w = calibrate i p trials cbp' w.
Proof.
  intros Hp Hmeta Hload. unfold script. rewrite lift_bind, Hp.
  rewrite (bind_Ok _ _ _ _ _ Hmeta). by rewrite (bind_Ok _ _ _ _ _ Hload).
Qed.

(** C4.  The trial file is asked for and is not there: the branch of
    lines 52-62 raises the exception that tells the caller to enter the
    trials and the checkerboard parameters by hand; the script stops with
    an exception and leaves the world as it found it, so no aggregation
    was started and nothing was written; the exception is that of line 62
    whenever the metadata step before it went through. *)
Theorem missing_trial_file_is_fatal (i : inputs) (p : string) (w : world) :
  loadTrialInfo i = true →
  trialFile i = Ok p →
  fs w !! p = None →
  (∀ cur, load_trial_info i p cur w
          = (Raise (Exception missing_trialFile_msg), w))
  ∧ (∃ e, script i w = (Raise e, w))
  ∧ (∀ cbp, read_metadata i (CheckerBoardParams i) w = (Ok cbp, w) →
            script i w = (Raise (Exception missing_trialFile_msg), w)).
Proof.
  intros Hon Hp Hnone.
  assert (∀ cur, load_trial_info i p cur w
                 = (Raise (Exception missing_trialFile_msg), w)) as Hload
    by (intros cur; by apply load_trial_info_missing).
  assert (∀ cbp, read_metadata i (CheckerBoardParams i) w = (Ok cbp, w) →
                 script i w = (Raise (Exception missing_trialFile_msg), w))
    as Hscript.
  { intros cbp Hmeta. unfold script. rewrite lift_bind, Hp.
    rewrite (bind_Ok _ _ _ _ _ Hmeta). by rewrite (bind_Raise _ _ _ _ _ (Hload _)). }
  split; [done|]. split; [|done].
  destruct (read_metadata i (CheckerBoardParams i) w) as [[cbp|e] w1] eqn:Hmeta;
    pose proof (read_metadata_keeps_world _ _ _ _ _ Hmeta) as ->.
  - eexists. by eapply Hscript.
  - exists e. unfold script. rewrite lift_bind, Hp.
    by rewrite (bind_Raise _ _ _ _ _ Hmeta).
Qed.

(** C5.  Without a session metadata file the metadata step does not
    fail and hands on the checkerboard parameters the caller supplied;
    with the file it hands on the width, height and square size found
    under [checkerBoard].  When the trial file is not asked for, these are
    the parameters the calibration runs with. *)
Theorem metadata_is_optional (i : inputs) (w : world) :
  (fs w !! metadataPath i = None →
     read_metadata i (CheckerBoardParams i) w = (Ok (CheckerBoardParams i), w)
     ∧ ∀ p, trialFile i = Ok p → loadTrialInfo i = false →
            script i w
            = calibrate i p (PList (PStr <$> CalcIntrinsics.trials i))
                        (CheckerBoardParams i) w)
  ∧ (∀ data doc cb wd ht sq,
       fs w !! metadataPath i = Some data →
       importMetadata (metadataPath i) (fs w) = Ok doc →
       Py.subscript doc "checkerBoard" = Ok cb →
       Py.subscript cb "black2BlackCornersWidth_n" = Ok wd →
       Py.subscript cb "black2BlackCornersHeight_n" = Ok ht →
       Py.subscript cb "squareSideLength_mm" = Ok sq →
       read_metadata i (CheckerBoardParams i) w
       = (Ok {| dimensions := (wd, ht); squareSize := sq |}, w)
       ∧ ∀ p, trialFile i = Ok p → loadTrialInfo i = false →
              script i w
              = calibrate i p (PList (PStr <$> CalcIntrinsics.trials i))
                          {| dimensions := (wd, ht); squareSize := sq |} w).
Proof.
  split.
  - intros Hnone.
    pose proof (read_metadata_absent i (CheckerBoardParams i) w Hnone) as Hmeta.
    split; [done|]. intros p Hp Hoff.
    eapply script_after_reads; [done.. | by apply load_trial_info_off].
  - intros data doc cb wd ht sq Hsome Himport Hcb Hwd Hht Hsq.
    pose proof (read_metadata_present i (CheckerBoardParams i) w _ _ _ _ _ _
                  Hsome Himport Hcb Hwd Hht Hsq) as Hmeta.
    split; [done|]. intros p Hp Hoff.
    eapply script_after_reads; [done.. | by apply load_trial_info_off].
Qed.

End calc_intrinsics_reads.

(** Witness of C4: the trial file is asked for in an empty data folder. *)
Lemma missing_trial_file_is_fatal_witness :
  let i := Sample.user_inputs true in
  let p := "/data/IntrinsicCaptures/Cam4b/trialInfo.yaml" in
  let w := Sample.start ∅ in
  CalcIntrinsics.loadTrialInfo i = true
  ∧ CalcIntrinsics.trialFile i = Ok p
  ∧ fs w !! p = None
  ∧ CalcIntrinsics.script (ext := Sample.externals) i w
    = (Raise (Exception CalcIntrinsics.missing_trialFile_msg), w).
Proof.
  intros i p w.
  assert (CalcIntrinsics.trialFile i = Ok p) as Hp by reflexivity.
  assert (fs w !! p = None) as Hnone by reflexivity.
  split; [reflexivity|]. split; [exact Hp|]. split; [exact Hnone|].
  exact (proj2 (proj2 (missing_trial_file_is_fatal (ext := Sample.externals)
                         i p w eq_refl Hp Hnone))
           (CalcIntrinsics.CheckerBoardParams i) eq_refl).
Defined.

(** Witness of C5: one run without the metadata file, one with it. *)
Lemma metadata_is_optional_witness :
  let i := Sample.user_inputs false in
  let w0 := Sample.start ∅ in
  let w1 := Sample.start
              {["/data/IntrinsicCaptures/sessionMetadata.yaml"
                := Sample.metadata_text]} in
  CalcIntrinsics.read_metadata (ext := Sample.externals) i
    (CalcIntrinsics.CheckerBoardParams i) w0
  = (Ok {| dimensions := (PInt 8, PInt 11); squareSize := PInt 60 |}, w0)
  ∧ CalcIntrinsics.read_metadata (ext := Sample.externals) i
      (CalcIntrinsics.CheckerBoardParams i) w1
    = (Ok {| dimensions := (PInt 4, PInt 5); squareSize := PInt 35 |}, w1).
Proof.
  intros i w0 w1. split.
  - exact (proj1 (proj1 (metadata_is_optional (ext := Sample.externals) i w0)
                    eq_refl)).
  - refine (proj1 (proj2 (metadata_is_optional (ext := Sample.externals) i w1)
                     Sample.metadata_text _ _ (PInt 4) (PInt 5) (PInt 35)
                     eq_refl _ _ _ _ _)).
    all: vm_compute; reflexivity.
Defined.

(** ** The intrinsics script: writes *)

Section calc_intrinsics_writes.
Context {ext : Externals}.
Import CalcIntrinsics.

Lemma dump_to_file_in_place path data w r w' :
  Os.dump_to_file path data w = (r, w') →
  written_in_place path data w r w'.
Proof.
  unfold Os.dump_to_file, Os.open_w, Os.write, written_in_place.
  unfold mbind, M_bind, set_fs, raise.
  destruct (faults w path) as [| |k] eqn:Hf; simpl; rewrite ?Hf.
  - intros [= <- <-]. simpl. by rewrite insert_insert_eq.
  - intros [= <- <-]. repeat split; try done. by left.
  - destruct (k <? String.length data)%nat eqn:Hk.
    + intros [= <- <-]. simpl. rewrite insert_insert_eq.
      repeat split; try done. right. exists k.
      apply Nat.ltb_lt in Hk. done.
    + intros [= <- <-]. simpl. by rewrite insert_insert_eq.
Qed.

(** C3, as the code has it.  The trial manifest and the comparison record
    are written in place: opening the final slot empties it, the record is
    then written into it, and both states can be seen; there is no
    temporary location.  A write that stops part-way leaves the slot with
    what was written so far. *)
Theorem manifest_and_comparison_are_written_in_place
    (i : inputs) (p : string) (trials : pyval) (cbp : CheckerBoard)
    (cameraModel : string) (intrinsicComparisons : pyval) (w : world) :
  (∀ r w', write_trial_info p trials cbp cameraModel w = (r, w') →
           written_in_place p (yaml_dump (trialInfo_of trials cbp cameraModel))
                            w r w')
  ∧ (∀ r w', write_comparison i intrinsicComparisons w = (r, w') →
             written_in_place (intrinsicComparisonFile i)
                              (pickle_dump intrinsicComparisons) w r w').
Proof.
  split; intros r w' Hrun; by apply dump_to_file_in_place.
Qed.

End calc_intrinsics_writes.

(** Witness of C3: the manifest is written over an older one, once on a
    sound disk and once on a disk that fails after ten characters. *)
Lemma manifest_and_comparison_are_written_in_place_witness :
  let p := "/data/IntrinsicCaptures/Cam4b/trialInfo.yaml" in
  let cbp := {| dimensions := (PInt 8, PInt 11); squareSize := PInt 60 |} in
  let trials := PList [PStr "Cam4b"] in
  let old := "{trials: [Cam1]}" in
  let w := Sample.start {[p := old]} in
  let wf := World {[p := old]} [{[p := old]}] [] (λ _, WriteFailsAfter 10) in
  let run := CalcIntrinsics.write_trial_info (ext := Sample.externals)
               p trials cbp "SONYRX0-II-Cam4b" in
  written_in_place p
    (Sample.show (CalcIntrinsics.trialInfo_of trials cbp "SONYRX0-II-Cam4b"))
    w (run w).1 (run w).2
  ∧ written_in_place p
      (Sample.show (CalcIntrinsics.trialInfo_of trials cbp "SONYRX0-II-Cam4b"))
      wf (run wf).1 (run wf).2.
Proof.
  intros p cbp trials old w wf run. split.
  - apply (proj1 (manifest_and_comparison_are_written_in_place
                    (ext := Sample.externals) (Sample.user_inputs false)
                    p trials cbp "SONYRX0-II-Cam4b" PNone w)).
    exact (surjective_pairing (run w)).
  - apply (proj1 (manifest_and_comparison_are_written_in_place
                    (ext := Sample.externals) (Sample.user_inputs false)
                    p trials cbp "SONYRX0-II-Cam4b" PNone wf)).
    exact (surjective_pairing (run wf)).
Defined.

(** C3 as stated fails.  The manifest is written over an older one: a
    reader can see the slot empty, which is neither the old record nor the
    new one, and no other path is ever used; and when the disk fails after
    ten characters the slot is left holding those ten characters, not the
    old record. *)
Lemma trial_manifest_write_is_not_atomic :
  let p := "/data/IntrinsicCaptures/Cam4b/trialInfo.yaml" in
  let cbp := {| dimensions := (PInt 8, PInt 11); squareSize := PInt 60 |} in
  let trials := PList [PStr "Cam4b"] in
  let old := "{trials: [Cam1]}" in
  let new := "{trials: [Cam4b], nSquaresWidth: 8, nSquaresHeight: 11, squareSize: 60, cameraModel: SONYRX0-II-Cam4b}" in
  let w := Sample.start {[p := old]} in
  let wf := World {[p := old]} [{[p := old]}] [] (λ _, WriteFailsAfter 10) in
  let run := CalcIntrinsics.write_trial_info (ext := Sample.externals)
               p trials cbp "SONYRX0-II-Cam4b" in
  (run w).1 = Ok ()
  ∧ seen (run w).2 = [{[p := new]}; {[p := ""]}; {[p := old]}]
  ∧ (run wf).1 = Raise (OSError p)
  ∧ fs (run wf).2 = {[p := "{trials: ["]}
  ∧ fs (run wf).2 !! p ≠ fs wf !! p.
Proof.
  intros p cbp trials old new w wf run.
  assert (fs (run wf).2 = {[p := "{trials: ["]}) as Hfs by (vm_compute; reflexivity).
  split; [vm_compute; reflexivity|].
  split; [vm_compute; reflexivity|].
  split; [vm_compute; reflexivity|].
  split; [exact Hfs|].
  rewrite Hfs. vm_compute. discriminate.
Qed.

(** ** Paths *)

Section path_facts.
Import PyStr OsPath.

Lemma join2_tail path b : ∃ pre, join2 path b = pre +:+ b.
Proof.
  unfold join2. destruct (startswith sep b); [by exists ""|].
  destruct (_ || _); [by exists path|].
  exists (path +:+ sep). by rewrite str_app_assoc.
Qed.

Lemma join2_head path b :
  startswith sep b = false → ∃ mid, join2 path b = path +:+ mid.
Proof.
  intros Hrel. unfold join2. rewrite Hrel.
  destruct (_ || _); [by exists b | by exists (sep +:+ b)].
Qed.

Lemma tails_differ (a b u v : string) :
  String.length u = String.length v → u ≠ v → a +:+ u ≠ b +:+ v.
Proof. intros Hlen Hne Heq. apply Hne. by eapply same_tail. Qed.

Lemma endswith_sep_last s : endswith sep s = true → last s = Some "/"%char.
Proof.
  induction s as [|c s IH]; [done|]. simpl endswith.
  rewrite orb_true_iff, bool_decide_eq_true. intros [[= -> ->]|Hs]; [done|].
  specialize (IH Hs). destruct s; [done|]. exact IH.
Qed.

Lemma last_app (a b : string) : b ≠ "" → last (a +:+ b) = last b.
Proof.
  intros Hb. induction a as [|c a IH]; [done|].
  rewrite app_cons. simpl. destruct (a +:+ b) as [|d r] eqn:Hab; [|exact IH].
  destruct a; [|discriminate]. by destruct b.
Qed.

Lemma str_in_cons needle c hay :
  str_in needle (String c hay)
  = startswith needle (String c hay) || str_in needle hay.
Proof. reflexivity. Qed.

Lemma last_sep_str_in s : last s = Some "/"%char → str_in sep s = true.
Proof.
  induction s as [|c s IH]; [done|]. simpl last. destruct s as [|d s].
  - by intros [= ->].
  - intros Hlast. rewrite str_in_cons, (IH Hlast). apply orb_true_r.
Qed.

Lemma plain_last name : plain name → last name ≠ Some "/"%char.
Proof.
  intros [_ Hno] Hlast. apply last_sep_str_in in Hlast. congruence.
Qed.

Lemma plain_relative name : plain name → startswith sep name = false.
Proof.
  intros [_ Hno]. destruct name; [done|]. rewrite str_in_cons in Hno.
  by apply orb_false_iff in Hno as [? _].
Qed.

Lemma join2_plain path b :
  path ≠ "" → last path ≠ Some "/"%char → startswith sep b = false →
  join2 path b = path +:+ sep +:+ b.
Proof.
  intros Hne Hlast Hrel. unfold join2. rewrite Hrel.
  rewrite bool_decide_eq_false_2 by done.
  destruct (endswith sep path) eqn:Hend; [|done].
  by apply endswith_sep_last in Hend.
Qed.

Lemma app_not_empty (a b : string) : b ≠ "" → a +:+ b ≠ "".
Proof. intros Hb. destruct a; [done | discriminate]. Qed.

Lemma split_first_sep (m1 m2 r1 r2 : string) :
  str_in sep m1 = false → str_in sep m2 = false →
  m1 +:+ sep +:+ r1 = m2 +:+ sep +:+ r2 → m1 = m2 ∧ r1 = r2.
Proof.
  revert m2. induction m1 as [|c1 m1 IH]; intros [|c2 m2] H1 H2 Heq.
  - injection Heq as Heq. by split.
  - exfalso. injection Heq as <- _. rewrite str_in_cons in H2.
    apply orb_false_iff in H2 as [H2 _]. discriminate.
  - exfalso. injection Heq as -> _. rewrite str_in_cons in H1.
    apply orb_false_iff in H1 as [H1 _]. discriminate.
  - injection Heq as -> Heq.
    rewrite str_in_cons in H1, H2. apply orb_false_iff in H1 as [_ H1].
    apply orb_false_iff in H2 as [_ H2].
    destruct (IH m2 H1 H2 Heq) as [-> ->]. done.
Qed.

Lemma deployed_file_plain cwd m f :
  plain m → plain f →
  CalcIntrinsics.deployed_file cwd m f
  = join2 cwd "CameraIntrinsics" +:+ sep +:+ m +:+ sep +:+ f +:+ sep
    +:+ "cameraIntrinsics.pickle".
Proof.
  intros Hm Hf.
  unfold CalcIntrinsics.deployed_file, CalcIntrinsics.permIntrinsicDir, join.
  simpl foldl. set (X := join2 cwd "CameraIntrinsics").
  assert (X ≠ "" ∧ last X ≠ Some "/"%char) as [HX HXl].
  { destruct (join2_tail cwd "CameraIntrinsics") as (pre & Hpre).
    subst X. rewrite Hpre. split; [by apply app_not_empty|].
    by rewrite last_app. }
  rewrite (join2_plain X m HX HXl (plain_relative _ Hm)).
  assert (sep +:+ m ≠ "") as Hsm by done.
  rewrite (join2_plain (X +:+ sep +:+ m) f).
  - rewrite (join2_plain ((X +:+ sep +:+ m) +:+ sep +:+ f)).
    + by rewrite !str_app_assoc.
    + by apply app_not_empty.
    + rewrite last_app by done. rewrite last_app by apply Hf.
      by apply plain_last.
    + done.
  - by apply app_not_empty.
  - rewrite last_app by done. rewrite last_app by apply Hm.
    by apply plain_last.
  - by apply plain_relative.
Qed.

Lemma deployed_file_inj cwd m1 f1 m2 f2 :
  plain m1 → plain f1 → plain m2 → plain f2 →
  CalcIntrinsics.deployed_file cwd m1 f1 = CalcIntrinsics.deployed_file cwd m2 f2 →
  m1 = m2 ∧ f1 = f2.
Proof.
  intros Hm1 Hf1 Hm2 Hf2.
  rewrite !deployed_file_plain by done.
  intros Heq%(inj (String.app _)). injection Heq as Heq.
  destruct (split_first_sep _ _ _ _ (proj2 Hm1) (proj2 Hm2) Heq) as [-> Heq'].
  by destruct (split_first_sep _ _ _ _ (proj2 Hf1) (proj2 Hf2) Heq') as [-> _].
Qed.

Lemma deployed_is_not_session_record cwd m f dataDir subject session cam :
  CalcIntrinsics.deployed_file cwd m f
  ≠ Reprocess.copied_parameters dataDir subject session cam.
Proof.
  unfold CalcIntrinsics.deployed_file, Reprocess.copied_parameters, join.
  simpl foldl.
  destruct (join2_tail (CalcIntrinsics.permIntrinsicDir cwd m f)
              "cameraIntrinsics.pickle") as (pre & ->).
  destruct (join2_tail (Reprocess.pathCamNew dataDir subject session cam)
              "cameraIntrinsicsExtrinsics.pickle") as (pre' & ->).
  change "cameraIntrinsics.pickle" with ("camera" +:+ "Intrinsics.pickle").
  change "cameraIntrinsicsExtrinsics.pickle"
    with ("cameraIntrinsics" +:+ "Extrinsics.pickle").
  rewrite <- !str_app_assoc. by apply tails_differ.
Qed.

Lemma copied_is_under_session dataDir subject session cam :
  startswith sep cam = false →
  ∃ rest, Reprocess.copied_parameters dataDir subject session cam
          = Reprocess.pathSessionNew dataDir subject session +:+ rest.
Proof.
  intros Hcam. unfold Reprocess.copied_parameters, Reprocess.pathCamNew, join.
  simpl foldl. set (S := Reprocess.pathSessionNew dataDir subject session).
  destruct (join2_head S "Videos" eq_refl) as (m1 & ->).
  destruct (join2_head (S +:+ m1) cam Hcam) as (m2 & ->).
  destruct (join2_head ((S +:+ m1) +:+ m2) "cameraIntrinsicsExtrinsics.pickle"
              eq_refl) as (m3 & ->).
  exists (m1 +:+ m2 +:+ m3). by rewrite !str_app_assoc.
Qed.

Lemma trialFile_is_not_comparison i p :
  CalcIntrinsics.trialFile i = Ok p → p ≠ CalcIntrinsics.intrinsicComparisonFile i.
Proof.
  unfold CalcIntrinsics.trialFile, CalcIntrinsics.intrinsicComparisonFile, join.
  destruct (Py.getitem _ _) as [t0|]; [|discriminate]. simpl. intros [= <-].
  destruct (join2_tail (join2 (CalcIntrinsics.sessionDir i) t0)
              "trialInfo.yaml") as (pre & ->).
  destruct (join2_tail (CalcIntrinsics.sessionDir i)
              "intrinsicComparison.pkl") as (pre' & ->).
  change "trialInfo.yaml" with ("trialInfo." +:+ "yaml").
  change "intrinsicComparison.pkl" with ("intrinsicComparison" +:+ ".pkl").
  rewrite <- !str_app_assoc. by apply tails_differ.
Qed.

End path_facts.

(** ** The intrinsics script: a run that completes *)

Section calc_intrinsics_run.
Context {ext : Externals}.
Import CalcIntrinsics.

Lemma load_trial_info_keeps_world i p cur w r w' :
  load_trial_info i p cur w = (r, w') → w' = w.
Proof.
  unfold load_trial_info. destruct (loadTrialInfo i); [|by intros [= _ <-]].
  rewrite path_exists_bind. destruct (bool_decide _); [|by intros [= _ <-]].
  unfold Os.read, mbind at 1, M_bind.
  destruct (fs w !! p) as [text|]; [|by intros [= _ <-]].
  destruct (faults w p); try by intros [= _ <-].
  all: rewrite lift_bind; destruct (yaml_safe_load text) as [doc|];
    [|by intros [= _ <-]].
  all: rewrite lift_bind; destruct (Py.subscript doc "trials");
    [|by intros [= _ <-]].
  all: rewrite lift_bind; destruct (Py.subscript doc "nSquaresWidth");
    [|by intros [= _ <-]].
  all: rewrite lift_bind; destruct (Py.subscript doc "nSquaresHeight");
    [|by intros [= _ <-]].
  all: rewrite lift_bind; destruct (Py.subscript doc "squareSize");
    by intros [= _ <-].
Qed.

Lemma aggregate_run i trials cbp w r w' :
  aggregate i trials cbp w = (r, w') →
  trace w' = trace w ++ [EvComputeAverageIntrinsics (sessionDir i) trials cbp 50
                           (cameraModel i) (videoType i)]
  ∧ faults w' = faults w
  ∧ computeAverageIntrinsics (sessionDir i) trials cbp 50 (cameraModel i)
      (videoType i) (fs w) = (r, fs w').
Proof.
  unfold aggregate, emit, call, mbind, M_bind. simpl.
  destruct (computeAverageIntrinsics _ _ _ _ _ _ _) as [r0 f'].
  by intros [= <- <-].
Qed.

Lemma save_loop_Ok cwd cm avg folders w w' :
  for_each folders (λ deployedFolderName,
    let filename := deployed_file cwd cm deployedFolderName in
    emit (EvSaveCameraParameters filename avg) ;;
    call (saveCameraParameters filename avg)) w = (Ok (), w') →
  faults w' = faults w
  ∧ trace w' = trace w ++ map (λ folder, EvSaveCameraParameters
                                           (deployed_file cwd cm folder) avg)
                              folders.
Proof.
  revert w. induction folders as [|f folders IH]; intros w; simpl.
  - intros [= <-]. by rewrite app_nil_r.
  - intros (u & w1 & Hstep & Hrest)%bind_Ok_inv.
    destruct (IH _ Hrest) as [Hf Ht]. rewrite Hf, Ht.
    revert Hstep. unfold emit, call, mbind, M_bind. simpl.
    destruct (saveCameraParameters _ _ _) as [r0 f']. intros [= _ <-]. simpl.
    split; [done|]. by rewrite <- app_assoc.
Qed.

Lemma save_for_deployment_Ok i cm avg w w' :
  save_for_deployment i cm avg w = (Ok (), w') →
  faults w' = faults w
  ∧ trace w' = trace w
               ++ (if saveIntrinsicsForDeployment i
                   then map (λ folder, EvSaveCameraParameters
                                         (deployed_file (getcwd i) cm folder) avg)
                            (deployedFolderNames i)
                   else []).
Proof.
  unfold save_for_deployment. destruct (saveIntrinsicsForDeployment i).
  - apply save_loop_Ok.
  - intros [= <-]. by rewrite app_nil_r.
Qed.

(** The stages of a run that completes. *)
Lemma script_Ok i w w' :
  script i w = (Ok (), w') →
  ∃ p cbp0 trials cbp avg lst cmp cm w2 w3 w4,
    trialFile i = Ok p
    ∧ read_metadata i (CheckerBoardParams i) w = (Ok cbp0, w)
    ∧ load_trial_info i p (PList (PStr <$> CalcIntrinsics.trials i), cbp0) w
      = (Ok (trials, cbp), w)
    ∧ aggregate i trials cbp w = (Ok (avg, lst, cmp, cm), w2)
    ∧ save_for_deployment i cm avg w2 = (Ok (), w3)
    ∧ write_trial_info p trials cbp cm w3 = (Ok (), w4)
    ∧ write_comparison i cmp w4 = (Ok (), w').
Proof.
  unfold script. rewrite lift_bind.
  destruct (trialFile i) as [p|]; [|discriminate].
  intros (cbp0 & w1 & Hmeta & Hrun)%bind_Ok_inv.
  pose proof (read_metadata_keeps_world _ _ _ _ _ Hmeta) as ->.
  apply bind_Ok_inv in Hrun as ([trials cbp] & w1 & Hload & Hrun).
  pose proof (load_trial_info_keeps_world _ _ _ _ _ _ Hload) as ->.
  unfold calibrate in Hrun.
  apply bind_Ok_inv in Hrun as ([[[avg lst] cmp] cm] & w2 & Hagg & Hrun).
  apply bind_Ok_inv in Hrun as ([] & w3 & Hsave & Hrun).
  apply bind_Ok_inv in Hrun as ([] & w4 & Hmanifest & Hrun).
  exists p, cbp0, trials, cbp, avg, lst, cmp, cm, w2, w3, w4. done.
Qed.

Lemma save_events_app e1 e2 :
  save_events (e1 ++ e2) = save_events e1 ++ save_events e2.
Proof. unfold save_events. apply omap_app. Qed.

Lemma save_events_saves (files : list string) (avg : pyval) :
  save_events (map (λ filename, EvSaveCameraParameters filename avg) files)
  = map (λ filename, (filename, avg)) files.
Proof. induction files as [|f files IH]; [done|]. simpl. by f_equal. Qed.

(** What a completed run leaves behind: the trace and the trial file. *)
Lemma script_Ok_effects i w w' :
  script i w = (Ok (), w') →
  ∃ p trials cbp avg lst cmp cm files,
    trialFile i = Ok p
    ∧ computeAverageIntrinsics (sessionDir i) trials cbp 50 (cameraModel i)
        (videoType i) (fs w) = (Ok (avg, lst, cmp, cm), files)
    ∧ trace w' = trace w
                 ++ [EvComputeAverageIntrinsics (sessionDir i) trials cbp 50
                       (cameraModel i) (videoType i)]
                 ++ (if saveIntrinsicsForDeployment i
                     then map (λ filename, EvSaveCameraParameters filename avg)
                              (deployed_file (getcwd i) cm
                                 <$> deployedFolderNames i)
                     else [])
    ∧ fs w' !! p = Some (yaml_dump (trialInfo_of trials cbp cm))
    ∧ faults w' = faults w
    ∧ faults w' p ≠ OpenFails.
Proof.
  intros (p & cbp0 & trials & cbp & avg & lst & cmp & cm & w2 & w3 & w4
          & Hp & _ & _ & Hagg & Hsave & Hman & Hcmp)%script_Ok.
  destruct (aggregate_run _ _ _ _ _ _ Hagg) as (Ht2 & Hf2 & Hcall).
  destruct (save_for_deployment_Ok _ _ _ _ _ Hsave) as (Hf3 & Ht3).
  destruct (dump_to_file_in_place _ _ _ _ _ Hman) as (Ht4 & Hf4 & Hfs4 & _).
  destruct (dump_to_file_in_place _ _ _ _ _ Hcmp) as (Ht5 & Hf5 & Hfs5 & _).
  exists p, trials, cbp, avg, lst, cmp, cm, (fs w2).
  split; [done|]. split; [done|]. split; [|split; [|split]].
  - rewrite Ht5, Ht4, Ht3, Ht2, <- app_assoc. f_equal. f_equal.
    destruct (saveIntrinsicsForDeployment i); [|done].
    by rewrite <- list_fmap_compose.
  - rewrite Hfs5, lookup_insert_ne
      by (apply not_eq_sym; by apply trialFile_is_not_comparison).
    by rewrite Hfs4, lookup_insert_eq.
  - by rewrite Hf5, Hf4, Hf3, Hf2.
  - rewrite Hf5, Hf4. intros Hopen.
    unfold write_trial_info, Os.dump_to_file, Os.open_w in Hman.
    unfold mbind, M_bind in Hman. by rewrite Hopen in Hman.
Qed.

End calc_intrinsics_run.

(** ** The trial manifest and the deployed records *)

Section calc_intrinsics_claims.
Context {ext : Externals}.
Import CalcIntrinsics.

Lemma load_trial_info_reads_keys i p cur w text doc trials wd ht sq :
  loadTrialInfo i = true →
  fs w !! p = Some text →
  faults w p ≠ OpenFails →
  yaml_safe_load text = Ok doc →
  Py.subscript doc "trials" = Ok trials →
  Py.subscript doc "nSquaresWidth" = Ok wd →
  Py.subscript doc "nSquaresHeight" = Ok ht →
  Py.subscript doc "squareSize" = Ok sq →
  load_trial_info i p cur w
  = (Ok (trials, {| dimensions := (wd, ht); squareSize := sq |}), w).
Proof.
  intros Hon Hfile Hfault Hyaml Ht Hw Hh Hs. unfold load_trial_info.
  rewrite Hon, path_exists_bind, Hfile.
  change (bool_decide (is_Some (Some ?x))) with true. cbv iota.
  assert (Os.read p w = (Ok text, w)) as Hread.
  { unfold Os.read. rewrite Hfile. by destruct (faults w p). }
  rewrite (bind_Ok _ _ _ _ _ Hread), lift_bind, Hyaml.
  by rewrite lift_bind, Ht, lift_bind, Hw, lift_bind, Hh, lift_bind, Hs.
Qed.

(** C2.  A run that completes has written the trial file: a dictionary
    with the five keys [trials], [nSquaresWidth], [nSquaresHeight],
    [squareSize] and [cameraModel], holding the trial list and the
    checkerboard parameters the aggregation ran with and the camera model it
    returned.  Provided PyYAML loads from what it dumped for this dictionary
    a document that holds the written values under the four keys the
    script reads (in whatever order the dump put the keys), the
    [loadTrialInfo] branch of a later run finds in that file the same trial
    list and the same checkerboard parameters, and that run calibrates with
    them. *)
Theorem trial_manifest_round_trip (i : inputs) (w w' : world) :
  script i w = (Ok (), w') →
  ∃ p trials cbp avg lst cmp cm files,
    trialFile i = Ok p
    ∧ computeAverageIntrinsics (sessionDir i) trials cbp 50 (cameraModel i)
        (videoType i) (fs w) = (Ok (avg, lst, cmp, cm), files)
    ∧ (∃ evs, trace w' = trace w
                         ++ EvComputeAverageIntrinsics (sessionDir i) trials cbp
                              50 (cameraModel i) (videoType i) :: evs)
    ∧ fs w' !! p
      = Some (yaml_dump (PDict [("trials", trials);
                                ("nSquaresWidth", (dimensions cbp).1);
                                ("nSquaresHeight", (dimensions cbp).2);
                                ("squareSize", squareSize cbp);
                                ("cameraModel", PStr cm)]))
    ∧ ∀ doc,
        yaml_safe_load (yaml_dump (trialInfo_of trials cbp cm)) = Ok doc →
        Py.subscript doc "trials" = Ok trials →
        Py.subscript doc "nSquaresWidth" = Ok (dimensions cbp).1 →
        Py.subscript doc "nSquaresHeight" = Ok (dimensions cbp).2 →
        Py.subscript doc "squareSize" = Ok (squareSize cbp) →
        ∀ i', loadTrialInfo i' = true →
          (∀ cur, load_trial_info i' p cur w' = (Ok (trials, cbp), w'))
          ∧ (∀ cbp0, trialFile i' = Ok p →
               read_metadata i' (CheckerBoardParams i') w' = (Ok cbp0, w') →
               script i' w' = calibrate i' p trials cbp w').
Proof.
  intros (p & trials & cbp & avg & lst & cmp & cm & files
          & Hp & Hagg & Htrace & Hfile & _ & Hfault)%script_Ok_effects.
  exists p, trials, cbp, avg, lst, cmp, cm, files.
  split; [done|]. split; [done|]. split; [by eexists|]. split; [done|].
  intros doc Hyaml Ht Hw Hh Hs i' Hon.
  assert (∀ cur, load_trial_info i' p cur w' = (Ok (trials, cbp), w')) as Hload.
  { intros cur.
    rewrite (load_trial_info_reads_keys i' p cur w' _ doc trials
               (dimensions cbp).1 (dimensions cbp).2 (squareSize cbp)
               Hon Hfile Hfault Hyaml Ht Hw Hh Hs).
    by destruct cbp as [[wd ht] sq]. }
  split; [done|]. intros cbp0 Hp' Hmeta. by eapply script_after_reads.
Qed.

(** C6.  A run that completes has called [saveCameraParameters] once for
    each deployed folder name, in order, with the averaged parameters and
    the path [<cwd>/CameraIntrinsics/<cameraModel>/<folder>/cameraIntrinsics.pickle],
    where [cameraModel] is the one the aggregation returned: the path is a
    function of the working directory, the camera model and the folder
    name, and the session name and data folder are no part of it.  For
    plain names, different pairs of model and folder give different paths.
    The camera parameters kept with a session lie under the folder of that
    session, and no deployed path is ever equal to one of them. *)
Theorem deployed_intrinsics_are_keyed_by_model_and_folder
    (i : inputs) (w w' : world) :
  script i w = (Ok (), w') →
  (∃ trials cbp avg lst cmp cm files evs,
      computeAverageIntrinsics (sessionDir i) trials cbp 50 (cameraModel i)
        (videoType i) (fs w) = (Ok (avg, lst, cmp, cm), files)
      ∧ trace w' = trace w ++ evs
      ∧ save_events evs
        = if saveIntrinsicsForDeployment i
          then map (λ folder, (deployed_file (getcwd i) cm folder, avg))
                   (deployedFolderNames i)
          else [])
  ∧ (∀ cwd m f, plain m → plain f →
       deployed_file cwd m f
       = OsPath.join2 cwd "CameraIntrinsics" +:+ "/" +:+ m +:+ "/" +:+ f
         +:+ "/" +:+ "cameraIntrinsics.pickle")
  ∧ (∀ cwd m1 f1 m2 f2, plain m1 → plain f1 → plain m2 → plain f2 →
       deployed_file cwd m1 f1 = deployed_file cwd m2 f2 → m1 = m2 ∧ f1 = f2)
  ∧ (∀ cwd m f dataDir subject session cam,
       deployed_file cwd m f
       ≠ Reprocess.copied_parameters dataDir subject session cam)
  ∧ (∀ dataDir subject session cam,
       PyStr.startswith "/" cam = false →
       ∃ rest, Reprocess.copied_parameters dataDir subject session cam
               = Reprocess.pathSessionNew dataDir subject session +:+ rest).
Proof.
  intros (p & trials & cbp & avg & lst & cmp & cm & files
          & Hp & Hagg & Htrace & _)%script_Ok_effects.
  split; [|split; [|split; [|split]]].
  - exists trials, cbp, avg, lst, cmp, cm, files. eexists.
    split; [done|]. split; [exact Htrace|].
    rewrite save_events_app. simpl.
    destruct (saveIntrinsicsForDeployment i); [|done].
    by rewrite save_events_saves, <- list_fmap_compose.
  - apply deployed_file_plain.
  - apply deployed_file_inj.
  - apply deployed_is_not_session_record.
  - apply copied_is_under_session.
Qed.

End calc_intrinsics_claims.

(** Witness of C2: a first run in an empty data folder, with a PyYAML
    that sorts the keys, and what the [loadTrialInfo] branch of a second
    run reads. *)
Lemma trial_manifest_round_trip_witness :
  let i := Sample.user_inputs false in
  let w := Sample.start ∅ in
  let w' := (CalcIntrinsics.script (ext := SampleSorted.externals) i w).2 in
  CalcIntrinsics.script (ext := SampleSorted.externals) i w = (Ok (), w')
  ∧ fs w' !! "/data/IntrinsicCaptures/Cam4b/trialInfo.yaml"
    = Some "{cameraModel: SONYRX0-II-Cam4b, nSquaresHeight: 11, nSquaresWidth: 8, squareSize: 60, trials: [Cam4b]}"
  ∧ ∀ cur,
      CalcIntrinsics.load_trial_info (ext := SampleSorted.externals)
        (Sample.user_inputs true) "/data/IntrinsicCaptures/Cam4b/trialInfo.yaml"
        cur w'
      = (Ok (PList [PStr "Cam4b"],
             {| dimensions := (PInt 8, PInt 11); squareSize := PInt 60 |}), w').
Proof.
  intros i w w'.
  assert (CalcIntrinsics.script (ext := SampleSorted.externals) i w
          = (Ok (), w')) as Hrun by (vm_compute; reflexivity).
  split; [exact Hrun|]. split; [vm_compute; reflexivity|].
  destruct (trial_manifest_round_trip (ext := SampleSorted.externals)
              i w w' Hrun)
    as (p & trials & cbp & avg & lst & cmp & cm & files
        & Hp & Hagg & (evs & Htrace) & _ & Hback).
  injection Hp as <-.
  assert (trace w' = [EvComputeAverageIntrinsics "/data/IntrinsicCaptures"
                        (PList [PStr "Cam4b"])
                        {| dimensions := (PInt 8, PInt 11);
                           squareSize := PInt 60 |}
                        50 "SONYRX0-II-Cam4b" ".MP4";
                      EvSaveCameraParameters
                        "/home/opencap-core/CameraIntrinsics/SONYRX0-II-Cam4b/Deployed_720_60fps/cameraIntrinsics.pickle"
                        Sample.CamParams;
                      EvSaveCameraParameters
                        "/home/opencap-core/CameraIntrinsics/SONYRX0-II-Cam4b/Deployed/cameraIntrinsics.pickle"
                        Sample.CamParams]) as Hconcrete
    by (vm_compute; reflexivity).
  rewrite Hconcrete in Htrace. injection Htrace as <- <- _.
  injection Hagg as _ _ _ <- _.
  pose (doc := PDict [("cameraModel", PStr "SONYRX0-II-Cam4b");
                      ("nSquaresHeight", PInt 11); ("nSquaresWidth", PInt 8);
                      ("squareSize", PInt 60);
                      ("trials", PList [PStr "Cam4b"])]).
  assert (yaml_safe_load (Externals := SampleSorted.externals)
            (yaml_dump (Externals := SampleSorted.externals)
               (CalcIntrinsics.trialInfo_of (PList [PStr "Cam4b"])
                  {| dimensions := (PInt 8, PInt 11); squareSize := PInt 60 |}
                  "SONYRX0-II-Cam4b"))
          = Ok doc) as Hyaml by (vm_compute; reflexivity).
  intros cur.
  apply (Hback doc Hyaml eq_refl eq_refl eq_refl eq_refl
           (Sample.user_inputs true) eq_refl).
Defined.

Example second_run_reads_the_manifest_back :
  let w' := (CalcIntrinsics.script (ext := Sample.externals)
               (Sample.user_inputs false) (Sample.start ∅)).2 in
  fs w' !! "/data/IntrinsicCaptures/Cam4b/trialInfo.yaml"
  = Some "{trials: [Cam4b], nSquaresWidth: 8, nSquaresHeight: 11, squareSize: 60, cameraModel: SONYRX0-II-Cam4b}"
  ∧ CalcIntrinsics.load_trial_info (ext := Sample.externals)
      (Sample.user_inputs true) "/data/IntrinsicCaptures/Cam4b/trialInfo.yaml"
      (PNone, {| dimensions := (PNone, PNone); squareSize := PNone |}) w'
    = (Ok (PList [PStr "Cam4b"],
           {| dimensions := (PInt 8, PInt 11); squareSize := PInt 60 |}), w').
Proof. split; vm_compute; reflexivity. Qed.

(** Witness of C6: the same run saves two deployed records. *)
Lemma deployed_intrinsics_are_keyed_by_model_and_folder_witness :
  let i := Sample.user_inputs false in
  let w := Sample.start ∅ in
  let w' := (CalcIntrinsics.script (ext := Sample.externals) i w).2 in
  CalcIntrinsics.script (ext := Sample.externals) i w = (Ok (), w')
  ∧ ∃ cm avg evs,
      trace w' = trace w ++ evs
      ∧ save_events evs
        = [(CalcIntrinsics.deployed_file "/home/opencap-core" cm
              "Deployed_720_60fps", avg);
           (CalcIntrinsics.deployed_file "/home/opencap-core" cm "Deployed", avg)].
Proof.
  intros i w w'.
  assert (CalcIntrinsics.script (ext := Sample.externals) i w = (Ok (), w'))
    as Hrun by (vm_compute; reflexivity).
  split; [exact Hrun|].
  destruct (deployed_intrinsics_are_keyed_by_model_and_folder
              (ext := Sample.externals) i w w' Hrun)
    as ((trials & cbp & avg & lst & cmp & cm & files & evs & _ & Ht & Hs) & _).
  exists cm, avg, evs. split; [exact Ht | exact Hs].
Defined.

Example deployed_paths :
  let w' := (CalcIntrinsics.script (ext := Sample.externals)
               (Sample.user_inputs false) (Sample.start ∅)).2 in
  save_events (trace w')
  = [("/home/opencap-core/CameraIntrinsics/SONYRX0-II-Cam4b/Deployed_720_60fps/cameraIntrinsics.pickle",
      Sample.CamParams);
     ("/home/opencap-core/CameraIntrinsics/SONYRX0-II-Cam4b/Deployed/cameraIntrinsics.pickle",
      Sample.CamParams)].
Proof. vm_compute. reflexivity. Qed.

(** * Further properties of the scripts *)

(** ** The trial order in full *)

Section reordering_exact.
Import Reprocess.

Lemma last_cons_match {A} (x : A) (l : list A) :
  last (x :: l) = match last l with Some y => Some y | None => Some x end.
Proof. destruct l as [|y l]; [done|]. rewrite last_cons_cons. by destruct (last (y :: l)) eqn:E; [|apply last_None in E]. Qed.

Lemma filter_split_perm {A} (P : A → bool) (l : list A) :
  List.filter P l ++ List.filter (λ x, negb (P x)) l ≡ₚ l.
Proof.
  induction l as [|x l IH]; [done|]. simpl. destruct (P x); simpl.
  - by rewrite IH.
  - by rewrite <- Permutation_middle, IH.
Qed.

Lemma filter_none {A} (P : A → bool) (l : list A) :
  (∀ x, x ∈ l → P x = false) →
  List.filter P l = [] ∧ List.filter (λ x, negb (P x)) l = l.
Proof.
  induction l as [|x l IH]; intros Hall; [done|]. simpl.
  rewrite (Hall x) by (apply elem_of_cons; by left). simpl.
  destruct IH as [-> ->]; [|done].
  intros y Hy. apply Hall. apply elem_of_cons. by right.
Qed.

Lemma filter_elem {A} (P : A → bool) (l : list A) x :
  x ∈ List.filter P l ↔ x ∈ l ∧ P x = true.
Proof. rewrite !list_elem_of_In, List.filter_In. done. Qed.

(** The loop of the two-camera script leaves [extrinsics_idx] at the first
    position of the last folder that names the extrinsics trial. *)
Lemma find_extrinsics_loop_exact all l idx0 :
  (∀ t, t ∈ l → t ∈ all) →
  for_fold (λ idx trial,
              if names_extrinsics trial
              then i ← Py.index all trial; Ok (Some i)
              else Ok idx) l idx0
  = Ok (match last (List.filter names_extrinsics l) with
        | Some x => Py.index_of x all
        | None => idx0
        end).
Proof.
  revert idx0. induction l as [|x l IH]; intros idx0 Hsub; [done|].
  assert (∀ t, t ∈ l → t ∈ all) as Hsub'
    by (intros t Ht; apply Hsub; by apply elem_of_cons; right).
  simpl. destruct (names_extrinsics x) eqn:Hx.
  - destruct (index_of_elem x all) as (i & Hi & _);
      [apply Hsub; by apply elem_of_cons; left|].
    unfold Py.index. rewrite Hi. simpl. rewrite IH by done.
    rewrite last_cons_match. destruct (last _); [done|]. by rewrite Hi.
  - by rewrite IH.
Qed.

Lemma two_cameras_order_helper trials_tmp idx x :
  last (List.filter names_extrinsics trials_tmp) = Some x →
  ∃ i, trials_tmp !! i = Some x
       ∧ TwoCameras.reorder trials_tmp idx
         = Ok (x :: List.filter (λ trial, negb (names_extrinsics trial))
                                trials_tmp, Py.index_of x trials_tmp).
Proof.
  intros Hlast.
  assert (x ∈ trials_tmp) as Hin.
  { apply last_Some in Hlast as (pre & Hpre).
    apply (filter_elem names_extrinsics trials_tmp x). rewrite Hpre.
    apply elem_of_app. right. by apply list_elem_of_singleton. }
  destruct (index_of_elem x trials_tmp Hin) as (i & Hi & Hl).
  exists i. split; [done|].
  unfold TwoCameras.reorder, TwoCameras.find_extrinsics.
  rewrite find_extrinsics_loop_exact by done. rewrite Hlast, Hi. simpl.
  by rewrite (getitem_lookup _ _ _ Hl).
Qed.

(** X1.  Two-camera script, a session with at least one folder that names
    the extrinsics trial: the order starts with the last such folder, goes
    on with the folders that do not name it, in their listed order, and
    [extrinsics_idx] is left at the first position of that folder, whatever
    it held before. *)
Theorem two_cameras_order_in_full
    (trials_tmp : list string) (idx : option nat) (x : string) :
  last (List.filter names_extrinsics trials_tmp) = Some x →
  ∃ i, Py.index_of x trials_tmp = Some i
       ∧ trials_tmp !! i = Some x
       ∧ TwoCameras.reorder trials_tmp idx
         = Ok (x :: List.filter (λ trial, negb (names_extrinsics trial))
                                trials_tmp, Some i).
Proof.
  intros Hlast.
  destruct (two_cameras_order_helper trials_tmp idx x Hlast) as (i & Hl & Hre).
  assert (x ∈ trials_tmp) as Hin by (by eapply list_elem_of_lookup_2).
  destruct (index_of_elem x trials_tmp Hin) as (j & Hj & Hlj).
  exists j. split; [done|]. split; [done|]. by rewrite Hre, Hj.
Qed.

(** X2.  Two-camera script: with exactly one folder that names the
    extrinsics trial the new order is a permutation of the listed folders;
    with several, every such folder but the last is left out of the order
    and is never processed. *)
Theorem two_cameras_order_keeps_or_drops
    (trials_tmp : list string) (idx : option nat) (x : string) :
  last (List.filter names_extrinsics trials_tmp) = Some x →
  ∃ trials idx',
    TwoCameras.reorder trials_tmp idx = Ok (trials, idx')
    ∧ (List.filter names_extrinsics trials_tmp = [x] → trials ≡ₚ trials_tmp)
    ∧ (∀ t, t ∈ trials ↔
            t ∈ trials_tmp ∧ (names_extrinsics t = false ∨ t = x)).
Proof.
  intros Hlast.
  destruct (two_cameras_order_helper trials_tmp idx x Hlast)
    as (i & Hl & Hre).
  eexists _, _. split; [exact Hre|]. split.
  - intros Hone. rewrite <- (filter_split_perm names_extrinsics trials_tmp) at 2.
    by rewrite Hone.
  - intros t. rewrite elem_of_cons, filter_elem, negb_true_iff. split.
    + intros [->|[Hin Hno]]; [|by auto].
      split; [by eapply list_elem_of_lookup_2 | by right].
    + intros [Hin [Hno| ->]]; [by right | by left].
Qed.

(** X3.  Two-camera script, a session without a folder that names the
    extrinsics trial: in the first session the script stops with
    [NameError]; later it reads the index an earlier session left, puts the
    folder at that position first and then processes every folder, that
    one again, or stops with [IndexError] when the list is too short. *)
Theorem two_cameras_order_without_extrinsics
    (trials_tmp : list string) (idx : option nat) :
  (∀ t, t ∈ trials_tmp → names_extrinsics t = false) →
  TwoCameras.reorder trials_tmp idx
  = match idx with
    | None => Raise (NameError "extrinsics_idx")
    | Some i =>
        match trials_tmp !! i with
        | Some x => Ok (x :: trials_tmp, Some i)
        | None => Raise IndexError
        end
    end.
Proof.
  intros Hnone. unfold TwoCameras.reorder, TwoCameras.find_extrinsics.
  rewrite find_extrinsics_loop_exact by done.
  destruct (filter_none names_extrinsics trials_tmp Hnone) as [-> ->].
  simpl. destruct idx as [i|]; [|done]. simpl. unfold Py.getitem.
  by destruct (trials_tmp !! i).
Qed.

End reordering_exact.

Section reordering_exact_three.
Import Reprocess.

Lemma filter_filter_and {A} (P Q : A → bool) (l : list A) :
  List.filter P (List.filter Q l) = List.filter (λ x, Q x && P x) l.
Proof.
  induction l as [|x l IH]; [done|]. simpl.
  destruct (Q x); simpl; [|done]. destruct (P x); by rewrite IH.
Qed.

Lemma filter_agree {A} (P Q : A → bool) (l : list A) :
  (∀ x, x ∈ l → P x = Q x) → List.filter P l = List.filter Q l.
Proof.
  intros Hagree. apply List.filter_ext_in. intros x Hx. apply Hagree.
  by apply list_elem_of_In.
Qed.

(** The loop of the three-camera script leaves each index at the first
    position of the last folder with the name it looks for, and the flag
    [session_with_static] set whatever the folders are. *)
Lemma find_indices_loop_exact all l (v : ThreeCameras.indices) :
  (∀ t, t ∈ l → t ∈ all) →
  for_fold
    (λ (st : ThreeCameras.indices * bool) trial,
       st1 ← (if names_extrinsics trial
              then i ← Py.index all trial;
                   Ok ({| ThreeCameras.extrinsics_idx := Some i;
                          ThreeCameras.static_idx :=
                            ThreeCameras.static_idx st.1 |}, st.2)
              else Ok st);
       if names_static trial
       then j ← Py.index all trial;
            Ok ({| ThreeCameras.extrinsics_idx :=
                     ThreeCameras.extrinsics_idx st1.1;
                   ThreeCameras.static_idx := Some j |}, true)
       else Ok st1)
    l (v, true)
  = Ok ({| ThreeCameras.extrinsics_idx :=
             match last (List.filter names_extrinsics l) with
             | Some x => Py.index_of x all
             | None => ThreeCameras.extrinsics_idx v
             end;
           ThreeCameras.static_idx :=
             match last (List.filter names_static l) with
             | Some s => Py.index_of s all
             | None => ThreeCameras.static_idx v
             end |}, true).
Proof.
  revert v. induction l as [|x l IH]; intros v Hsub; [by destruct v|].
  assert (∀ t, t ∈ l → t ∈ all) as Hsub'
    by (intros t Ht; apply Hsub; by apply elem_of_cons; right).
  destruct (index_of_elem x all) as (i & Hi & _);
    [apply Hsub; by apply elem_of_cons; left|].
  simpl. unfold Py.index. rewrite Hi.
  destruct (names_extrinsics x) eqn:Hxe; destruct (names_static x) eqn:Hxs;
    simpl; rewrite IH by done; simpl; rewrite ?last_cons_match;
    repeat f_equal;
    repeat match goal with |- context [last ?l] => destruct (last l) end;
    by rewrite ?Hi.
Qed.

Lemma last_filter_elem (P : string → bool) (l : list string) x :
  last (List.filter P l) = Some x → x ∈ l ∧ P x = true.
Proof.
  intros (pre & Hpre)%last_Some. apply (filter_elem P l x). rewrite Hpre.
  apply elem_of_app. right. by apply list_elem_of_singleton.
Qed.

Lemma three_cameras_order_helper trials_tmp v x s :
  last (List.filter names_extrinsics trials_tmp) = Some x →
  last (List.filter names_static trials_tmp) = Some s →
  ∃ i j, Py.index_of x trials_tmp = Some i ∧ trials_tmp !! i = Some x
         ∧ Py.index_of s trials_tmp = Some j ∧ trials_tmp !! j = Some s
         ∧ ThreeCameras.reorder trials_tmp v
           = Ok (x :: s ::
                   List.filter (λ trial, negb (names_static trial)
                                         && negb (names_extrinsics trial))
                               trials_tmp,
                 {| ThreeCameras.extrinsics_idx := Some i;
                    ThreeCameras.static_idx := Some j |}).
Proof.
  intros Hx Hs.
  destruct (last_filter_elem _ _ _ Hx) as [Hxin _].
  destruct (last_filter_elem _ _ _ Hs) as [Hsin _].
  destruct (index_of_elem x trials_tmp Hxin) as (i & Hi & Hli).
  destruct (index_of_elem s trials_tmp Hsin) as (j & Hj & Hlj).
  exists i, j. repeat (split; [done|]).
  unfold ThreeCameras.reorder, ThreeCameras.find_indices.
  rewrite find_indices_loop_exact by done. rewrite Hx, Hs, Hi, Hj. simpl.
  rewrite (getitem_lookup _ _ _ Hli). simpl.
  by rewrite (getitem_lookup _ _ _ Hlj).
Qed.

(** X4.  Three-camera script, a session with a folder that names the
    extrinsics trial and a folder that names the static trial: the order
    is the last extrinsics folder, the last static folder, then the folders
    that name neither, in their listed order; both indices are left at the
    first positions of those two folders.  With exactly one folder of each
    kind, and these two different, the order is a permutation of the listed
    folders. *)
Theorem three_cameras_order_in_full
    (trials_tmp : list string) (v : ThreeCameras.indices) (x s : string) :
  last (List.filter names_extrinsics trials_tmp) = Some x →
  last (List.filter names_static trials_tmp) = Some s →
  ∃ i j trials,
    trials_tmp !! i = Some x ∧ trials_tmp !! j = Some s
    ∧ trials = x :: s ::
                 List.filter (λ trial, negb (names_static trial)
                                       && negb (names_extrinsics trial))
                             trials_tmp
    ∧ ThreeCameras.reorder trials_tmp v
      = Ok (trials, {| ThreeCameras.extrinsics_idx := Some i;
                       ThreeCameras.static_idx := Some j |})
    ∧ (List.filter names_extrinsics trials_tmp = [x] →
       List.filter names_static trials_tmp = [s] →
       names_static x = false →
       trials ≡ₚ trials_tmp).
Proof.
  intros Hx Hs.
  destruct (three_cameras_order_helper trials_tmp v x s Hx Hs)
    as (i & j & _ & Hli & _ & Hlj & Hre).
  exists i, j. eexists. split; [done|]. split; [done|].
  split; [reflexivity|]. split; [exact Hre|].
  intros Hone Hones Hdiff.
  assert (∀ t, t ∈ trials_tmp → names_static t = true →
               names_extrinsics t = false) as Hexcl.
  { intros t Ht Hst. destruct (names_extrinsics t) eqn:Hte; [|done].
    assert (t ∈ List.filter names_extrinsics trials_tmp) as Hin
      by by apply filter_elem.
    rewrite Hone in Hin. apply list_elem_of_singleton in Hin as ->. congruence. }
  rewrite <- (filter_split_perm names_extrinsics trials_tmp) at 2.
  rewrite Hone. simpl. apply Permutation_skip.
  rewrite <- (filter_split_perm names_static
                (List.filter (λ t, negb (names_extrinsics t)) trials_tmp)).
  rewrite !filter_filter_and.
  rewrite (filter_agree (λ t, negb (names_extrinsics t) && names_static t)
             names_static).
  - rewrite Hones. simpl. apply Permutation_skip.
    rewrite (filter_agree _ (λ t, negb (names_extrinsics t)
                                  && negb (names_static t))); [done|].
    intros t _. apply andb_comm.
  - intros t Ht. destruct (names_static t) eqn:Hst.
    + by rewrite (Hexcl t Ht Hst).
    + apply andb_false_r.
Qed.

(** X5.  Three-camera script, a session with an extrinsics folder and no
    static folder: the flag [session_with_static] is set all the same, so
    the script reads [static_idx]; in the first session that is a
    [NameError], later it is the index an earlier session left, and the
    folder at that position is put second and then processed again in its
    place, or the script stops with [IndexError]. *)
Theorem three_cameras_order_without_static
    (trials_tmp : list string) (v : ThreeCameras.indices) (x : string) :
  last (List.filter names_extrinsics trials_tmp) = Some x →
  (∀ t, t ∈ trials_tmp → names_static t = false) →
  ThreeCameras.reorder trials_tmp v
  = match ThreeCameras.static_idx v with
    | None => Raise (NameError "static_idx")
    | Some j =>
        match trials_tmp !! j with
        | Some y =>
            Ok (x :: y :: List.filter (λ trial, negb (names_extrinsics trial))
                                      trials_tmp,
                {| ThreeCameras.extrinsics_idx := Py.index_of x trials_tmp;
                   ThreeCameras.static_idx := Some j |})
        | None => Raise IndexError
        end
    end.
Proof.
  intros Hx Hnone.
  destruct (last_filter_elem _ _ _ Hx) as [Hxin _].
  destruct (index_of_elem x trials_tmp Hxin) as (i & Hi & Hli).
  unfold ThreeCameras.reorder, ThreeCameras.find_indices.
  rewrite find_indices_loop_exact by done. rewrite Hx, Hi.
  destruct (filter_none names_static trials_tmp Hnone) as [-> _].
  simpl. rewrite (getitem_lookup _ _ _ Hli). simpl.
  destruct (ThreeCameras.static_idx v) as [j|]; [|done]. simpl.
  unfold Py.getitem. destruct (trials_tmp !! j) as [y|]; [|done]. simpl.
  do 4 f_equal. apply filter_agree. intros t Ht. by rewrite (Hnone t Ht).
Qed.

End reordering_exact_three.

(** ** The calls a session makes *)

Section schedule_facts.
Context {ext : Externals}.

Lemma follows_quiet {A} (m : M A) :
  emits (λ evs, process_events evs = []) m → follows [] m.
Proof.
  intros Hm w r w' Hrun. destruct (Hm w r w' Hrun) as (evs & Ht & Hnil).
  exists evs. rewrite Hnil. by repeat split.
Qed.

Lemma follows_silent {A} (m : M A) :
  emits (λ evs, evs = []) m → follows [] m.
Proof.
  intros Hm. apply follows_quiet. eapply emits_weaken; [|exact Hm].
  by intros evs ->.
Qed.

Lemma follows_bind {A B} s1 s2 (m : M A) (f : A → M B) :
  follows s1 m → (∀ a, follows s2 (f a)) → follows (s1 ++ s2) (m ≫= f).
Proof.
  intros Hm Hf w r w' Hrun.
  destruct (bind_cases m f w) as [(a & w1 & Hmw & Heq)|(e & w1 & Hmw & Heq)];
    rewrite Heq in Hrun.
  - destruct (Hm _ _ _ Hmw) as (e1 & Ht1 & _ & Hfull1).
    destruct (Hf a _ _ _ Hrun) as (e2 & Ht2 & Hpre2 & Hfull2).
    exists (e1 ++ e2). split; [by rewrite Ht2, Ht1, app_assoc|].
    rewrite process_events_app, (Hfull1 a eq_refl). split.
    + by apply prefix_app.
    + intros b Hb. by rewrite (Hfull2 b Hb).
  - injection Hrun as <- <-.
    destruct (Hm _ _ _ Hmw) as (e1 & Ht1 & Hpre1 & _).
    exists e1. split; [done|]. split; [by apply prefix_app_r | done].
Qed.

Lemma follows_for_each {A} (S : A → list process_args) (l : list A)
    (body : A → M unit) :
  (∀ x, follows (S x) (body x)) → follows (flat_map S l) (for_each l body).
Proof.
  intros Hbody. induction l as [|x l IH]; simpl.
  - apply follows_silent, emits_ret.
  - by apply follows_bind.
Qed.

Lemma follows_process_trial a : follows [a] (Reprocess.process_trial a).
Proof.
  intros w r w' Hrun.
  destruct (emits_process_trial a w r w' Hrun) as (evs & Ht & ->).
  exists [EvProcessTrial a]. by repeat split.
Qed.

Lemma follows_trials (mk : string → process_args) (body : string → M unit)
    (trials : list string) :
  (∀ t, follows [mk t] (body t)) → follows (map mk trials) (for_each trials body).
Proof.
  intros Hbody.
  replace (map mk trials) with (flat_map (λ t, [mk t]) trials)
    by (induction trials as [|t trials IH]; [done | simpl; by rewrite IH]).
  by apply follows_for_each.
Qed.

Lemma follows_two_cameras i sessionName trials :
  follows (Schedule.two_cameras i sessionName trials)
          (TwoCameras.process_trials i sessionName trials).
Proof.
  unfold Schedule.two_cameras, Schedule.calls, TwoCameras.process_trials.
  apply follows_for_each. intros poseDetector.
  apply follows_for_each. intros cameraSetup.
  destruct (Reprocess.lookup_cams _ cameraSetup) as [cam2Use|e] eqn:Hcams.
  - intros w r w'. rewrite lift_bind. cbv beta iota. revert w r w'.
    apply follows_trials. intros t. apply follows_process_trial.
  - intros w r w'. rewrite lift_bind. intros [= <- <-].
    exists []. rewrite app_nil_r. by repeat split.
Qed.

Lemma follows_three_cameras i sessionName trials :
  follows (Schedule.three_cameras i sessionName trials)
          (ThreeCameras.process_trials i sessionName trials).
Proof.
  unfold Schedule.three_cameras, Schedule.calls, ThreeCameras.process_trials.
  apply follows_for_each. intros poseDetector.
  apply follows_for_each. intros cameraSetup.
  destruct (Reprocess.lookup_cams _ cameraSetup) as [cam2Use|e] eqn:Hcams.
  - intros w r w'. rewrite lift_bind. cbv beta iota. revert w r w'.
    change (map ?f trials) with ([] ++ map f trials).
    apply follows_bind; [apply follows_silent, emits_copy_model|].
    intros _. apply follows_trials. intros t.
    change [?a] with ([a] ++ []).
    apply follows_bind; [apply follows_process_trial|]. intros _.
    apply follows_quiet. apply emits_bind_closed.
    + split; [done|]. intros e1 e2 H1 H2. by rewrite process_events_app, H1, H2.
    + eapply emits_weaken; [|apply emits_emit]. by intros evs ->.
    + intros _. eapply emits_weaken; [|apply emits_call]. by intros evs ->.
  - intros w r w'. rewrite lift_bind. intros [= <- <-].
    exists []. rewrite app_nil_r. by repeat split.
Qed.

(** X6.  In both scripts the [process_trial] calls of a session follow one
    schedule: for every pose detector, for every camera setup, the trials in
    their order.  Whatever fails, the calls made are a prefix of that
    schedule, nothing is retried or skipped, and a session that goes through
    has made all of them. *)
Theorem process_trial_calls_follow_the_schedule
    (i : Reprocess.inputs) (sessionName : string) (trials : list string)
    (three : bool) (w : world) (r : outcome unit) (w' : world) :
  (if three then ThreeCameras.process_trials i sessionName trials
   else TwoCameras.process_trials i sessionName trials) w = (r, w') →
  let sched := if three then Schedule.three_cameras i sessionName trials
               else Schedule.two_cameras i sessionName trials in
  ∃ evs, trace w' = trace w ++ evs
         ∧ process_events evs `prefix_of` sched
         ∧ (r = Ok () → process_events evs = sched).
Proof.
  intros Hrun sched. subst sched. destruct three.
  - destruct (follows_three_cameras i sessionName trials w r w' Hrun)
      as (evs & Ht & Hpre & Hfull).
    exists evs. repeat split; [done..|]. intros ->. by apply (Hfull ()).
  - destruct (follows_two_cameras i sessionName trials w r w' Hrun)
      as (evs & Ht & Hpre & Hfull).
    exists evs. repeat split; [done..|]. intros ->. by apply (Hfull ()).
Qed.

Lemma lookup_cams_unknown table cameraSetup :
  cameraSetup ∉ table.*1 →
  Reprocess.lookup_cams table cameraSetup = Raise (KeyError cameraSetup).
Proof.
  intros Hnot. unfold Reprocess.lookup_cams.
  destruct (list_find _ table) as [[k kv]|] eqn:Hfind; [|done].
  apply list_find_Some in Hfind as (Hk & Heq & _). exfalso. apply Hnot.
  rewrite <- Heq. apply list_elem_of_fmap. exists kv. split; [done|].
  by eapply list_elem_of_lookup_2.
Qed.

(** X7.  A camera setup that is not one of [5-cameras], [3-cameras],
    [2-cameras] is a [KeyError]: when the first setup of the first pose
    detector is unknown, either script stops there, before any trial is
    processed and before anything is changed. *)
Theorem unknown_camera_setup_is_a_KeyError
    (i : Reprocess.inputs) (sessionName : string) (trials : list string)
    (poseDetector cameraSetup : string) (pds css : list string) (w : world) :
  Reprocess.poseDetectors i = poseDetector :: pds →
  Reprocess.cameraSetups i = cameraSetup :: css →
  cameraSetup ∉ ["5-cameras"; "3-cameras"; "2-cameras"] →
  TwoCameras.process_trials i sessionName trials w
  = (Raise (KeyError cameraSetup), w)
  ∧ ThreeCameras.process_trials i sessionName trials w
    = (Raise (KeyError cameraSetup), w).
Proof.
  intros Hpd Hcs Hnot.
  unfold TwoCameras.process_trials, ThreeCameras.process_trials.
  rewrite Hpd, Hcs. cbn [for_each]. split.
  - do 2 apply bind_Raise. rewrite lift_bind.
    by rewrite (lookup_cams_unknown TwoCameras.cam2sUse cameraSetup Hnot).
  - do 2 apply bind_Raise. rewrite lift_bind.
    by rewrite (lookup_cams_unknown ThreeCameras.cam2sUse cameraSetup Hnot).
Qed.

End schedule_facts.

(** ** The copy of the model folder *)

Section copy_model_facts.
Context {ext : Externals}.

Lemma but_last_last s c :
  PyStr.last s = Some c → PyStr.but_last s +:+ String c "" = s.
Proof.
  induction s as [|a s IH]; [done|]. destruct s as [|b s].
  - by intros [= ->].
  - intros Hlast. change (PyStr.but_last (String a (String b s)))
      with (String a (PyStr.but_last (String b s))).
    rewrite app_cons. f_equal. by apply IH.
Qed.

Lemma join2_last path b :
  b ≠ "" → PyStr.last (OsPath.join2 path b) = PyStr.last b.
Proof.
  intros Hb. destruct (join2_tail path b) as (pre & ->). by apply last_app.
Qed.

(** X8.  Three-camera script, the copy of the [Model] folder: a session
    name that is empty is an [IndexError]; a session whose name does not
    end in [1] gets no copy; and for a session whose name ends in [1] the
    folder the files are read from and the folder they are copied to are
    one and the same path, since replacing the last character of the
    session folder by [1] changes nothing. *)
Theorem model_folder_is_copied_onto_itself
    (i : Reprocess.inputs) (sessionName poseDetector cameraSetup : string)
    (w : world) :
  let sub := poseDetector +:+ "_" +:+ Reprocess.resolutionPoseDetection i in
  let modelDir :=
    OsPath.join (OsPath.join (OsPath.join (Reprocess.dataDir i) [sessionName])
                             ["OpenSimData"; sub; cameraSetup]) ["Model"] in
  ThreeCameras.copy_model i sessionName poseDetector cameraSetup w
  = match PyStr.last sessionName with
    | None => (Raise IndexError, w)
    | Some c =>
        if bool_decide (c = "1"%char)
        then call (copy_model_folder modelDir modelDir) w
        else (Ok (), w)
    end.
Proof.
  intros sub modelDir. unfold ThreeCameras.copy_model. rewrite lift_bind.
  destruct (PyStr.last sessionName) as [c|] eqn:Hlast; [|done].
  destruct (bool_decide (c = "1"%char)) eqn:Hc; [|done].
  apply bool_decide_eq_true in Hc as ->.
  assert (sessionName ≠ "") as Hne by (by destruct sessionName).
  assert (PyStr.but_last (OsPath.join (Reprocess.dataDir i) [sessionName])
          +:+ "1" = OsPath.join (Reprocess.dataDir i) [sessionName]) as Hsame.
  { apply but_last_last. unfold OsPath.join. simpl foldl.
    by rewrite join2_last. }
  by rewrite Hsame.
Qed.

End copy_model_facts.

(** ** The intrinsics script: what stops a run *)

Section calc_intrinsics_stops.
Context {ext : Externals}.
Import CalcIntrinsics.

(** X9.  With an empty list of trials the script stops with [IndexError]
    where the path of the trial file is built, before the metadata is
    looked for: nothing is read, computed or written. *)
Theorem empty_trial_list_is_an_IndexError (i : inputs) (w : world) :
  CalcIntrinsics.trials i = [] → script i w = (Raise IndexError, w).
Proof.
  intros Hnil. unfold script, trialFile. rewrite lift_bind, Hnil. reflexivity.
Qed.

(** X10.  When the aggregation raises, the script stops with that
    exception: [saveCameraParameters] is not called, and the script itself
    writes nothing, neither the trial file nor the comparison record; the
    files are as the aggregation left them. *)
Theorem failed_aggregation_writes_nothing
    (i : inputs) (p : string) (cbp0 cbp : CheckerBoard) (trials : pyval)
    (e : exn) (files : gmap string string) (w : world) :
  trialFile i = Ok p →
  read_metadata i (CheckerBoardParams i) w = (Ok cbp0, w) →
  load_trial_info i p (PList (PStr <$> CalcIntrinsics.trials i), cbp0) w
  = (Ok (trials, cbp), w) →
  computeAverageIntrinsics (sessionDir i) trials cbp 50 (cameraModel i)
    (videoType i) (fs w) = (Raise e, files) →
  ∃ w', script i w = (Raise e, w')
        ∧ fs w' = files
        ∧ seen w' = files :: seen w
        ∧ trace w' = trace w ++ [EvComputeAverageIntrinsics (sessionDir i) trials
                                   cbp 50 (cameraModel i) (videoType i)]
        ∧ save_events (trace w') = save_events (trace w).
Proof.
  intros Hp Hmeta Hload Hagg.
  rewrite (script_after_reads i p cbp0 trials cbp w Hp Hmeta Hload).
  unfold calibrate, aggregate, emit, call, mbind, M_bind. simpl.
  rewrite Hagg. eexists. split; [reflexivity|]. simpl.
  repeat split. rewrite save_events_app. simpl. by rewrite app_nil_r.
Qed.

Lemma load_trial_info_present i p cur w text :
  loadTrialInfo i = true →
  fs w !! p = Some text →
  faults w p ≠ OpenFails →
  load_trial_info i p cur w
  = match yaml_safe_load text with
    | Ok trialInfo =>
        (trials ← Py.subscript trialInfo "trials";
         wd ← Py.subscript trialInfo "nSquaresWidth";
         ht ← Py.subscript trialInfo "nSquaresHeight";
         sq ← Py.subscript trialInfo "squareSize";
         Ok (trials, {| dimensions := (wd, ht); squareSize := sq |}), w)
    | Raise e => (Raise e, w)
    end.
Proof.
  intros Hon Hfile Hfault. unfold load_trial_info.
  rewrite Hon, path_exists_bind, Hfile.
  change (bool_decide (is_Some (Some ?x))) with true. cbv iota.
  assert (Os.read p w = (Ok text, w)) as Hread.
  { unfold Os.read. rewrite Hfile. by destruct (faults w p). }
  rewrite (bind_Ok _ _ _ _ _ Hread), lift_bind.
  destruct (yaml_safe_load text) as [doc|]; [|done].
  rewrite lift_bind. destruct (Py.subscript doc "trials"); [|done].
  rewrite lift_bind. destruct (Py.subscript doc "nSquaresWidth"); [|done].
  rewrite lift_bind. destruct (Py.subscript doc "nSquaresHeight"); [|done].
  rewrite lift_bind. by destruct (Py.subscript doc "squareSize").
Qed.

(** X11.  When the trial file is asked for and can be read, what it holds
    takes precedence over the session metadata: the calibration runs with
    the trials and the checkerboard parameters of the trial file, whatever
    the metadata step had found. *)
Theorem trial_file_overrides_metadata
    (i : inputs) (p text : string) (cbp0 : CheckerBoard)
    (trialInfo trials wd ht sq : pyval) (w : world) :
  loadTrialInfo i = true →
  trialFile i = Ok p →
  read_metadata i (CheckerBoardParams i) w = (Ok cbp0, w) →
  fs w !! p = Some text →
  faults w p ≠ OpenFails →
  yaml_safe_load text = Ok trialInfo →
  Py.subscript trialInfo "trials" = Ok trials →
  Py.subscript trialInfo "nSquaresWidth" = Ok wd →
  Py.subscript trialInfo "nSquaresHeight" = Ok ht →
  Py.subscript trialInfo "squareSize" = Ok sq →
  script i w
  = calibrate i p trials {| dimensions := (wd, ht); squareSize := sq |} w.
Proof.
  intros Hon Hp Hmeta Hfile Hfault Hyaml Ht Hw Hh Hs.
  eapply script_after_reads; [done..|].
  rewrite (load_trial_info_present _ _ _ _ text) by done.
  rewrite Hyaml, Ht. change (Ok trials ≫= ?f) with (f trials). cbv beta.
  rewrite Hw. change (Ok wd ≫= ?f) with (f wd). cbv beta.
  rewrite Hh. change (Ok ht ≫= ?f) with (f ht). cbv beta.
  by rewrite Hs.
Qed.

Lemma subscript_missing items key :
  key ∉ items.*1 → Py.subscript (PDict items) key = Raise (KeyError key).
Proof.
  intros Hnot. simpl.
  destruct (list_find _ items) as [[k kv]|] eqn:Hfind; [|done].
  apply list_find_Some in Hfind as (Hk & Heq & _). exfalso. apply Hnot.
  rewrite <- Heq. apply list_elem_of_fmap. exists kv. split; [done|].
  by eapply list_elem_of_lookup_2.
Qed.

Lemma subscript_dict_cases items key :
  (∃ v, Py.subscript (PDict items) key = Ok v)
  ∨ Py.subscript (PDict items) key = Raise (KeyError key).
Proof.
  simpl. destruct (list_find _ items) as [[k kv]|]; [left | right]; eauto.
Qed.

(** X12.  A trial file that is asked for and cannot be used stops the run
    before the aggregation and leaves everything as it was: when it is not
    YAML the run ends with the loader's exception, and when it is a
    dictionary that lacks one of the keys [trials], [nSquaresWidth],
    [nSquaresHeight], [squareSize] the run ends with a [KeyError] for one of
    these keys. *)
Theorem unusable_trial_file_stops_the_run
    (i : inputs) (p text : string) (cbp0 : CheckerBoard) (w : world) :
  loadTrialInfo i = true →
  trialFile i = Ok p →
  read_metadata i (CheckerBoardParams i) w = (Ok cbp0, w) →
  fs w !! p = Some text →
  faults w p ≠ OpenFails →
  (∀ e, yaml_safe_load text = Raise e → script i w = (Raise e, w))
  ∧ (∀ items key,
       yaml_safe_load text = Ok (PDict items) →
       key ∈ ["trials"; "nSquaresWidth"; "nSquaresHeight"; "squareSize"] →
       key ∉ items.*1 →
       ∃ k, k ∈ ["trials"; "nSquaresWidth"; "nSquaresHeight"; "squareSize"]
            ∧ (k ∉ items.*1)
            ∧ script i w = (Raise (KeyError k), w)).
Proof.
  intros Hon Hp Hmeta Hfile Hfault.
  assert (∀ e, load_trial_info i p (PList (PStr <$> CalcIntrinsics.trials i), cbp0) w
               = (Raise e, w) → script i w = (Raise e, w)) as Hstop.
  { intros e Hload. unfold script. rewrite lift_bind, Hp.
    rewrite (bind_Ok _ _ _ _ _ Hmeta). by rewrite (bind_Raise _ _ _ _ _ Hload). }
  split.
  - intros e Hyaml. apply Hstop.
    rewrite (load_trial_info_present _ _ _ _ text) by done. by rewrite Hyaml.
  - intros items key Hyaml Hkey Hnot.
    assert (∃ k, k ∈ ["trials"; "nSquaresWidth"; "nSquaresHeight"; "squareSize"]
                 ∧ (k ∉ items.*1)
                 ∧ load_trial_info i p
                     (PList (PStr <$> CalcIntrinsics.trials i), cbp0) w
                   = (Raise (KeyError k), w)) as (k & Hk & Hknot & Hload).
    { rewrite (load_trial_info_present _ _ _ _ text) by done. rewrite Hyaml.
      assert (∀ k, (k ∈ items.*1) ∨ (k ∉ items.*1)) as Hdec
        by (intros k; destruct (decide (k ∈ items.*1)); auto).
      assert (∀ k, (k ∈ items.*1) → ∃ v, Py.subscript (PDict items) k = Ok v)
        as Hin.
      { intros k Hk. destruct (subscript_dict_cases items k) as [?|Hraise];
          [done|]. exfalso. revert Hraise. simpl.
        destruct (list_find _ items) as [[? ?]|] eqn:Hfind; [done|].
        intros _. apply list_find_None in Hfind.
        apply list_elem_of_fmap in Hk as ([k' v] & -> & Hkv).
        rewrite Forall_forall in Hfind. by apply (Hfind _ Hkv). }
      destruct (Hdec "trials") as [Hk1|H1].
      2: { exists "trials". rewrite (subscript_missing _ _ H1).
           split; [by repeat constructor | done]. }
      destruct (Hin _ Hk1) as (v1 & ->). change (Ok v1 ≫= ?f) with (f v1). cbv beta.
      destruct (Hdec "nSquaresWidth") as [Hk2|H2].
      2: { exists "nSquaresWidth". rewrite (subscript_missing _ _ H2).
           split; [by repeat constructor | done]. }
      destruct (Hin _ Hk2) as (v2 & ->). change (Ok v2 ≫= ?f) with (f v2). cbv beta.
      destruct (Hdec "nSquaresHeight") as [Hk3|H3].
      2: { exists "nSquaresHeight". rewrite (subscript_missing _ _ H3).
           split; [by repeat constructor | done]. }
      destruct (Hin _ Hk3) as (v3 & ->). change (Ok v3 ≫= ?f) with (f v3). cbv beta.
      destruct (Hdec "squareSize") as [Hk4|H4].
      2: { exists "squareSize". rewrite (subscript_missing _ _ H4).
           split; [by repeat constructor | done]. }
      exfalso. repeat (apply elem_of_cons in Hkey as [->|Hkey]; [done|]).
      by apply elem_of_nil in Hkey. }
    exists k. split; [done|]. split; [done|]. by apply Hstop.
Qed.

Lemma trial_file_after_writes i p trials cbp cm cmp w3 w4 w' :
  trialFile i = Ok p →
  write_trial_info p trials cbp cm w3 = (Ok (), w4) →
  write_comparison i cmp w4 = (Ok (), w') →
  fs w' !! p = Some (yaml_dump (trialInfo_of trials cbp cm)).
Proof.
  intros Hp Hman Hcmp.
  destruct (dump_to_file_in_place _ _ _ _ _ Hman) as (_ & _ & Hfs4 & _).
  destruct (dump_to_file_in_place _ _ _ _ _ Hcmp) as (_ & _ & Hfs5 & _).
  rewrite Hfs5, lookup_insert_ne
    by (apply not_eq_sym; by apply trialFile_is_not_comparison).
  by rewrite Hfs4, lookup_insert_eq.
Qed.

(** X13.  A run that loads the trial file and completes writes it back
    with the same trials and the same checkerboard parameters: whatever
    wrote the file and in whatever order it holds its keys, the
    aggregation is given the values the file held under [trials],
    [nSquaresWidth], [nSquaresHeight] and [squareSize], the new file is the
    dump of the dictionary with these values, and only the camera model
    entry is renewed, with the model the aggregation returned. *)
Theorem rerun_keeps_the_trial_file
    (i : inputs) (p text : string) (doc trials wd ht sq : pyval)
    (w w' : world) :
  loadTrialInfo i = true →
  trialFile i = Ok p →
  fs w !! p = Some text →
  yaml_safe_load text = Ok doc →
  Py.subscript doc "trials" = Ok trials →
  Py.subscript doc "nSquaresWidth" = Ok wd →
  Py.subscript doc "nSquaresHeight" = Ok ht →
  Py.subscript doc "squareSize" = Ok sq →
  script i w = (Ok (), w') →
  ∃ avg lst cmp cm' files,
    computeAverageIntrinsics (sessionDir i) trials
      {| dimensions := (wd, ht); squareSize := sq |} 50 (cameraModel i)
      (videoType i) (fs w) = (Ok (avg, lst, cmp, cm'), files)
    ∧ fs w' !! p
      = Some (yaml_dump (PDict [("trials", trials);
                                ("nSquaresWidth", wd);
                                ("nSquaresHeight", ht);
                                ("squareSize", sq);
                                ("cameraModel", PStr cm')])).
Proof.
  intros Hon Hp Hfile Hyaml Ht Hw Hh Hs Hrun.
  pose proof Hrun as (p' & cbp0 & trials' & cbp' & avg & lst & cmp & cm'
                      & w2 & w3 & w4 & Hp' & Hmeta & Hload & Hagg & Hsave
                      & Hman & Hcmp)%script_Ok.
  rewrite Hp in Hp'. injection Hp' as <-.
  assert (faults w p ≠ OpenFails) as Hfault.
  { intros Hopen. revert Hload. unfold load_trial_info.
    rewrite Hon, path_exists_bind, Hfile.
    change (bool_decide (is_Some (Some ?x))) with true. cbv iota.
    unfold Os.read, mbind at 1, M_bind. by rewrite Hfile, Hopen. }
  rewrite (load_trial_info_reads_keys i p _ w text doc trials wd ht sq
             Hon Hfile Hfault Hyaml Ht Hw Hh Hs) in Hload.
  injection Hload as <- <-.
  destruct (aggregate_run _ _ _ _ _ _ Hagg) as (_ & _ & Hcall).
  exists avg, lst, cmp, cm', (fs w2). split; [done|].
  exact (trial_file_after_writes i p trials
           {| dimensions := (wd, ht); squareSize := sq |} cm' cmp
           w3 w4 w' Hp Hman Hcmp).
Qed.

End calc_intrinsics_stops.

(** ** The loader and the viewer together *)

Section loader_viewer.
Context {ext : Externals}.
Import VisualizePickle.

Lemma print_items_Ok (kvs : list (string * pyval)) :
  for_fold (λ _ kv, array2string kv.2) kvs () = Ok ()
  ↔ ∀ kv, kv ∈ kvs → is_array kv.2.
Proof.
  induction kvs as [|[k v] kvs IH]; simpl.
  - split; [|done]. intros _ kv Hkv. by apply elem_of_nil in Hkv.
  - destruct v; simpl;
      try (split; [discriminate|]; intros Hall;
           destruct (Hall (k, _) (list_elem_of_here _ _)) as (rows & Hrows);
           discriminate).
    rewrite IH. split.
    + intros Hall kv [->|Hkv]%elem_of_cons; [by eexists | by apply Hall].
    + intros Hall kv Hkv. apply Hall. apply elem_of_cons. by right.
Qed.

Lemma print_items_cases (kvs : list (string * pyval)) :
  for_fold (λ _ kv, array2string kv.2) kvs () = Ok ()
  ∨ for_fold (λ _ kv, array2string kv.2) kvs () = Raise AttributeError.
Proof.
  induction kvs as [|[k v] kvs IH]; simpl; [by left|].
  destruct v; simpl; auto.
Qed.

Lemma body_when_readable filepath w data :
  fs w !! filepath = Some data →
  faults w filepath ≠ OpenFails →
  load_intrinsics_body filepath w
  = (intrinsics ← pickle_load data;
     kvs ← Py.items intrinsics;
     for_fold (λ _ kv, array2string kv.2) kvs () ;;
     Ok intrinsics, w).
Proof.
  intros Hfile Hfault.
  assert (Os.read filepath w = (Ok data, w)) as Hread.
  { unfold Os.read. rewrite Hfile. by destruct (faults w filepath). }
  unfold load_intrinsics_body. rewrite (bind_Ok _ _ _ _ _ Hread), lift_bind.
  destruct (pickle_load data) as [v|]; [|done].
  rewrite lift_bind. change (Ok v ≫= ?f) with (f v). cbv beta.
  destruct (Py.items v) as [kvs|]; [|done].
  rewrite lift_bind. change (Ok kvs ≫= ?f) with (f kvs). cbv beta.
  by destruct (for_fold _ kvs ()) as [[]|].
Qed.

Lemma body_when_unreadable filepath w :
  fs w !! filepath = None ∨ faults w filepath = OpenFails →
  ∃ e, load_intrinsics_body filepath w = (Raise e, w).
Proof.
  unfold load_intrinsics_body, Os.read, mbind at 1, M_bind.
  intros [Hnone|Hopen].
  - rewrite Hnone. by eexists.
  - destruct (fs w !! filepath); rewrite ?Hopen; by eexists.
Qed.

Lemma load_dict_iff_body filepath w kvs :
  load_intrinsics_from_pickle filepath w = (Ok (PDict kvs), w)
  ↔ load_intrinsics_body filepath w = (Ok (PDict kvs), w).
Proof.
  unfold load_intrinsics_from_pickle, try_except.
  destruct (load_intrinsics_body filepath w) as [[v|e] w'] eqn:Hbody;
    pose proof (body_keeps_world _ _ _ _ Hbody) as ->; [done|].
  rewrite handler_returns_None. split; discriminate.
Qed.

(** X14.  The loader hands back the dictionary it unpickled exactly when
    the file is there, opens, unpickles to a dictionary, and every value of
    the dictionary is an array; a dictionary with any other value makes the
    print of the items fail, and the loader returns [None] for it. *)
Theorem loader_returns_dictionaries_of_arrays
    (filepath : string) (kvs : list (string * pyval)) (w : world) :
  load_intrinsics_from_pickle filepath w = (Ok (PDict kvs), w)
  ↔ ∃ data, fs w !! filepath = Some data
            ∧ faults w filepath ≠ OpenFails
            ∧ pickle_load data = Ok (PDict kvs)
            ∧ ∀ kv, kv ∈ kvs → is_array kv.2.
Proof.
  rewrite load_dict_iff_body. split.
  - intros Hbody.
    destruct (fs w !! filepath) as [data|] eqn:Hfile.
    2: { destruct (body_when_unreadable filepath w) as (e & He); [by left|].
         congruence. }
    assert (faults w filepath ≠ OpenFails) as Hfault.
    { intros Hopen.
      destruct (body_when_unreadable filepath w) as (e & He); [by right|].
      congruence. }
    rewrite (body_when_readable _ _ _ Hfile Hfault) in Hbody.
    exists data. split; [done|]. split; [done|].
    destruct (pickle_load data) as [v|]; [|discriminate].
    change (Ok v ≫= ?f) with (f v) in Hbody. cbv beta in Hbody.
    destruct v; try discriminate. simpl in Hbody.
    destruct (for_fold _ items ()) as [[]|] eqn:Hprint; [|discriminate].
    injection Hbody as ->. split; [done|]. by apply print_items_Ok.
  - intros (data & Hfile & Hfault & Hload & Hall).
    rewrite (body_when_readable _ _ _ Hfile Hfault), Hload. simpl.
    apply print_items_Ok in Hall. by rewrite Hall.
Qed.

End loader_viewer.

Section viewer_edges.
Context {ext : Externals}.
Import VisualizePickle.

Lemma subscript_value_in items key v :
  Py.subscript (PDict items) key = Ok v → ∃ kv, kv ∈ items ∧ kv.2 = v.
Proof.
  simpl. destruct (list_find _ items) as [[n kv]|] eqn:Hfind; [|discriminate].
  intros [= <-]. apply list_find_Some in Hfind as (Hkv & _).
  exists kv. split; [by eapply list_elem_of_lookup_2 | done].
Qed.

Lemma subscript2_array_cases rows i j :
  (∃ x, Py.subscript2 (PArray rows) i j = Ok x)
  ∨ Py.subscript2 (PArray rows) i j = Raise IndexError.
Proof.
  simpl. destruct (rows !! i) as [row|]; [|by right].
  destruct (row !! j); [left | right]; eauto.
Qed.

Lemma subscript2_wide rows i j :
  (∃ row, rows !! i = Some row ∧ (j < length row)%nat) →
  ∃ x, Py.subscript2 (PArray rows) i j = Ok x.
Proof.
  intros (row & Hrow & Hj). simpl. rewrite Hrow.
  destruct (lookup_lt_is_Some_2 row j Hj) as [x ->]. by exists x.
Qed.

Lemma subscript2_narrow rows i j :
  (∀ row, rows !! i = Some row → (length row ≤ j)%nat) →
  Py.subscript2 (PArray rows) i j = Raise IndexError.
Proof.
  intros Hnarrow. simpl. destruct (rows !! i) as [row|] eqn:Hrow; [|done].
  by rewrite (lookup_ge_None_2 row j (Hnarrow row eq_refl)).
Qed.

(** The four entries the viewer reads from the camera matrix. *)
Lemma matrix_entries K :
  (∃ a b c d, Py.subscript2 K 0 0 = Ok a ∧ Py.subscript2 K 1 1 = Ok b
              ∧ Py.subscript2 K 0 2 = Ok c ∧ Py.subscript2 K 1 2 = Ok d)
  ∨ ¬ (∃ r0 r1 rest, K = PArray (r0 :: r1 :: rest)
                      ∧ (3 ≤ length r0)%nat ∧ (3 ≤ length r1)%nat).
Proof.
  destruct K as [| | | | | | | |rows];
    try (right; by intros (? & ? & ? & [=] & _)).
  destruct rows as [|r0 [|r1 rest]];
    try (right; by intros (? & ? & ? & [=] & _)).
  destruct (decide (3 ≤ length r0)%nat) as [H0|H0];
    [|right; intros (? & ? & ? & [= <- <- <-] & ? & ?); lia].
  destruct (decide (3 ≤ length r1)%nat) as [H1|H1];
    [|right; intros (? & ? & ? & [= <- <- <-] & ? & ?); lia].
  left.
  destruct r0 as [|a [|a' [|c r0]]]; simpl in H0; try lia.
  destruct r1 as [|b' [|b [|d r1]]]; simpl in H1; try lia.
  by exists a, b, c, d.
Qed.

(** X15.  A record the viewer cannot draw for want of a key is refused
    without an exception: [None], an empty dictionary, a dictionary without
    ['intrinsicMat'], and a dictionary with a full camera matrix and no
    ['imageSize'] all make the viewer return before it plots. *)
Theorem viewer_refuses_incomplete_records
    (items : list (string * pyval)) :
  visualize_camera_intrinsics PNone = Ok None
  ∧ visualize_camera_intrinsics (PDict []) = Ok None
  ∧ ("intrinsicMat" ∉ items.*1 →
     visualize_camera_intrinsics (PDict items) = Ok None)
  ∧ (∀ r0 r1 rest,
       Py.subscript (PDict items) "intrinsicMat" = Ok (PArray (r0 :: r1 :: rest)) →
       (3 ≤ length r0)%nat → (3 ≤ length r1)%nat →
       "imageSize" ∉ items.*1 →
       visualize_camera_intrinsics (PDict items) = Ok None).
Proof.
  split; [done|]. split; [done|]. split.
  - intros Hmissing. unfold visualize_camera_intrinsics.
    change (Py.truth (PDict items)) with (Ok (negb (bool_decide (items = [])))).
    change (Ok ?b ≫= ?f) with (f b). cbv beta.
    destruct (negb (bool_decide (items = []))); [|done]. simpl negb. cbv iota.
    unfold extract_parameters. rewrite (subscript_missing _ _ Hmissing). done.
  - intros r0 r1 rest HK H0 H1 Hmissing. unfold visualize_camera_intrinsics.
    change (Py.truth (PDict items)) with (Ok (negb (bool_decide (items = [])))).
    change (Ok ?b ≫= ?f) with (f b). cbv beta.
    destruct (negb (bool_decide (items = []))); [|done]. simpl negb. cbv iota.
    unfold extract_parameters. rewrite HK.
    change (Ok ?b ≫= ?f) with (f b). cbv beta.
    destruct (matrix_entries (PArray (r0 :: r1 :: rest)))
      as [(a & b & c & d & -> & -> & -> & ->)|Hno].
    2: { exfalso. apply Hno. by exists r0, r1, rest. }
    repeat (change (Ok ?b ≫= ?f) with (f b); cbv beta).
    rewrite (subscript_missing _ _ Hmissing). done.
Qed.

(** X16.  Only [KeyError] is caught in the viewer: a camera matrix that is
    an array without two rows of three entries makes the viewer raise
    [IndexError], and so does, after a full camera matrix, an image size
    that is an array without two rows of one entry. *)
Theorem viewer_raises_on_short_arrays
    (items : list (string * pyval)) (rows : list (list Q)) :
  items ≠ [] →
  (Py.subscript (PDict items) "intrinsicMat" = Ok (PArray rows) →
   ¬ (∃ r0 r1 rest, rows = r0 :: r1 :: rest
                    ∧ (3 ≤ length r0)%nat ∧ (3 ≤ length r1)%nat) →
   visualize_camera_intrinsics (PDict items) = Raise IndexError)
  ∧ (∀ r0 r1 rest,
       Py.subscript (PDict items) "intrinsicMat" = Ok (PArray (r0 :: r1 :: rest)) →
       (3 ≤ length r0)%nat → (3 ≤ length r1)%nat →
       Py.subscript (PDict items) "imageSize" = Ok (PArray rows) →
       ¬ (∃ s0 s1 rest', rows = s0 :: s1 :: rest'
                         ∧ (1 ≤ length s0)%nat ∧ (1 ≤ length s1)%nat) →
       visualize_camera_intrinsics (PDict items) = Raise IndexError).
Proof.
  intros Hne.
  assert (visualize_camera_intrinsics (PDict items)
          = match extract_parameters (PDict items) with
            | Ok p => Ok (Some p)
            | Raise (KeyError _) => Ok None
            | Raise e => Raise e
            end) as Hvis.
  { unfold visualize_camera_intrinsics.
    change (Py.truth (PDict items)) with (Ok (negb (bool_decide (items = [])))).
    rewrite bool_decide_eq_false_2 by done. done. }
  split.
  - intros HK Hshort. rewrite Hvis. unfold extract_parameters.
    rewrite HK. change (Ok ?b ≫= ?f) with (f b). cbv beta.
    destruct rows as [|r0 [|r1 rest]]; [done| |].
    { destruct r0 as [|a [|a' [|c r0]]]; done. }
    destruct r0 as [|a [|a' [|c r0]]]; destruct r1 as [|b' [|b [|d r1]]];
      try done.
    exfalso. apply Hshort. eexists _, _, _. split; [done|]. simpl. lia.
  - intros r0 r1 rest HK H0 H1 HS Hshort. rewrite Hvis.
    unfold extract_parameters. rewrite HK.
    change (Ok ?b ≫= ?f) with (f b). cbv beta.
    destruct (matrix_entries (PArray (r0 :: r1 :: rest)))
      as [(a & b & c & d & -> & -> & -> & ->)|Hno].
    2: { exfalso. apply Hno. by exists r0, r1, rest. }
    repeat (change (Ok ?b ≫= ?f) with (f b); cbv beta).
    rewrite HS. change (Ok ?b ≫= ?f) with (f b). cbv beta.
    destruct rows as [|s0 [|s1 rest']]; [done| |].
    { by destruct s0. }
    destruct s0 as [|h s0]; [done|].
    destruct s1 as [|wd s1]; [done|].
    exfalso. apply Hshort. eexists _, _, _. split; [done|]. simpl. lia.
Qed.

End viewer_edges.

Section main_block.
Context {ext : Externals}.
Import VisualizePickle.

Lemma load_cases filepath w :
  load_intrinsics_from_pickle filepath w = (Ok PNone, w)
  ∨ ∃ kvs, load_intrinsics_from_pickle filepath w = (Ok (PDict kvs), w)
           ∧ ∀ kv, kv ∈ kvs → is_array kv.2.
Proof.
  destruct (load_intrinsics_body filepath w) as [[v|e] w'] eqn:Hbody;
    pose proof (body_keeps_world _ _ _ _ Hbody) as ->.
  - right. destruct (body_result _ _ _ Hbody) as (data & kvs & Hfile & Hload & ->).
    exists kvs. split; [by apply load_dict_iff_body|].
    assert (faults w filepath ≠ OpenFails) as Hfault.
    { intros Hopen.
      destruct (body_when_unreadable filepath w) as (e & He); [by right|].
      congruence. }
    rewrite (body_when_readable _ _ _ Hfile Hfault), Hload in Hbody.
    simpl in Hbody. apply print_items_Ok.
    by destruct (for_fold _ kvs ()) as [[]|].
  - left. unfold load_intrinsics_from_pickle, try_except. rewrite Hbody.
    apply handler_returns_None.
Qed.

Lemma subscript_arrays_cases kvs key :
  (∀ kv, kv ∈ kvs → is_array kv.2) →
  (∃ rows, Py.subscript (PDict kvs) key = Ok (PArray rows))
  ∨ Py.subscript (PDict kvs) key = Raise (KeyError key).
Proof.
  intros Hall. destruct (subscript_dict_cases kvs key) as [(v & Hv)|Hraise];
    [left | by right].
  destruct (subscript_value_in _ _ _ Hv) as (kv & Hkv & <-).
  destruct (Hall kv Hkv) as (rows & Hrows). exists rows. by rewrite Hv, Hrows.
Qed.

Lemma extract_arrays_cases kvs :
  (∀ kv, kv ∈ kvs → is_array kv.2) →
  (∃ p, extract_parameters (PDict kvs) = Ok p)
  ∨ (∃ k, extract_parameters (PDict kvs) = Raise (KeyError k))
  ∨ extract_parameters (PDict kvs) = Raise IndexError.
Proof.
  intros Hall. unfold extract_parameters.
  destruct (subscript_arrays_cases kvs "intrinsicMat" Hall) as [(K & ->)| ->];
    [|right; left; by eexists].
  change (Ok ?b ≫= ?f) with (f b). cbv beta.
  destruct (subscript2_array_cases K 0 0) as [(a & ->)| ->]; [|by right; right].
  change (Ok ?b ≫= ?f) with (f b). cbv beta.
  destruct (subscript2_array_cases K 1 1) as [(b & ->)| ->]; [|by right; right].
  change (Ok ?b ≫= ?f) with (f b). cbv beta.
  destruct (subscript2_array_cases K 0 2) as [(c & ->)| ->]; [|by right; right].
  change (Ok ?b ≫= ?f) with (f b). cbv beta.
  destruct (subscript2_array_cases K 1 2) as [(d & ->)| ->]; [|by right; right].
  change (Ok ?b ≫= ?f) with (f b). cbv beta.
  destruct (subscript_arrays_cases kvs "imageSize" Hall) as [(S & ->)| ->];
    [|right; left; by eexists].
  change (Ok ?b ≫= ?f) with (f b). cbv beta.
  destruct (subscript2_array_cases S 0 0) as [(h & ->)| ->]; [|by right; right].
  change (Ok ?b ≫= ?f) with (f b). cbv beta zeta.
  change (Ok ?b ≫= ?f) with (f b). cbv beta.
  destruct (subscript2_array_cases S 1 0) as [(wd & ->)| ->]; [|by right; right].
  left. by eexists.
Qed.

(** X17.  The main block of the viewer script, up to the plotting calls
    and for pickles whose arrays are those of [pyval], two-dimensional
    with finite real entries (an array of another rank is outside this
    statement: its entry [K[0, 0]] is an array again, and the format of
    line 41 can fail on it with a [TypeError] that nothing catches).
    Whatever the path, the only exception that can get out is the
    [IndexError] of an array that is too short, since the loader hands on
    nothing but dictionaries of arrays; nothing is changed; and for a path
    that holds no file nothing is drawn and nothing is raised. *)
Theorem main_block_raises_only_IndexError
    (YOUR_PICKLE_FILE : string) (w : world) (r : outcome (option frustum))
    (w' : world) :
  VisualizeMain.main YOUR_PICKLE_FILE w = (r, w') →
  w' = w
  ∧ (∀ e, r = Raise e → e = IndexError)
  ∧ (fs w !! YOUR_PICKLE_FILE = None → r = Ok None).
Proof.
  unfold VisualizeMain.main. intros Hrun.
  destruct (load_cases YOUR_PICKLE_FILE w) as [Hload|(kvs & Hload & Hall)];
    rewrite (bind_Ok _ _ _ _ _ Hload), lift_bind in Hrun.
  - injection Hrun as <- <-. by repeat split.
  - change (Py.truth (PDict kvs)) with (Ok (negb (bool_decide (kvs = []))))
      in Hrun. cbv iota in Hrun.
    assert (fs w !! YOUR_PICKLE_FILE = None → False) as Hthere.
    { intros Hnone. apply load_dict_iff_body in Hload.
      destruct (body_when_unreadable YOUR_PICKLE_FILE w) as (e & He);
        [by left|]. congruence. }
    destruct (negb (bool_decide (kvs = []))) eqn:Hshown.
    + unfold lift in Hrun. injection Hrun as <- <-.
      split; [done|]. split; [|by intros ?%Hthere].
      unfold visualize_camera_intrinsics.
      change (Py.truth (PDict kvs)) with (Ok (negb (bool_decide (kvs = [])))).
      rewrite Hshown. change (Ok ?b ≫= ?f) with (f b). cbv beta. simpl negb.
      cbv iota.
      destruct (extract_arrays_cases kvs Hall) as [(p & ->)|[(k & ->)| ->]];
        [discriminate | discriminate | by intros e [= <-]].
    + injection Hrun as <- <-. split; [done|]. split; [done|].
      by intros ?%Hthere.
Qed.

End main_block.

(** ** Marker dictionaries *)

Section setitem_facts.

Lemma subscript_setitem items key value :
  Py.subscript (PDict (PyDict.setitem items key value)) key = Ok value.
Proof.
  induction items as [|[k v] items IH]; simpl.
  - by destruct (decide (key = key)).
  - destruct (decide (k = key)) as [->|Hne]; simpl.
    + by destruct (decide (key = key)).
    + destruct (decide (k = key)) as [|_]; [done|]. simpl in IH.
      destruct (list_find _ (PyDict.setitem items key value)) as [[m kv]|];
        simpl; by inversion IH.
Qed.

Lemma subscript_setitem_ne items key value key' :
  key ≠ key' →
  Py.subscript (PDict (PyDict.setitem items key value)) key'
  = Py.subscript (PDict items) key'.
Proof.
  intros Hne. induction items as [|[k v] items IH]; simpl.
  - by destruct (decide (key = key')).
  - destruct (decide (k = key)) as [->|Hk]; simpl.
    + by destruct (decide (key = key')).
    + destruct (decide (k = key')) as [|_]; [done|]. simpl in IH.
      destruct (list_find _ (PyDict.setitem items key value)) as [[m kv]|];
        destruct (list_find _ items) as [[m' kv']|]; simpl in *; congruence.
Qed.

Lemma keys_setitem items key value key' :
  key' ∈ (PyDict.setitem items key value).*1 ↔ key' = key ∨ key' ∈ items.*1.
Proof.
  induction items as [|[k v] items IH]; simpl.
  - rewrite list_elem_of_singleton, elem_of_nil. tauto.
  - destruct (decide (k = key)) as [->|Hk]; simpl;
      rewrite !elem_of_cons, ?IH; tauto.
Qed.

Lemma nodup_setitem items key value :
  NoDup items.*1 → NoDup (PyDict.setitem items key value).*1.
Proof.
  induction items as [|[k v] items IH]; simpl; intros Hnd.
  - apply NoDup_singleton.
  - apply NoDup_cons in Hnd as [Hk Hnd].
    destruct (decide (k = key)) as [->|Hne]; simpl.
    + by apply NoDup_cons.
    + apply NoDup_cons. split; [|by apply IH].
      rewrite keys_setitem. by intros [?|?].
Qed.

End setitem_facts.

(** ** [trc_2_dict] *)

Section trc_facts.
Context {dataman : UtilsTRC.Dataman}.
Import UtilsTRC.

(** X18.  A path that holds no file: [trc_2_dict] raises
    [FileNotFoundError] with the message that names the path, whatever the
    TRC reader would have done with it, and changes nothing. *)
Theorem trc_2_dict_needs_the_file (trc_path : string) (w : world) :
  fs w !! trc_path = None →
  trc_2_dict trc_path w
  = (Raise (FileNotFoundError ("TRC file not found: " +:+ trc_path)), w).
Proof.
  intros Hnone. unfold trc_2_dict. rewrite path_exists_bind, Hnone. reflexivity.
Qed.

Lemma read_markers_loop (trc : trc_file) names markers0 :
  NoDup markers0.*1 →
  (∀ name, name ∈ names → ∃ data, marker trc name = Ok data) →
  ∃ markers,
    for_fold (λ markers name,
                data ← marker trc name;
                Ok (PyDict.setitem markers name data)) names markers0
    = Ok markers
    ∧ NoDup markers.*1
    ∧ (∀ name, name ∈ markers.*1 ↔ name ∈ names ∨ name ∈ markers0.*1)
    ∧ (∀ name, name ∈ names →
               Py.subscript (PDict markers) name = marker trc name)
    ∧ (∀ name, name ∉ names →
               Py.subscript (PDict markers) name
               = Py.subscript (PDict markers0) name).
Proof.
  revert markers0. induction names as [|n names IH]; intros markers0 Hnd Hok.
  - exists markers0. split; [done|]. split; [done|].
    split; [intros name; rewrite elem_of_nil; tauto|].
    split; [intros name Hin; by apply elem_of_nil in Hin | done].
  - destruct (Hok n) as (data & Hdata); [apply elem_of_cons; by left|].
    cbn [for_fold]. rewrite Hdata. change (Ok data ≫= ?f) with (f data).
    cbv beta iota.
    destruct (IH (PyDict.setitem markers0 n data)) as
      (markers & -> & Hnd' & Hkeys & Hin & Hout).
    { by apply nodup_setitem. }
    { intros name Hname. apply Hok. apply elem_of_cons. by right. }
    exists markers. split; [done|]. split; [done|]. split; [|split].
    + intros name. rewrite Hkeys, keys_setitem, elem_of_cons. tauto.
    + intros name Hname. apply elem_of_cons in Hname as [Heq|Hname];
        [|by apply Hin].
      subst name. destruct (decide (n ∈ names)) as [Hn|Hn]; [by apply Hin|].
      by rewrite (Hout n Hn), subscript_setitem.
    + intros name Hname. apply not_elem_of_cons in Hname as [Hne Hname].
      rewrite (Hout name Hname). by apply subscript_setitem_ne.
Qed.

(** X19.  When the file is there, the TRC reader opens it and every
    marker it names has data, [trc_2_dict] returns a dictionary with
    exactly the keys [time] and [markers]: [time] is the time column, and
    [markers] has one entry for each marker name, no more and none twice,
    holding the data of that marker. *)
Theorem trc_2_dict_collects_the_markers
    (trc_path data : string) (trc : trc_file) (w : world) :
  fs w !! trc_path = Some data →
  TRCFile trc_path (fs w) = Ok trc →
  (∀ name, name ∈ marker_names trc → ∃ v, marker trc name = Ok v) →
  ∃ markers,
    trc_2_dict trc_path w
    = (Ok (PDict [("time", time trc); ("markers", PDict markers)]), w)
    ∧ NoDup markers.*1
    ∧ (∀ name, name ∈ markers.*1 ↔ name ∈ marker_names trc)
    ∧ (∀ name, name ∈ marker_names trc →
               Py.subscript (PDict markers) name = marker trc name).
Proof.
  intros Hfile Htrc Hok.
  destruct (read_markers_loop trc (marker_names trc) [] (NoDup_nil_2) Hok)
    as (markers & Hloop & Hnd & Hkeys & Hin & _).
  exists markers. split; [|split; [done|split; [|done]]].
  - unfold trc_2_dict. rewrite path_exists_bind, Hfile.
    change (bool_decide (is_Some (Some ?x))) with true.
    change (negb true) with false. cbv iota.
    rewrite ask_bind, Htrc, lift_bind. unfold read_markers. by rewrite Hloop.
  - intros name. rewrite Hkeys, elem_of_nil. tauto.
Qed.

End trc_facts.

(** ** [ViewPickleFiles.py] *)

Section view_pickle_files.
Context {ext : Externals}.
Import ViewPickleFiles.

Lemma load_keeps_world path w r w' : load path w = (r, w') → w' = w.
Proof.
  unfold load, Os.read, mbind, M_bind.
  destruct (fs w !! path) as [data|]; [|by intros [= _ <-]].
  destruct (faults w path); try by intros [= _ <-].
  all: unfold lift; by intros [= _ <-].
Qed.

Lemma view_intrinsics_stops done camera rest w :
  (∀ c, c ∈ done → ∃ v, load (intrinsics_path c) w = (Ok v, w)) →
  fs w !! intrinsics_path camera = None →
  view_intrinsics (done ++ camera :: rest) w
  = (Raise (FileNotFoundError (intrinsics_path camera)), w).
Proof.
  intros Hdone Hnone. unfold view_intrinsics.
  induction done as [|c done IH]; simpl.
  - apply bind_Raise. apply bind_Raise.
    unfold load, Os.read, mbind, M_bind. by rewrite Hnone.
  - destruct (Hdone c) as (v & Hv); [apply elem_of_cons; by left|].
    assert ((load (intrinsics_path c) ;; mret ()) w = (Ok (), w)) as Hstep
      by (by rewrite (bind_Ok _ _ _ _ _ Hv)).
    rewrite (bind_Ok _ _ _ _ _ Hstep). apply IH.
    intros c' Hc'. apply Hdone. apply elem_of_cons. by right.
Qed.

(** X20.  [ViewPickleFiles.py] has no handler around its loads: at the
    first camera of its list whose deployed record is missing, the cameras
    before it having loaded, the script stops with [FileNotFoundError] for
    the path of that record, and the cameras after it are not looked at. *)
Theorem view_pickle_files_stops_at_the_first_missing_record
    (done rest : list string) (camera : string) (w : world) :
  cameras = done ++ camera :: rest →
  (∀ c, c ∈ done → ∃ data v, fs w !! intrinsics_path c = Some data
                             ∧ faults w (intrinsics_path c) ≠ OpenFails
                             ∧ pickle_load data = Ok v) →
  fs w !! intrinsics_path camera = None →
  script w = (Raise (FileNotFoundError (intrinsics_path camera)), w).
Proof.
  intros Hsplit Hdone Hnone. unfold script. rewrite Hsplit.
  apply bind_Raise. apply view_intrinsics_stops; [|done].
  intros c Hc. destruct (Hdone c Hc) as (data & v & Hfile & Hfault & Hload).
  exists v. unfold load, Os.read, mbind, M_bind. rewrite Hfile.
  destruct (faults w (intrinsics_path c)); try done; unfold lift; by rewrite Hload.
Qed.

End view_pickle_files.

(** ** [GetAndPlotMTULengths.py]: the names of the plot files *)

Section plot_names.
Import PyText MTULengths.

Lemma sanitize_kept s c :
  In c (list_ascii_of_string (sanitize s)) → kept c = true.
Proof.
  induction s as [|a s IH]; simpl; [done|]. intros [<-|Hc]; [|by apply IH].
  by destruct (kept a) eqn:Ha.
Qed.

Lemma lstrip_chars s c :
  In c (list_ascii_of_string (lstrip s)) → In c (list_ascii_of_string s).
Proof.
  induction s as [|a s IH]; simpl; [done|].
  destruct (isspace a); [right; by apply IH | done].
Qed.

Lemma rstrip_chars s c :
  In c (list_ascii_of_string (rstrip s)) → In c (list_ascii_of_string s).
Proof.
  revert c. induction s as [|a s IH]; intros c; simpl; [done|].
  destruct (rstrip s) as [|b r] eqn:Hr.
  - destruct (isspace a); simpl; [done|]. intros [<-|[]]. by left.
  - simpl. intros [<-|Hc]; [by left|]. right. by apply IH.
Qed.

Lemma lstrip_head s c rest : lstrip s = String c rest → isspace c = false.
Proof.
  induction s as [|a s IH]; simpl; [done|].
  destruct (isspace a) eqn:Ha; [done|]. by intros [= <- _].
Qed.

Lemma rstrip_head s c :
  isspace c = false → ∃ r, rstrip (String c s) = String c r.
Proof.
  intros Hc. simpl. destruct (rstrip s); [rewrite Hc|]; eauto.
Qed.

Lemma rstrip_last s c : PyStr.last (rstrip s) = Some c → isspace c = false.
Proof.
  induction s as [|a s IH]; simpl; [done|].
  destruct (rstrip s) as [|b r] eqn:Hr.
  - destruct (isspace a) eqn:Ha; simpl; [done|]. by intros [= <-].
  - exact IH.
Qed.

Lemma rstrip_rstrip s : rstrip (rstrip s) = rstrip s.
Proof.
  induction s as [|a s IH]; simpl; [done|].
  destruct (rstrip s) as [|b r] eqn:Hr.
  - destruct (isspace a) eqn:Ha; simpl; [done|]. by rewrite Ha.
  - change (rstrip (String a (String b r))) with
      (match rstrip (String b r) with
       | EmptyString => if isspace a then EmptyString else String a EmptyString
       | r' => String a r'
       end).
    by rewrite IH.
Qed.

Lemma strip_head s c rest : strip s = String c rest → isspace c = false.
Proof.
  unfold strip. destruct (lstrip s) as [|a t] eqn:Hl; [done|].
  pose proof (lstrip_head _ _ _ Hl) as Ha.
  destruct (rstrip_head t a Ha) as (r & ->). by intros [= <- _].
Qed.

Lemma strip_strip s : strip (strip s) = strip s.
Proof.
  unfold strip. destruct (lstrip s) as [|a t] eqn:Hl; [done|].
  pose proof (lstrip_head _ _ _ Hl) as Ha.
  destruct (rstrip_head t a Ha) as (r & Hr).
  assert (lstrip (rstrip (String a t)) = rstrip (String a t)) as ->
    by (rewrite Hr; simpl; by rewrite Ha).
  apply rstrip_rstrip.
Qed.

Lemma sanitize_id s :
  (∀ c, In c (list_ascii_of_string s) → kept c = true) → sanitize s = s.
Proof.
  induction s as [|a s IH]; simpl; [done|]. intros Hs.
  rewrite (Hs a) by (by left). f_equal. apply IH. intros c Hc. apply Hs.
  by right.
Qed.

Lemma safe_name_kept trial_name c :
  In c (list_ascii_of_string (safe_name trial_name)) → kept c = true.
Proof.
  intros Hc. apply (sanitize_kept trial_name).
  by apply lstrip_chars, rstrip_chars.
Qed.

Lemma suffix_shape (t s : string) :
  t ≠ "" → PyStr.endswith OsPath.sep t = false →
  s +:+ t ≠ "" ∧ PyStr.endswith OsPath.sep (s +:+ t) = false.
Proof.
  intros Hne Hend. induction s as [|a s [IH1 IH2]]; [done|].
  rewrite app_cons. split; [done|].
  change (PyStr.endswith ?p (String ?c ?r))
    with (bool_decide (String c r = p) || PyStr.endswith p r).
  rewrite IH2, bool_decide_eq_false_2; [done|]. by intros [= _ ?].
Qed.

Lemma plots_dir_shape script_dir :
  plots_dir script_dir ≠ ""
  ∧ PyStr.endswith OsPath.sep (plots_dir script_dir) = false.
Proof.
  unfold plots_dir, OsPath.join, OsPath.join2. simpl foldl.
  change (PyStr.startswith OsPath.sep "plots") with false. cbv iota.
  destruct (bool_decide (script_dir = "") || PyStr.endswith OsPath.sep script_dir).
  - by apply suffix_shape.
  - by apply (suffix_shape (OsPath.sep +:+ "plots")).
Qed.

Lemma safe_file_is_relative trial_name ext :
  PyStr.startswith OsPath.sep (safe_name trial_name +:+ String "_" ext) = false.
Proof.
  destruct (safe_name trial_name) as [|c rest] eqn:Hname; [done|].
  rewrite app_cons. simpl.
  assert (kept c = true) as Hc
    by (apply (safe_name_kept trial_name); rewrite Hname; by left).
  rewrite bool_decide_eq_false_2; [done|]. by intros <-.
Qed.

(** X21.  Whatever the trial name, the name used for the plot files
    consists of alphanumeric characters, blanks, hyphens and underscores
    only (so of no path separator, dot or colon), and neither begins nor
    ends with white space. *)
Theorem safe_name_keeps_only_safe_characters (trial_name : string) :
  (∀ c, In c (list_ascii_of_string (safe_name trial_name)) →
        kept c = true
        ∧ c ≠ "/"%char ∧ c ≠ "\"%char ∧ c ≠ "."%char ∧ c ≠ ":"%char)
  ∧ (∀ c rest, safe_name trial_name = String c rest → isspace c = false)
  ∧ (∀ c, PyStr.last (safe_name trial_name) = Some c → isspace c = false).
Proof.
  split; [|split].
  - intros c Hc. pose proof (safe_name_kept _ _ Hc) as Hk.
    split; [done|]. repeat split; by intros ->.
  - intros c rest. apply strip_head.
  - intros c. apply rstrip_last.
Qed.

(** X22.  Both plot files are written directly into the [plots] folder
    beside the script: the trial name contributes to the file name only,
    and cannot turn the path into an absolute one or add a folder level. *)
Theorem plot_files_stay_in_the_plots_folder (script_dir trial_name : string) :
  png_path script_dir trial_name
  = plots_dir script_dir +:+ "/" +:+ safe_name trial_name +:+ "_bflh_mtu.png"
  ∧ pdf_path script_dir trial_name
    = plots_dir script_dir +:+ "/" +:+ safe_name trial_name +:+ "_bflh_mtu.pdf"
  ∧ PyStr.str_in "/" (safe_name trial_name) = false.
Proof.
  destruct (plots_dir_shape script_dir) as [Hne Hend].
  split; [|split].
  - unfold png_path, OsPath.join.
    change (foldl OsPath.join2 ?a [?b]) with (OsPath.join2 a b).
    unfold OsPath.join2.
    rewrite (safe_file_is_relative trial_name "bflh_mtu.png"), Hend.
    by rewrite bool_decide_eq_false_2.
  - unfold pdf_path, OsPath.join.
    change (foldl OsPath.join2 ?a [?b]) with (OsPath.join2 a b).
    unfold OsPath.join2.
    rewrite (safe_file_is_relative trial_name "bflh_mtu.pdf"), Hend.
    by rewrite bool_decide_eq_false_2.
  - pose proof (safe_name_kept trial_name) as Hk.
    induction (safe_name trial_name) as [|c s IH]; [done|].
    rewrite str_in_cons.
    assert (kept c = true) as Hc by (apply Hk; by left).
    rewrite IH by (intros c' Hc'; apply Hk; by right).
    simpl. rewrite bool_decide_eq_false_2; [done|]. by intros <-.
Qed.

(** X23.  Cleaning a name that is already clean changes nothing; so a
    trial name and its cleaned form share their plot files, and the files
    of one overwrite those of the other. *)
Theorem safe_name_is_idempotent (script_dir trial_name : string) :
  safe_name (safe_name trial_name) = safe_name trial_name
  ∧ png_path script_dir (safe_name trial_name) = png_path script_dir trial_name
  ∧ pdf_path script_dir (safe_name trial_name) = pdf_path script_dir trial_name.
Proof.
  assert (safe_name (safe_name trial_name) = safe_name trial_name) as Hid.
  { unfold safe_name at 1.
    rewrite (sanitize_id (safe_name trial_name)) by apply safe_name_kept.
    apply strip_strip. }
  unfold png_path, pdf_path. by rewrite Hid.
Qed.

End plot_names.

(** ** [extract_subject_id_from_session] *)

Section subject_id.
Context {builtins : SubjectId.Builtins}.
Import PyText SubjectId.

Lemma replace_absent old new s :
  PyStr.str_in old s = false → replace_from old new 0 s = s.
Proof.
  induction s as [|c s IH]; [done|]. rewrite str_in_cons.
  intros [Hhd Htl]%orb_false_elim.
  cbn [replace_from]. rewrite Hhd. f_equal. by apply IH.
Qed.

Lemma replace_skip old new k pre s :
  String.length pre = k → replace_from old new k (pre +:+ s)
                          = replace_from old new 0 s.
Proof.
  revert k. induction pre as [|c pre IH]; intros k <-; [done|].
  rewrite app_cons. destruct s as [|d s].
  - rewrite str_app_nil_r. clear IH. simpl String.length.
    induction pre as [|e pre IH]; [done|]. simpl. exact IH.
  - simpl String.length. cbn [replace_from]. by apply IH.
Qed.

Lemma startswith_app p s : PyStr.startswith p (p +:+ s) = true.
Proof.
  induction p as [|c p IH]; [by destruct s|]. rewrite app_cons. simpl.
  by rewrite bool_decide_eq_true_2.
Qed.

Lemma replace_prefix old new rest :
  old ≠ "" → replace old new (old +:+ rest) = new +:+ replace old new rest.
Proof.
  destruct old as [|c old]; [done|]. intros _. unfold replace.
  rewrite app_cons. cbn [replace_from].
  change (String c (old +:+ rest)) with (String c old +:+ rest).
  rewrite startswith_app.
  replace (String.length (String c old) - 1)%nat with (String.length old)
    by (simpl; lia).
  by rewrite (replace_skip _ _ (String.length old) old rest eq_refl).
Qed.

(** X24.  A session name without [subject] in it (in any case) never gets
    a number: the fall-back branch uses the module [re], which the script
    does not import, and the [NameError] is not among the exceptions the
    function handles. *)
Theorem session_without_subject_is_a_NameError (session_name : string) :
  PyStr.str_in "subject" (PyStr.lower session_name) = false →
  extract_subject_id_from_session session_name = Raise (NameError "re").
Proof.
  intros Hno. unfold extract_subject_id_from_session, extract_body.
  by rewrite Hno.
Qed.

(** X25.  For a session name that is [subject], in any case, followed by
    text without a further [subject], the function hands exactly that text
    to [int]: it returns the number read, [None] when [int] rejects the
    text, and it adds no failure of its own. *)
Theorem subject_prefix_is_dropped_before_parsing (session_name rest : string) :
  PyStr.lower session_name = "subject" +:+ rest →
  PyStr.str_in "subject" rest = false →
  extract_subject_id_from_session session_name
  = match int rest with
    | Ok n => Ok (PInt n)
    | Raise ValueError | Raise AttributeError => Ok PNone
    | Raise e => Raise e
    end.
Proof.
  intros Hlower Hrest. unfold extract_subject_id_from_session, extract_body.
  rewrite Hlower.
  assert (PyStr.str_in "subject" ("subject" +:+ rest) = true) as ->.
  { rewrite app_cons, str_in_cons.
    change (String "s" ("ubject" +:+ rest)) with ("subject" +:+ rest).
    by rewrite startswith_app. }
  rewrite replace_prefix by done. change ("" +:+ ?x) with x.
  unfold replace. rewrite replace_absent by done.
  destruct (int rest) as [n|[]]; done.
Qed.

End subject_id.

(** * The further properties on examples *)

Ltac in_list H :=
  repeat (apply elem_of_cons in H as [->|H]; [reflexivity|]);
  by apply elem_of_nil in H.

Ltac not_in_list :=
  let H := fresh in
  intros H; repeat (apply elem_of_cons in H as [H|H]; [discriminate|]);
  by apply elem_of_nil in H.

(** Witness of X1: two folders name the extrinsics trial. *)
Lemma two_cameras_order_in_full_witness :
  let trials_tmp := ["walking1"; "Extrinsics"; "Static1"; "extrinsics_2"] in
  ∃ i, Py.index_of "extrinsics_2" trials_tmp = Some i
       ∧ trials_tmp !! i = Some "extrinsics_2"
       ∧ TwoCameras.reorder trials_tmp None
         = Ok ("extrinsics_2" ::
                 List.filter (λ trial, negb (Reprocess.names_extrinsics trial))
                             trials_tmp, Some i).
Proof.
  intros trials_tmp.
  exact (two_cameras_order_in_full trials_tmp None "extrinsics_2" eq_refl).
Defined.

(** Witness of X2: the same folders; [Extrinsics] is dropped. *)
Lemma two_cameras_order_keeps_or_drops_witness :
  let trials_tmp := ["walking1"; "Extrinsics"; "Static1"; "extrinsics_2"] in
  ∃ trials idx',
    TwoCameras.reorder trials_tmp None = Ok (trials, idx')
    ∧ (List.filter Reprocess.names_extrinsics trials_tmp = ["extrinsics_2"] →
       trials ≡ₚ trials_tmp)
    ∧ (∀ t, t ∈ trials ↔
            t ∈ trials_tmp
            ∧ (Reprocess.names_extrinsics t = false ∨ t = "extrinsics_2")).
Proof.
  intros trials_tmp.
  exact (two_cameras_order_keeps_or_drops trials_tmp None "extrinsics_2"
           eq_refl).
Defined.

(** Witness of X3: a later session without an extrinsics folder. *)
Lemma two_cameras_order_without_extrinsics_witness :
  let trials_tmp := ["walking1"; "Static1"] in
  TwoCameras.reorder trials_tmp (Some 1%nat)
  = Ok ("Static1" :: trials_tmp, Some 1%nat).
Proof.
  intros trials_tmp.
  assert (∀ t, t ∈ trials_tmp → Reprocess.names_extrinsics t = false) as Hno
    by (intros t Ht; in_list Ht).
  exact (two_cameras_order_without_extrinsics trials_tmp (Some 1%nat) Hno).
Defined.

(** Witness of X4: a session with one folder of each kind. *)
Lemma three_cameras_order_in_full_witness :
  let trials_tmp := ["walking1"; "Extrinsics"; "Static1"; "squats"] in
  let v := {| ThreeCameras.extrinsics_idx := None;
              ThreeCameras.static_idx := None |} in
  ∃ i j trials,
    trials_tmp !! i = Some "Extrinsics" ∧ trials_tmp !! j = Some "Static1"
    ∧ trials = "Extrinsics" :: "Static1" ::
                 List.filter (λ trial, negb (Reprocess.names_static trial)
                                       && negb (Reprocess.names_extrinsics trial))
                             trials_tmp
    ∧ ThreeCameras.reorder trials_tmp v
      = Ok (trials, {| ThreeCameras.extrinsics_idx := Some i;
                       ThreeCameras.static_idx := Some j |})
    ∧ (List.filter Reprocess.names_extrinsics trials_tmp = ["Extrinsics"] →
       List.filter Reprocess.names_static trials_tmp = ["Static1"] →
       Reprocess.names_static "Extrinsics" = false →
       trials ≡ₚ trials_tmp).
Proof.
  intros trials_tmp v.
  exact (three_cameras_order_in_full trials_tmp v "Extrinsics" "Static1"
           eq_refl eq_refl).
Defined.

(** Witness of X5: a first session with no static folder. *)
Lemma three_cameras_order_without_static_witness :
  let trials_tmp := ["walking1"; "Extrinsics"] in
  let v := {| ThreeCameras.extrinsics_idx := None;
              ThreeCameras.static_idx := None |} in
  ThreeCameras.reorder trials_tmp v = Raise (NameError "static_idx").
Proof.
  intros trials_tmp v.
  assert (∀ t, t ∈ trials_tmp → Reprocess.names_static t = false) as Hno
    by (intros t Ht; in_list Ht).
  exact (three_cameras_order_without_static trials_tmp v "Extrinsics"
           eq_refl Hno).
Defined.

(** Witness of X6: a two-camera session with two trials. *)
Lemma process_trial_calls_follow_the_schedule_witness :
  let i := SampleSession.inputs "2-cameras" in
  let trials := ["Extrinsics"; "walking1"] in
  let w := Sample.start ∅ in
  let run := TwoCameras.process_trials (ext := Sample.externals)
               i "subject2" trials w in
  ∃ evs, trace run.2 = trace w ++ evs
         ∧ process_events evs
             `prefix_of` Schedule.two_cameras i "subject2" trials
         ∧ (run.1 = Ok () →
            process_events evs = Schedule.two_cameras i "subject2" trials).
Proof.
  intros i trials w run.
  exact (process_trial_calls_follow_the_schedule (ext := Sample.externals)
           i "subject2" trials false w run.1 run.2 (surjective_pairing run)).
Defined.

(** Witness of X7: a setup of four cameras. *)
Lemma unknown_camera_setup_is_a_KeyError_witness :
  let i := SampleSession.inputs "4-cameras" in
  let w := Sample.start ∅ in
  TwoCameras.process_trials (ext := Sample.externals) i "subject2" ["walking1"] w
  = (Raise (KeyError "4-cameras"), w)
  ∧ ThreeCameras.process_trials (ext := Sample.externals) i "subject2"
      ["walking1"] w
    = (Raise (KeyError "4-cameras"), w).
Proof.
  intros i w.
  assert ("4-cameras" ∉ ["5-cameras"; "3-cameras"; "2-cameras"]) as Hno
    by not_in_list.
  exact (unknown_camera_setup_is_a_KeyError (ext := Sample.externals)
           i "subject2" ["walking1"] "OpenPose" "4-cameras" [] [] w
           eq_refl eq_refl Hno).
Defined.

(** Witness of X9: the script with no trial. *)
Lemma empty_trial_list_is_an_IndexError_witness :
  let w := Sample.start ∅ in
  CalcIntrinsics.script (ext := Sample.externals) SampleSession.no_trials w
  = (Raise IndexError, w).
Proof.
  intros w.
  exact (empty_trial_list_is_an_IndexError (ext := Sample.externals)
           SampleSession.no_trials w eq_refl).
Defined.

(** Witness of X10: a trial file with an empty list of trials, which the
    sample aggregation refuses. *)
Lemma failed_aggregation_writes_nothing_witness :
  let i := Sample.user_inputs true in
  let p := SampleSession.trial_file in
  let text := "{trials: [], nSquaresWidth: 8, nSquaresHeight: 11, squareSize: 60, cameraModel: SONYRX0-II-Cam4b}" in
  let w := Sample.start {[p := text]} in
  ∃ w', CalcIntrinsics.script (ext := Sample.externals) i w
        = (Raise ValueError, w')
        ∧ fs w' = fs w
        ∧ fs w' !! p = Some text
        ∧ save_events (trace w') = [].
Proof.
  intros i p text w.
  pose (cbp := {| dimensions := (PInt 8, PInt 11); squareSize := PInt 60 |}).
  assert (CalcIntrinsics.read_metadata (ext := Sample.externals) i
            (CalcIntrinsics.CheckerBoardParams i) w = (Ok cbp, w)) as Hmeta
    by (vm_compute; reflexivity).
  assert (CalcIntrinsics.load_trial_info (ext := Sample.externals) i p
            (PList (PStr <$> CalcIntrinsics.trials i), cbp) w
          = (Ok (PList [], cbp), w)) as Hload
    by (vm_compute; reflexivity).
  assert (computeAverageIntrinsics (Externals := Sample.externals)
            (CalcIntrinsics.sessionDir i) (PList []) cbp 50
            (CalcIntrinsics.cameraModel i) (CalcIntrinsics.videoType i) (fs w)
          = (Raise ValueError, fs w)) as Hagg
    by reflexivity.
  destruct (failed_aggregation_writes_nothing (ext := Sample.externals)
              i p cbp cbp (PList []) ValueError (fs w) w
              eq_refl Hmeta Hload Hagg)
    as (w' & Hrun & Hfs & _ & _ & Hsave).
  exists w'. split; [exact Hrun|]. split; [exact Hfs|].
  split; [by rewrite Hfs | exact Hsave].
Defined.

(** Witness of X11: the trial file of an earlier run names other
    parameters than the script. *)
Lemma trial_file_overrides_metadata_witness :
  let i := Sample.user_inputs true in
  let p := SampleSession.trial_file in
  let text := "{trials: [Cam4c], nSquaresWidth: 4, nSquaresHeight: 5, squareSize: 35, cameraModel: SONYRX0-II-Cam4b}" in
  let w := Sample.start {[p := text]} in
  CalcIntrinsics.script (ext := Sample.externals) i w
  = CalcIntrinsics.calibrate (ext := Sample.externals) i p
      (PList [PStr "Cam4c"])
      {| dimensions := (PInt 4, PInt 5); squareSize := PInt 35 |} w.
Proof.
  intros i p text w.
  pose (cbp := {| dimensions := (PInt 8, PInt 11); squareSize := PInt 60 |}).
  pose (info := PDict [("trials", PList [PStr "Cam4c"]);
                       ("nSquaresWidth", PInt 4); ("nSquaresHeight", PInt 5);
                       ("squareSize", PInt 35);
                       ("cameraModel", PStr "SONYRX0-II-Cam4b")]).
  assert (CalcIntrinsics.read_metadata (ext := Sample.externals) i
            (CalcIntrinsics.CheckerBoardParams i) w = (Ok cbp, w)) as Hmeta
    by (vm_compute; reflexivity).
  assert (fs w !! p = Some text) as Hfile by (vm_compute; reflexivity).
  assert (faults w p ≠ OpenFails) as Hfault by done.
  assert (yaml_safe_load (Externals := Sample.externals) text = Ok info)
    as Hyaml by (vm_compute; reflexivity).
  exact (trial_file_overrides_metadata (ext := Sample.externals)
           i p text cbp info (PList [PStr "Cam4c"]) (PInt 4) (PInt 5) (PInt 35)
           w eq_refl eq_refl Hmeta Hfile Hfault Hyaml
           eq_refl eq_refl eq_refl eq_refl).
Defined.

(** Witness of X12: a trial file that holds the trials and nothing else. *)
Lemma unusable_trial_file_stops_the_run_witness :
  let i := Sample.user_inputs true in
  let p := SampleSession.trial_file in
  let text := "{trials: [Cam4b]}" in
  let w := Sample.start {[p := text]} in
  let items := [("trials", PList [PStr "Cam4b"])] in
  ∃ k, k ∈ ["trials"; "nSquaresWidth"; "nSquaresHeight"; "squareSize"]
       ∧ (k ∉ items.*1)
       ∧ CalcIntrinsics.script (ext := Sample.externals) i w
         = (Raise (KeyError k), w).
Proof.
  intros i p text w items.
  pose (cbp := {| dimensions := (PInt 8, PInt 11); squareSize := PInt 60 |}).
  assert (CalcIntrinsics.read_metadata (ext := Sample.externals) i
            (CalcIntrinsics.CheckerBoardParams i) w = (Ok cbp, w)) as Hmeta
    by (vm_compute; reflexivity).
  assert (fs w !! p = Some text) as Hfile by (vm_compute; reflexivity).
  assert (faults w p ≠ OpenFails) as Hfault by done.
  assert (yaml_safe_load (Externals := Sample.externals) text
          = Ok (PDict items)) as Hyaml by (vm_compute; reflexivity).
  assert ("nSquaresWidth"
            ∈ ["trials"; "nSquaresWidth"; "nSquaresHeight"; "squareSize"])
    as Hkey by (apply elem_of_cons; right; apply elem_of_cons; by left).
  assert ("nSquaresWidth" ∉ items.*1) as Hmissing by not_in_list.
  exact (proj2 (unusable_trial_file_stops_the_run (ext := Sample.externals)
                  i p text cbp w eq_refl eq_refl Hmeta Hfile Hfault)
           items "nSquaresWidth" Hyaml Hkey Hmissing).
Defined.

(** Witness of X13: a second run over a trial file with sorted keys and
    an entry the script does not read, with a PyYAML that sorts the keys. *)
Lemma rerun_keeps_the_trial_file_witness :
  let i := Sample.user_inputs true in
  let p := SampleSession.trial_file in
  let text := "{cameraModel: Cam4, nSquaresHeight: 5, nSquaresWidth: 4, note: first, squareSize: 35, trials: [Cam4c]}" in
  let w := Sample.start {[p := text]} in
  let w' := (CalcIntrinsics.script (ext := SampleSorted.externals) i w).2 in
  CalcIntrinsics.script (ext := SampleSorted.externals) i w = (Ok (), w')
  ∧ fs w' !! p
    = Some "{cameraModel: SONYRX0-II-Cam4b, nSquaresHeight: 5, nSquaresWidth: 4, squareSize: 35, trials: [Cam4c]}".
Proof.
  intros i p text w w'.
  pose (doc := PDict [("cameraModel", PStr "Cam4"); ("nSquaresHeight", PInt 5);
                      ("nSquaresWidth", PInt 4); ("note", PStr "first");
                      ("squareSize", PInt 35);
                      ("trials", PList [PStr "Cam4c"])]).
  assert (CalcIntrinsics.script (ext := SampleSorted.externals) i w
          = (Ok (), w')) as Hrun by (vm_compute; reflexivity).
  assert (fs w !! p = Some text) as Hfile by (vm_compute; reflexivity).
  assert (yaml_safe_load (Externals := SampleSorted.externals) text = Ok doc)
    as Hyaml by (vm_compute; reflexivity).
  split; [exact Hrun|].
  destruct (rerun_keeps_the_trial_file (ext := SampleSorted.externals)
              i p text doc (PList [PStr "Cam4c"]) (PInt 4) (PInt 5) (PInt 35)
              w w' eq_refl eq_refl Hfile Hyaml eq_refl eq_refl eq_refl eq_refl
              Hrun)
    as (avg & lst & cmp & cm' & files & Hagg & Hnew).
  injection Hagg as _ _ _ <- _. exact Hnew.
Defined.

(** Witness of X15: a full camera matrix and no image size. *)
Lemma viewer_refuses_incomplete_records_witness :
  VisualizePickle.visualize_camera_intrinsics
    (PDict [("intrinsicMat", PArray [[1000 # 1; 0 # 1; 640 # 1];
                                     [0 # 1; 1000 # 1; 360 # 1];
                                     [0 # 1; 0 # 1; 1 # 1]])])
  = Ok None.
Proof.
  refine (proj2 (proj2 (proj2
            (viewer_refuses_incomplete_records
               [("intrinsicMat", PArray [[1000 # 1; 0 # 1; 640 # 1];
                                         [0 # 1; 1000 # 1; 360 # 1];
                                         [0 # 1; 0 # 1; 1 # 1]])])))
            _ _ _ eq_refl _ _ _).
  - simpl; lia.
  - simpl; lia.
  - not_in_list.
Defined.

(** Witness of X16: a camera matrix of one short row. *)
Lemma viewer_raises_on_short_arrays_witness :
  VisualizePickle.visualize_camera_intrinsics
    (PDict [("intrinsicMat", PArray [[1000 # 1; 0 # 1]])])
  = Raise IndexError.
Proof.
  refine (proj1 (viewer_raises_on_short_arrays
                   [("intrinsicMat", PArray [[1000 # 1; 0 # 1]])]
                   [[1000 # 1; 0 # 1]] _) eq_refl _).
  - done.
  - by intros (r0 & r1 & rest & [=] & _).
Defined.

(** Witness of X17: the main block on a path that holds no file. *)
Lemma main_block_raises_only_IndexError_witness :
  let w := Sample.start ∅ in
  let run := VisualizeMain.main (ext := Sample.externals)
               "cameraIntrinsics.pickle" w in
  run.2 = w
  ∧ (∀ e, run.1 = Raise e → e = IndexError)
  ∧ (fs w !! "cameraIntrinsics.pickle" = None → run.1 = Ok None).
Proof.
  intros w run.
  exact (main_block_raises_only_IndexError (ext := Sample.externals)
           "cameraIntrinsics.pickle" w run.1 run.2 (surjective_pairing run)).
Defined.

(** Witness of X18: no file at the path. *)
Lemma trc_2_dict_needs_the_file_witness :
  let w := Sample.start ∅ in
  UtilsTRC.trc_2_dict (dataman := SampleSession.dataman) "/data/walk.trc" w
  = (Raise (FileNotFoundError "TRC file not found: /data/walk.trc"), w).
Proof.
  intros w.
  exact (trc_2_dict_needs_the_file (dataman := SampleSession.dataman)
           "/data/walk.trc" w eq_refl).
Defined.

(** Witness of X19: a file with two markers, one of them named twice. *)
Lemma trc_2_dict_collects_the_markers_witness :
  let data := "C7 r_shoulder C7" in
  let w := Sample.start {["/data/walk.trc" := data]} in
  let trc := SampleSession.trc_of data in
  ∃ markers,
    UtilsTRC.trc_2_dict (dataman := SampleSession.dataman) "/data/walk.trc" w
    = (Ok (PDict [("time", UtilsTRC.time trc); ("markers", PDict markers)]), w)
    ∧ NoDup markers.*1
    ∧ (∀ name, name ∈ markers.*1 ↔ name ∈ UtilsTRC.marker_names trc)
    ∧ (∀ name, name ∈ UtilsTRC.marker_names trc →
               Py.subscript (PDict markers) name = UtilsTRC.marker trc name).
Proof.
  intros data w trc.
  assert (fs w !! "/data/walk.trc" = Some data) as Hfile
    by (vm_compute; reflexivity).
  assert (UtilsTRC.TRCFile (Dataman := SampleSession.dataman)
            "/data/walk.trc" (fs w) = Ok trc) as Htrc
    by (unfold UtilsTRC.TRCFile, SampleSession.dataman; by rewrite Hfile).
  assert (∀ name, name ∈ UtilsTRC.marker_names trc →
                  ∃ v, UtilsTRC.marker trc name = Ok v) as Hok.
  { intros name Hname. eexists. unfold trc, SampleSession.trc_of.
    cbn [UtilsTRC.marker]. by rewrite bool_decide_eq_true_2. }
  exact (trc_2_dict_collects_the_markers (dataman := SampleSession.dataman)
           "/data/walk.trc" data trc w Hfile Htrc Hok).
Defined.

(** Witness of X20: the record of the first camera is there, that of the
    second is not. *)
Lemma view_pickle_files_stops_at_the_first_missing_record_witness :
  let w := Sample.start
             {[ViewPickleFiles.intrinsics_path "SONYRX0-II-Cam1"
               := "{imageSize: 1}"]} in
  ViewPickleFiles.script (ext := Sample.externals) w
  = (Raise (FileNotFoundError
              (ViewPickleFiles.intrinsics_path "SONYRX0-II-Cam2")), w).
Proof.
  intros w.
  refine (view_pickle_files_stops_at_the_first_missing_record
            (ext := Sample.externals)
            ["SONYRX0-II-Cam1"] _ "SONYRX0-II-Cam2" w eq_refl _ _).
  - intros c ->%list_elem_of_singleton.
    exists "{imageSize: 1}", (PDict [("imageSize", PInt 1)]).
    split; [vm_compute; reflexivity|]. split; [done|].
    vm_compute; reflexivity.
  - vm_compute; reflexivity.
Defined.

(** Witness of X24: a session name without [subject]. *)
Lemma session_without_subject_is_a_NameError_witness :
  SubjectId.extract_subject_id_from_session (builtins := SampleInt.builtins)
    "Session_17"
  = Raise (NameError "re").
Proof.
  exact (session_without_subject_is_a_NameError
           (builtins := SampleInt.builtins) "Session_17" eq_refl).
Defined.

(** Witness of X25: [Subject17], and a name with a suffix. *)
Lemma subject_prefix_is_dropped_before_parsing_witness :
  SubjectId.extract_subject_id_from_session (builtins := SampleInt.builtins)
    "Subject17"
  = Ok (PInt 17)
  ∧ SubjectId.extract_subject_id_from_session (builtins := SampleInt.builtins)
      "subject17_day2"
    = Ok PNone.
Proof.
  split.
  - exact (subject_prefix_is_dropped_before_parsing
             (builtins := SampleInt.builtins) "Subject17" "17"
             eq_refl eq_refl).
  - exact (subject_prefix_is_dropped_before_parsing
             (builtins := SampleInt.builtins) "subject17_day2" "17_day2"
             eq_refl eq_refl).
Defined.
